(* ===== verification/_CoqProject ===== *)
-Q . S2P
Prelude.v
PyValue.v
ListMerge.v
PyStr.v
ReSyntax.v
ReParseFuel.v
ReMatch.v
ReFuel.v
ReComplete.v
RegexSplit.v
Calendar.v
DateTime.v
PyFloat.v
Timedelta.v
Strftime.v
Strptime.v
DatetimeModify.v
FormatRoundtrip.v
