(* ===== verification/Prelude.v ===== *)
(** * Verification of the playbook custom functions (ekmixon/playbooks)

    The repository ships three custom functions that a SOAR playbook host
    ("phantom") calls with named parameters; each returns a JSON
    serialisable value and writes free text to [phantom.debug]:

    - [src/custom_functions/list_merge.py]  [list_merge(input_1..input_10)]
      flattens up to ten values into a list of [{"item": v}] records;
    - [src/custom_functions/regex_split.py] [regex_split(input_string,
      regex, strip_whitespace)] splits a string with Python's [re.split];
    - [src/custom_functions/datetime_modify.py] [datetime_modify(...)]
      parses a timestamp with [strptime], shifts it by a [timedelta] and
      reports the new timestamp, the epoch time and the shift in seconds.

    The three functions share no state; they interact only with the host
    (parameters in, one value out, a debug log) and with the Python
    runtime (truthiness, [isinstance], [json.dumps], [str] methods, the
    [re] module, the [datetime] module, binary64 floats).  The runtime is
    CPython 3.11 on glibc; the [re] parser is the one of 3.7 to 3.10
    (3.11's possessive repeats and atomic groups are not modelled).

    ** Layout of the library (files in dependency order)

    Each file holds one Module of its own name ([Prelude.Prelude],
    [ListMerge.ListMerge], ...), re-exported where the others use it.

    - [Prelude] (this file): the effect model shared by all functions.
      A computation [PyM L A] threads the debug log (a list of structured
      messages of type [L], oldest first) and ends in [Ok a] or in a
      raised Python exception [Err e] ([py_exc]: the exception class and
      its message).  [debug] is [phantom.debug]; [raise] is Python's
      [raise].  The log keeps the values each f-string interpolates, not
      their rendering as text.  Pure library code that can fail (the C
      code of [_datetimemodule.c]) is a function into [result], chained
      with [rbind] (notation [x <-? r ;; k]) and called with
      [of_result].  Three predicates on computations carry the generic
      reasoning, each with closure lemmas in a hint database:
      [log_oblivious] (the result does not depend on earlier log entries
      and the log only grows; database [pylog]), [raises_only P] (every
      exception satisfies [P]; database [pyexc]) and [returns Q].
      [res_only P r] is the same classification for pure fallible code
      (database [pyres], tactic [res_only_tac]); [lib_exc] is the class
      the library code stays in: [ValueError], [OverflowError],
      [re.error] or the [Unmodelled] marker.
    - [PyValue]: Python values as the host passes them ([pyval]: [None],
      [bool], [int] as [Z], [float] as an IEEE binary64 [spec_float],
      [str], [list], [tuple], [dict] as an association list in insertion
      order, and an opaque object), truthiness ([truthy]), [isinstance]
      for [list], [int] (booleans included) and [float], [json.dumps]'s
      acceptance test with the [assert json.dumps(outputs)] line of every
      function ([assert_json]), and [AttributeError]s.
    - [ListMerge]: [list_merge.py].  [merge_items] is the inner
      [for item in input_value] loop, [merge_slot] one iteration of the
      outer loop, [merge_loop] the loop over the enumerated slots,
      [list_merge] the whole function; the list [outputs] and the counter
      [item_count] are threaded through them.
    - [PyStr]: the [str] operations: [str.replace] ([py_replace],
      CPython's left-to-right scan, with fuel the length of the string),
      [str.lower], [str.strip], [repr], [int()] of a string of digits and
      the decimal formatting of integers ([%d], [%0<w>d], [str(int)]).
      Strings are ASCII.  [fixed_digits w n], the last [w] digits, is the
      reference the printing ([zero_pad], [str_of_Z]) and the reading
      ([int_of_digits]) of integers are proved against.
    - [ReSyntax]: [sre_parse] for the pattern language: the one-token-
      ahead tokenizer whose loading of a trailing backslash raises at
      once, escapes, classes, [{m,n}] with its literal-brace fallback and
      its checks, groups, comments, alternation; the errors of CPython
      ([re.error], [OverflowError]) with their messages.  Named groups,
      look-around, inline flags, back-references and numeric escapes are
      answered with [PUnsup], reported as the non-Python outcome
      [Unmodelled].  Fuel [2 * tokens + 2] bounds the recursive descent.
      [wf_node] is the well-formedness of a parse tree (every bounded
      repeat has [min <= max], which the parser checks).
    - [ReParseFuel]: the fuel of the parser is enough: every loop step
      consumes a token and a group its [(] ([fuel_post], the
      postcondition of a step that does not run out of fuel, with the
      tokens it leaves).
    - [ReMatch]: the [_sre] engine: [mtch] is a backtracking matcher in
      continuation-passing style, [rep_loop] the [MAX_UNTIL]/[MIN_UNTIL]
      repeat with its zero-width-iteration guard ([last_ptr]), [search]
      the scan over start positions, [split_loop]/[pattern_split] the loop
      of [pattern_split] in [_sre.c] with its [must_advance] flag.  The
      repeat loop takes fuel [min + characters left + 2]; the split loop
      [2 * length + 2], which [pattern_split_terminates] shows is enough.
      [matches r i c j c'] (the engine commits to a match of [r] from [i]
      to [j]) and [fails] come with one rule per construct, the greedy
      repeat of a character set included; they prove matches on
      subjects with unknown digits.  [mrel r i j] (with [reps]) is the
      relational semantics of the pattern language, fuel-free and
      without an order of alternatives; [mcap r i c j c'] (with
      [capreps]) the same relation recording the capture list, a
      group's span pushed when it closes, so that the groups [re.split]
      returns are pinned down.
    - [ReFuel]: the fuel of [rep_loop] is enough.  A repeat body ends
      at or after its start and never beyond the subject ([local]), so
      [rep_measure] (mandatory iterations left + characters left + one
      while an empty optional iteration is still allowed) decreases at
      every iteration, and [rep_fuel] exceeds it at the start.
    - [ReComplete]: the converse of soundness: [mtch] succeeds on every
      [mrel] match its continuation accepts; the repeat loop skips the
      empty optional iterations that its zero-width guard refuses.
      [split_lm] is [re.split] with leftmost cuts, the contract of
      [pattern_split].
    - [RegexSplit]: [regex_split.py]: [strip_flag], [collapse_backslashes],
      [re_split], [strip_all] and the whole function [regex_split].
    - [Calendar]: the proleptic Gregorian calendar of [_datetimemodule.c]:
      [is_leap], [days_in_month], [days_before_year], [ymd_to_ord] and
      CPython's [ord_to_ymd] (400/100/4/1-year cycles, the month estimate
      [(n + 50) >> 5] corrected once).
    - [DateTime]: naive [datetime] and [timedelta] records; the carries
      [normalize_pair], [normalize_y_m_d], [normalize_datetime],
      [normalize_d_s_us]; the constructors' checks ([check_date_args],
      [check_time_args], [new_datetime], [check_delta_day_range],
      [new_delta]); [microseconds_to_delta]; [add_datetime_timedelta]
      ([datetime + timedelta]) and [datetime_subtract].  Fields are [Z];
      the one [int] conversion that can fail ([_PyLong_AsInt]) is
      written out.  The reference semantics is the count of microseconds
      since 0001-01-01 ([to_us], [from_us]).
    - [PyFloat]: binary64 as [SpecFloat] ([prec = 53], [emax = 1024]),
      with [modf], C's [round], [PyLong_FromDouble] and its errors, the
      conversion of an [int] to a [float], and the correctly rounded true
      division of two [int]s.
    - [Timedelta]: [timedelta(seconds=x)] ([accum] and the end of
      [delta_new]: the [leftover_us] of a [float] argument rounded half to
      even) and [total_seconds()].
    - [Strftime]: [datetime.strftime]: [wrap_strftime] ([%f], [%z], [%Z],
      the format read up to its first NUL) and glibc's [strftime] for
      [%Y %C %y %m %d %e %j %H %M %S %n %t %%] ([%Y] unpadded; unknown
      conversions copied; locale or week conversions and flags give
      [Unmodelled]).
    - [Strptime]: [datetime.strptime] ([Lib/_strptime.py]): the escaping
      and whitespace substitution of [TimeRE.pattern], its errors ("bad
      directive", "stray %"), the regular expressions of [TimeRE] for
      [%Y %y %m %d %H %M %S %f %j %%] (their parse trees are the parses
      of the source texts by [ReSyntax]), the duplicate-group [re.error],
      [IGNORECASE] (literals and sets lowered, the subject lowered, the
      groups cut from the original), the match at position 0 with the
      "unconverted data remains" check, the conversions of the groups, the
      date checks and the [datetime] constructor.
    - [DatetimeModify]: [datetime_modify.py] step by step, with the
      current time as a parameter [now]: defaults, [strptime], unit and
      amount validation, the unused [KeyError] branch, the conversion to
      seconds ([int] or binary64 product), [timedelta], the addition,
      [strftime], the epoch time through [utcfromtimestamp(0)] and
      [total_seconds], and the [json.dumps] assertion.
    - [FormatRoundtrip]: the default format ["%Y-%m-%dT%H:%M:%S.%fZ"]
      through [strftime] and back through [strptime]: the printed text
      [subject dt], the compiled pattern [default_regex] (checked equal
      to what [Strptime.compile] builds), its match on the text by the
      rules of [ReMatch] (the two-digit groups by cases on the field's
      value), the conversions of the groups, and two calls of
      [datetime_modify] in a row.

    Differential tests against CPython 3.11 (outside the library) agree
    on 5,200 [re.split] cases, 1,500 [strptime] and 1,200 [strftime]
    cases, 800 [timedelta(seconds=float)] cases and 1,000 calls of the
    real [datetime_modify] source, floats compared bit for bit.

    ** Theorems

    - DatetimeModify: on a parsable input, a valid unit and a numeric
      amount the function is the microsecond-count reference (the parsed
      count plus the timedelta's, [OverflowError] out of range, the
      epoch time the difference of counts over [10 ^ 6]); a zero amount
      is the identity; the unit and amount errors and where they come;
      every exception it raises is a library exception or a [TypeError]
      naming an argument that is a true non-[str] value, so the [KeyError]
      branch is unreachable and the [json.dumps] assertion never fails;
      an [int] amount beyond [999999999] days raises [OverflowError],
      whose message depends on whether the day count fits a 32-bit C
      [int];
      every value it returns is the three-key dict with an [int] or
      [float], a [str] and a [float]; a successful call logs exactly
      five messages in the order of the source;
      behaviours the spec does not expect, each for every input: a
      [bool] amount gives what the [int] [0] or [1] gives, and a NaN or
      infinite [float] amount passes the validation and raises
      [ValueError] or [OverflowError] in [timedelta]; two examples
      (the current time through a date-less format, a repeated
      directive raising [re.error]) document findings.
    - FormatRoundtrip: [strptime(strftime(dt, f), f) = dt] for the
      default format and every valid datetime from the year 1000; the
      spec's shift-back round trip: shifting the text by [n] units and
      the result by [-n] gives the text back, for [int] amounts, when
      both datetimes are in range and from the year 1000 on; for every
      valid datetime before the year 1000 the printed text (unpadded
      year) makes [datetime_modify] raise [ValueError]; from the year
      1000 on, the lower-cased text gives the same outcome as the text
      ([IGNORECASE]).
    - DateTime: [datetime + timedelta] equals the addition of microsecond
      counts, with [OverflowError] exactly out of range (every branch of
      [normalize_y_m_d] checked against the ordinal); [to_us]/[from_us]
      are inverse bijections between valid datetimes and counts in
      range; [microseconds_to_delta] and
      [datetime - datetime] give the timedelta of the count.
    - Every operation of [DateTime], [Timedelta], [Strftime] and
      [Strptime] raises only [lib_exc] exceptions (lemmas [*_exc], by
      the [pyres] hints; the scans by induction on the length of the
      format).
    - Calendar: [ord_to_ymd] and [ymd_to_ord] are inverse on the whole
      range 0001-01-01 .. 9999-12-31.  Proof: one 400-year cycle is
      checked by [vm_compute] (146,097 ordinals, 148,800 dates), and the
      calendar is periodic with period 400 years = [DI400Y] days.
    - Timedelta: [timedelta(seconds=n)] for an [int] is exact or raises
      [OverflowError] beyond [MAX_DELTA_DAYS].
    - Strptime: the parse trees of the literal pieces agree with the
      [re] parser on every character (a lemma of the model).
    - ListMerge: the functional characterisation, the shape invariant,
      the assertion cannot fail on serialisable inputs, one summary
      message per slot, the log is a side channel; examples: tuples and
      nested lists stay whole, the spec's examples.
    - RegexSplit: the classification of every exception it raises (the
      [json.dumps] assertion is unreachable); the [Unmodelled] marker
      only for a pattern construct outside the subset (the fuel of the
      parser and of the split loop never runs out, so every other
      outcome is a Python outcome); with stripping on, any [None] piece
      (a group that took no part in a match) makes it raise
      [AttributeError]; its result in terms of [re.split]: one
      [{"item": piece}] record per piece, stripped when the flag says
      so, and the log message with those pieces; examples: the spec's
      examples and where the code differs from it, capturing groups,
      a boolean flag raising [AttributeError]; the log is a side
      channel.
    - PyStr: collapsing doubled backslashes undoes doubling; [strip]
      removes exactly the surrounding whitespace.
    - ReMatch: [mtch], [rep_loop] and [search] are sound for [mcap]
      (hence for [mrel]) on well-formed trees, captures included; the
      split loop terminates within its fuel.
    - ReFuel / ReComplete: any fuel above [rep_fuel] gives the same
      answer, so a failure of [mtch] is never fuel exhaustion; [mtch]
      is complete for [mrel]; [search] returns a match at the leftmost
      position with an admissible [mrel] match, and answers [None]
      only when there is none; [re.split] cuts at leftmost matches,
      returns between the pieces the groups the match records in
      [mcap] ([None] for a group outside it), and no match starts in
      its last piece.
    - ReSyntax: every tree the parser returns is well-formed; the parser
      raises only [re.error] and [OverflowError]; ReParseFuel: it never
      runs out of fuel, so [PFuel] is never an outcome of [re.split].

    ** Further work

    The [float] items below need the exactness of [binary_normalize]
    and of the [SpecFloat] operations on integers, which the Standard
    Library's [SpecFloat] does not prove (the development builds on
    [SpecFloat] alone, without Flocq).

    - [FormatRoundtrip]: the round trip for [float] amounts (their
      rounding to microseconds) and for other formats built from the
      modelled directives.
    - [Timedelta]/[PyFloat]: an integral [float] number of seconds is
      exact; the microseconds of a [float] are within one of [x * 10^6];
      [total_seconds] is exact on whole seconds below [2^53].
    - [DatetimeModify]: the [OverflowError]s of large [float] amounts.
    - [ReMatch]: which of the [mrel] matches at the leftmost position
      [_sre] picks (its priority order on alternatives and repeats).

    ** Not modelled

    The host itself (parameter resolution, routing of outputs), the
    rendering of debug messages as text, Unicode beyond ASCII, the [re]
    features listed above, the locale- and week-based [strftime] and
    [strptime] directives, time zones (the datetimes are naive),
    [datetime.now()] (a parameter), and circular Python objects (which
    [json.dumps] rejects with [ValueError]; the value model is a tree). *)

From Stdlib Require Import String List Lia.
Import ListNotations.

Module Prelude.

(** ** Python exceptions *)

(** [Unmodelled] is not a Python exception: it marks a call whose
    behaviour lies outside the modelled subset of a library (a regular
    expression feature the [re] model does not cover), about which the
    development claims nothing. *)
Inductive exc_class : Type :=
| ValueError | KeyError | TypeError | AttributeError | OverflowError
| ReError | AssertionError | Unmodelled.

Record py_exc : Type := mk_exc { exc_kind : exc_class; exc_msg : string }.

Inductive result (A : Type) : Type :=
| Ok (a : A)
| Err (e : py_exc).
Arguments Ok {A} a.
Arguments Err {A} e.

(** ** The effect monad: debug log and exceptions *)

Definition PyM (L A : Type) : Type := list L -> result A * list L.

Definition ret {L A} (a : A) : PyM L A := fun tr => (Ok a, tr).

Definition bind {L A B} (c : PyM L A) (f : A -> PyM L B) : PyM L B :=
  fun tr =>
    match c tr with
    | (Ok a, tr') => f a tr'
    | (Err e, tr') => (Err e, tr')
    end.

Definition raise {L A} (k : exc_class) (msg : string) : PyM L A :=
  fun tr => (Err (mk_exc k msg), tr).

(** [phantom.debug(msg)]: appends one message to the log. *)
Definition debug {L} (m : L) : PyM L unit := fun tr => (Ok tt, tr ++ [m]).

(** Running a function from an empty log. *)
Definition run {L A} (c : PyM L A) : result A * list L := c [].

Declare Scope py_scope.
Delimit Scope py_scope with py.
Notation "x <- c1 ;; c2" := (bind c1 (fun x => c2))
  (at level 100, c1 at next level, right associativity) : py_scope.
Notation "' p <- c1 ;; c2" := (bind c1 (fun x => match x with p => c2 end))
  (at level 100, p pattern, c1 at next level, right associativity) : py_scope.
Notation "c1 ;; c2" := (bind c1 (fun _ => c2))
  (at level 100, right associativity) : py_scope.
Open Scope py_scope.

(** ** Pure fallible code

    The C code of a library ([_datetimemodule.c]) signals an exception by
    returning [NULL] with the exception set; such code is a function into
    [result], sequenced with [rbind]. *)

Definition fail {A} (k : exc_class) (msg : string) : result A := Err (mk_exc k msg).

Definition rbind {A B} (r : result A) (f : A -> result B) : result B :=
  match r with Ok a => f a | Err e => Err e end.

Notation "x <-? r ;; k" := (rbind r (fun x => k))
  (at level 100, r at next level, right associativity) : py_scope.
Notation "' p <-? r ;; k" := (rbind r (fun x => match x with p => k end))
  (at level 100, p pattern, r at next level, right associativity) : py_scope.

Definition is_ok {A} (r : result A) : bool := match r with Ok _ => true | Err _ => false end.

Lemma rbind_ok_inv {A B} (r : result A) (f : A -> result B) b :
  rbind r f = Ok b -> exists a, r = Ok a /\ f a = Ok b.
Proof. destruct r as [a|e]; cbn; [intros H; now exists a | discriminate]. Qed.

Lemma rbind_err_inv {A B} (r : result A) (f : A -> result B) e :
  rbind r f = Err e -> r = Err e \/ exists a, r = Ok a /\ f a = Err e.
Proof. destruct r as [a|e']; cbn; [intros H; right; now exists a | intros H; left; congruence]. Qed.

(** Calling pure fallible code from a function that logs. *)
Definition of_result {L A} (r : result A) : PyM L A := fun tr => (r, tr).

(** ** Generic lemmas on the monad *)

Lemma bind_ret_l {L A B} (a : A) (f : A -> PyM L B) tr :
  bind (ret a) f tr = f a tr.
Proof. reflexivity. Qed.

Lemma bind_assoc {L A B C} (c : PyM L A) (f : A -> PyM L B) (g : B -> PyM L C) tr :
  bind (bind c f) g tr = bind c (fun a => bind (f a) g) tr.
Proof. unfold bind. destruct (c tr) as [[a|e] tr']; reflexivity. Qed.

Lemma bind_ok {L A B} (c : PyM L A) (f : A -> PyM L B) tr a tr' :
  c tr = (Ok a, tr') -> bind c f tr = f a tr'.
Proof. unfold bind. intros ->. reflexivity. Qed.

Lemma bind_err {L A B} (c : PyM L A) (f : A -> PyM L B) tr e tr' :
  c tr = (Err e, tr') -> bind c f tr = (Err e, tr').
Proof. unfold bind. intros ->. reflexivity. Qed.

(** What a sequenced computation can have done: failed in its first part,
    or run the second part on the first part's value. *)
Lemma bind_inv {L A B} (c : PyM L A) (f : A -> PyM L B) tr r tr' :
  bind c f tr = (r, tr') ->
  (exists e, c tr = (Err e, tr') /\ r = Err e) \/
  (exists a tr1, c tr = (Ok a, tr1) /\ f a tr1 = (r, tr')).
Proof.
  unfold bind. destruct (c tr) as [[a|e] tr1] eqn:Hc; intros H.
  - right. now exists a, tr1.
  - left. injection H as <- <-. now exists e.
Qed.

Create Rewrite HintDb pyrw.
#[export] Hint Rewrite @bind_ret_l @bind_assoc : pyrw.

(** ** The log is a side channel

    A computation is log-oblivious when its result does not depend on the
    messages logged before it and when it only appends to the log. *)

Definition log_oblivious {L A} (c : PyM L A) : Prop :=
  forall tr, c tr = (fst (c []), tr ++ snd (c [])).

Lemma ret_oblivious {L A} (a : A) : log_oblivious (L:=L) (ret a).
Proof. intros tr. unfold ret. simpl. now rewrite app_nil_r. Qed.

Lemma raise_oblivious {L A} k msg : log_oblivious (L:=L) (A:=A) (raise k msg).
Proof. intros tr. unfold raise. simpl. now rewrite app_nil_r. Qed.

Lemma debug_oblivious {L} (m : L) : log_oblivious (debug m).
Proof. intros tr. reflexivity. Qed.

Lemma bind_oblivious {L A B} (c : PyM L A) (f : A -> PyM L B) :
  log_oblivious c -> (forall a, log_oblivious (f a)) -> log_oblivious (bind c f).
Proof.
  intros Hc Hf tr. unfold bind.
  rewrite (Hc tr), (Hc []). simpl.
  destruct (fst (c [])) as [a|e]; simpl.
  - rewrite (Hf a (tr ++ _)), (Hf a (snd (c []))). simpl.
    now rewrite app_assoc.
  - reflexivity.
Qed.

(** A match on a boolean or an option keeps obliviousness. *)
Lemma if_oblivious {L A} (b : bool) (c1 c2 : PyM L A) :
  log_oblivious c1 -> log_oblivious c2 ->
  log_oblivious (if b then c1 else c2).
Proof. now destruct b. Qed.

Create HintDb pylog discriminated.
#[export] Hint Resolve ret_oblivious raise_oblivious debug_oblivious
  bind_oblivious if_oblivious : pylog.

(** Proves [log_oblivious] goals by unfolding into [bind]s and case splits. *)
Ltac oblivious :=
  repeat first
    [ progress eauto with pylog
    | apply bind_oblivious; intros
    | match goal with
      | |- log_oblivious (match ?x with _ => _ end) => destruct x
      end ].

(** Results of a log-oblivious computation started from any log. *)
Lemma oblivious_run {L A} (c : PyM L A) tr :
  log_oblivious c -> fst (c tr) = fst (run c) /\ snd (c tr) = tr ++ snd (run c).
Proof. intros H. rewrite (H tr). split; reflexivity. Qed.

(** ** Which exceptions a computation raises

    [raises_only P c]: every exception [c] raises satisfies [P]; the
    hint database [pyexc] proves it through [bind], [ret], [debug] and
    case splits, leaving the [raise]s to show. *)

Definition raises_only {L A} (P : py_exc -> Prop) (c : PyM L A) : Prop :=
  forall tr e tr', c tr = (Err e, tr') -> P e.

Lemma ret_raises_only {L A} P (a : A) : raises_only (L:=L) P (ret a).
Proof. intros tr e tr' H. discriminate H. Qed.

Lemma debug_raises_only {L} P (m : L) : raises_only P (debug m).
Proof. intros tr e tr' H. discriminate H. Qed.

Lemma raise_raises_only {L A} (P : py_exc -> Prop) k msg :
  P (mk_exc k msg) -> raises_only (L:=L) (A:=A) P (raise k msg).
Proof. intros HP tr e tr' H. unfold raise in H. injection H as <- _. exact HP. Qed.

Lemma bind_raises_only {L A B} P (c : PyM L A) (f : A -> PyM L B) :
  raises_only P c -> (forall a, raises_only P (f a)) -> raises_only P (bind c f).
Proof.
  intros Hc Hf tr e tr' H. apply bind_inv in H as [[e' [H1 He]] | [a [tr1 [_ H2]]]].
  - injection He as ->. exact (Hc _ _ _ H1).
  - exact (Hf a _ _ _ H2).
Qed.

Lemma raises_only_weaken {L A} (P Q : py_exc -> Prop) (c : PyM L A) :
  (forall e, P e -> Q e) -> raises_only P c -> raises_only Q c.
Proof. intros HPQ Hc tr e tr' H. exact (HPQ e (Hc _ _ _ H)). Qed.

Lemma if_raises_only {L A} P (b : bool) (c1 c2 : PyM L A) :
  raises_only P c1 -> raises_only P c2 -> raises_only P (if b then c1 else c2).
Proof. now destruct b. Qed.

Create HintDb pyexc discriminated.
#[export] Hint Resolve ret_raises_only debug_raises_only bind_raises_only
  if_raises_only : pyexc.

(** [returns Q c]: every value [c] returns satisfies [Q]. *)
Definition returns {L A} (Q : A -> Prop) (c : PyM L A) : Prop :=
  forall tr a tr', c tr = (Ok a, tr') -> Q a.

Lemma ret_returns {L A} (Q : A -> Prop) (a : A) : Q a -> returns (L:=L) Q (ret a).
Proof. intros HQ tr a' tr' H. injection H as <- _. exact HQ. Qed.

Lemma bind_raises_only_post {L A B} P (Q : A -> Prop) (c : PyM L A) (f : A -> PyM L B) :
  raises_only P c -> returns Q c -> (forall a, Q a -> raises_only P (f a)) ->
  raises_only P (bind c f).
Proof.
  intros Hc HQ Hf tr e tr' H. apply bind_inv in H as [[e' [H1 He]] | [a [tr1 [Ha H2]]]].
  - injection He as ->. exact (Hc _ _ _ H1).
  - exact (Hf a (HQ _ _ _ Ha) _ _ _ H2).
Qed.

Lemma bind_returns {L A B} (Q1 : A -> Prop) (Q : B -> Prop) (c : PyM L A) (f : A -> PyM L B) :
  returns Q1 c -> (forall a, Q1 a -> returns Q (f a)) -> returns Q (bind c f).
Proof.
  intros Hc Hf tr b tr' H. apply bind_inv in H as [[e' [_ He]] | [a [tr1 [Ha H2]]]].
  - discriminate He.
  - exact (Hf a (Hc _ _ _ Ha) _ _ _ H2).
Qed.

Lemma raise_returns {L A} (Q : A -> Prop) k msg : returns (L:=L) Q (raise k msg).
Proof. intros tr a tr' H. discriminate H. Qed.

Lemma returns_True {L A} (c : PyM L A) : returns (fun _ => True) c.
Proof. intros tr a tr' _. exact I. Qed.

Lemma returns_weaken {L A} (Q Q' : A -> Prop) (c : PyM L A) :
  (forall a, Q a -> Q' a) -> returns Q c -> returns (L:=L) Q' c.
Proof. intros HQ Hc tr a tr' H. exact (HQ a (Hc _ _ _ H)). Qed.

(** The exception of a run, when there is one. *)
Lemma raises_only_run {L A} P (c : PyM L A) e :
  raises_only P c -> fst (run c) = Err e -> P e.
Proof.
  intros Hc. unfold run. destruct (c []) as [r tr] eqn:H. simpl. intros ->. exact (Hc _ _ _ H).
Qed.

Lemma returns_run {L A} Q (c : PyM L A) a :
  returns Q c -> fst (run c) = Ok a -> Q a.
Proof.
  intros Hc. unfold run. destruct (c []) as [r tr] eqn:H. simpl. intros ->. exact (Hc _ _ _ H).
Qed.

Ltac raises_only_tac :=
  repeat first
    [ progress eauto with pyexc
    | apply bind_raises_only; intros
    | apply raise_raises_only
    | match goal with
      | |- raises_only _ (match ?x with _ => _ end) => destruct x
      end ].

(** Proves [returns Q c] down to the values [c] returns: the earlier
    steps of a sequence only need to return something, a [raise]
    returns nothing, and case splits keep their equation. *)
Ltac returns_tac :=
  repeat first
    [ apply raise_returns
    | apply ret_returns
    | eapply bind_returns; [apply returns_True | intros ? _]
    | match goal with
      | |- returns _ (match ?x with _ => _ end) => destruct x eqn:?
      | |- returns _ (if ?b then _ else _) => destruct b eqn:?
      end ].

(** ** Which exceptions pure fallible code raises

    [res_only P r]: if [r] is an exception, it satisfies [P]; the hint
    database [pyres] and [res_only_tac] prove it through [rbind], [fail]
    and case splits, as [raises_only] does for computations. *)

Definition res_only {A} (P : py_exc -> Prop) (r : result A) : Prop :=
  forall e, r = Err e -> P e.

Lemma ok_res_only {A} P (a : A) : res_only P (Ok a).
Proof. intros e H. discriminate H. Qed.

Lemma fail_res_only {A} (P : py_exc -> Prop) k msg : P (mk_exc k msg) -> res_only (A:=A) P (fail k msg).
Proof. intros HP e H. injection H as <-. exact HP. Qed.

Lemma rbind_res_only {A B} P (r : result A) (f : A -> result B) :
  res_only P r -> (forall a, res_only P (f a)) -> res_only P (rbind r f).
Proof. intros Hr Hf e H. destruct r as [a|e']; cbn in H; [exact (Hf a e H) | injection H as ->; exact (Hr e eq_refl)]. Qed.

Lemma res_only_weaken {A} (P Q : py_exc -> Prop) (r : result A) :
  (forall e, P e -> Q e) -> res_only P r -> res_only Q r.
Proof. intros HPQ Hr e H. exact (HPQ e (Hr e H)). Qed.

Lemma of_result_raises_only {L A} P (r : result A) : res_only P r -> raises_only (L:=L) P (of_result r).
Proof. intros Hr tr e tr' H. injection H as He _. exact (Hr e He). Qed.

(** The exceptions the library code raises on arguments of the right
    types: [ValueError], [OverflowError], [re.error], or the marker of an
    unmodelled feature. *)
Definition lib_exc (e : py_exc) : Prop :=
  exc_kind e = ValueError \/ exc_kind e = OverflowError \/ exc_kind e = ReError \/
  exc_kind e = Unmodelled.

Create HintDb pyres discriminated.
#[export] Hint Resolve ok_res_only rbind_res_only of_result_raises_only : pyres.

(** Proves a property of a concrete exception: an equation among the
    disjuncts, or a disequality of exception classes. *)
Ltac exc_goal :=
  hnf; cbn; first [ discriminate | solve [repeat (first [reflexivity | left; reflexivity | right])] ].

(** [res_only_tac_with t] also closes the premises of [rbind] with [t]
    (an induction hypothesis); [res_only_tac] uses the hints alone. *)
Ltac res_only_tac_with t :=
  repeat first
    [ apply ok_res_only
    | apply fail_res_only; exc_goal
    | solve [eauto with pyres]
    | apply rbind_res_only; [solve [t | eauto with pyres] | intros]
    | apply rbind_res_only; intros
    | match goal with
      | |- res_only _ (match ?x with _ => _ end) => destruct x
      | |- res_only _ (if ?b then _ else _) => destruct b
      end ].

Ltac res_only_tac := res_only_tac_with idtac.

(** ** Generic list lemmas *)

(** Induction on the length of a list, for scans that consume one or two
    elements at a step. *)
Lemma list_len_ind {A} (Q : list A -> Prop) :
  (forall l, (forall l', length l' < length l -> Q l') -> Q l) -> forall l, Q l.
Proof.
  intros H. assert (G : forall n l, length l <= n -> Q l).
  { induction n as [|n IH]; intros l Hl; apply H; intros l' Hl'; [lia | apply IH; lia]. }
  intros l. exact (G _ l (le_n _)).
Qed.

Lemma flat_map_singleton {A B} (f : A -> B) (l : list A) :
  flat_map (fun x => [f x]) l = map f l.
Proof. induction l as [|x l IH]; simpl; [reflexivity | now rewrite IH]. Qed.

Lemma fold_left_app_init {A B} (f : A -> list B) (l : list A) (acc : list B) :
  fold_left (fun acc x => acc ++ f x) l acc = acc ++ flat_map f l.
Proof.
  revert acc. induction l as [|x l IH]; intros acc; simpl.
  - now rewrite app_nil_r.
  - rewrite IH. now rewrite app_assoc.
Qed.

End Prelude.
Export Prelude.
