(* ===== verification/PyValue.v ===== *)
(** Python values as the playbook host passes them to the custom
    functions, with the parts of the Python runtime the functions rely on:
    truthiness ([if not x]), [isinstance(x, list)], [isinstance(x, int)]
    and [isinstance(x, float)], and the acceptance test of [json.dumps]
    behind each function's [assert json.dumps(outputs)]. *)

From Stdlib Require Import String List ZArith Bool Lia.
Local Open Scope string_scope.
From Stdlib Require Import SpecFloat.
From S2P Require Import Prelude.
Import ListNotations.
Local Set Warnings "-register-all".

Module PyValue.

(** ** Values

    [PInt] is Python's unbounded [int]; [PFloat] an IEEE binary64 value;
    [PDict] keeps the insertion order of a [dict]; [PObj name truth] is any
    other object (a [set], [bytes], a class instance): [json.dumps] refuses
    it and its truth value is the one its [__bool__]/[__len__] gives. *)
Inductive pyval : Type :=
| PNone
| PBool (b : bool)
| PInt (z : Z)
| PFloat (f : spec_float)
| PStr (s : string)
| PList (l : list pyval)
| PTuple (l : list pyval)
| PDict (kv : list (pyval * pyval))
| PObj (name : string) (truth : bool).

(** Python's truth value: [None], [False], [0], [0.0], [-0.0], [""] and
    empty containers are false; NaN and infinities are true. *)
Definition truthy (v : pyval) : bool :=
  match v with
  | PNone => false
  | PBool b => b
  | PInt z => negb (Z.eqb z 0)
  | PFloat (S754_zero _) => false
  | PFloat _ => true
  | PStr s => negb (String.eqb s "")
  | PList l | PTuple l => negb (List.forallb (fun _ => false) l)
  | PDict kv => negb (List.forallb (fun _ => false) kv)
  | PObj _ t => t
  end.

(** [isinstance(v, list)]: a tuple is not a list. *)
Definition is_list (v : pyval) : bool :=
  match v with PList _ => true | _ => false end.

(** [isinstance(v, int)]: [bool] is a subclass of [int]. *)
Definition is_int (v : pyval) : bool :=
  match v with PInt _ | PBool _ => true | _ => false end.

(** [isinstance(v, float)]. *)
Definition is_float (v : pyval) : bool :=
  match v with PFloat _ => true | _ => false end.

(** ** [json.dumps]

    With its default arguments [json.dumps] accepts [None], booleans,
    integers, floats (NaN and the infinities included, [allow_nan=True]),
    strings, lists, tuples and dicts whose keys are strings, numbers,
    booleans or [None]; anything else raises [TypeError].  The string it
    returns is never empty, so [assert json.dumps(x)] fails only through
    that [TypeError]. *)
Definition json_key_ok (k : pyval) : bool :=
  match k with
  | PNone | PBool _ | PInt _ | PFloat _ | PStr _ => true
  | _ => false
  end.

Fixpoint json_serializable (v : pyval) : bool :=
  match v with
  | PNone | PBool _ | PInt _ | PFloat _ | PStr _ => true
  | PList l | PTuple l =>
      (fix all (l : list pyval) : bool :=
         match l with [] => true | x :: r => json_serializable x && all r end) l
  | PDict kv =>
      (fix all (kv : list (pyval * pyval)) : bool :=
         match kv with
         | [] => true
         | (k, x) :: r => json_key_ok k && json_serializable x && all r
         end) kv
  | PObj _ _ => false
  end.

Definition json_error_msg : string := "Object is not JSON serializable".

(** [assert json.dumps(outputs)]. *)
Definition assert_json {L} (v : pyval) : PyM L unit :=
  if json_serializable v then ret tt
  else raise TypeError json_error_msg.

(** [type(v).__name__], as attribute errors quote it. *)
Definition type_name (v : pyval) : string :=
  match v with
  | PNone => "NoneType" | PBool _ => "bool" | PInt _ => "int" | PFloat _ => "float"
  | PStr _ => "str" | PList _ => "list" | PTuple _ => "tuple" | PDict _ => "dict"
  | PObj name _ => name
  end.

(** [v.attr] on a value that has no such attribute. *)
Definition no_attribute {L A} (v : pyval) (attr : string) : PyM L A :=
  raise AttributeError ("'" ++ type_name v ++ "' object has no attribute '" ++ attr ++ "'").

(** The record [{"item": v}] that [list_merge] and [regex_split] emit. *)
Definition item_record (v : pyval) : pyval := PDict [(PStr "item", v)].

(** ** Lemmas *)

Lemma truthy_list (l : list pyval) : truthy (PList l) = negb (Nat.eqb (length l) 0).
Proof. destruct l; reflexivity. Qed.

Lemma json_list (l : list pyval) :
  json_serializable (PList l) = forallb json_serializable l.
Proof. induction l as [|x l IH]; simpl in *; [reflexivity | now rewrite IH]. Qed.

Lemma json_item_record (v : pyval) :
  json_serializable (item_record v) = json_serializable v.
Proof. simpl. now rewrite andb_true_r. Qed.

Lemma json_records (l : list pyval) :
  json_serializable (PList (map item_record l)) = forallb json_serializable l.
Proof.
  rewrite json_list. induction l as [|x l IH]; cbn [map forallb]; [reflexivity|].
  now rewrite json_item_record, IH.
Qed.

Lemma assert_json_oblivious {L} (v : pyval) : log_oblivious (L:=L) (assert_json v).
Proof. unfold assert_json. destruct (json_serializable v); eauto with pylog. Qed.

#[export] Hint Resolve assert_json_oblivious : pylog.

End PyValue.
Export PyValue.
