(* ===== verification/ListMerge.v ===== *)
(** [src/custom_functions/list_merge.py]: the ten positional inputs are
    walked in order; a falsy input is skipped, a non-list input becomes one
    [{"item": v}] record, a list contributes one record per truthy element.
    The Python list [outputs] that the loop appends to is threaded through
    the definitions; the debug messages are kept as structured values. *)

From Stdlib Require Import String List ZArith Bool Lia.
From S2P Require Import Prelude PyValue.
Import ListNotations.

Module ListMerge.

(** The [phantom.debug] calls of [list_merge.py], by the values each
    f-string interpolates ([slot] is [index + 1]). *)
Inductive merge_log : Type :=
| LSkipping (slot : nat)                 (* "skipping input_{index + 1} because it is falsy" *)
| LMergedOne (slot : nat)                (* "merged 1 items from input_{index + 1}" *)
| LItem (input_value item : pyval)       (* "input_value is {input_value} and item is {item}" *)
| LMergedCount (count slot : nat)        (* "merged {item_count} items from input_{index + 1}" *)
| LMergedResults (outputs : list pyval). (* "merged results: {outputs}" *)

Abbreviation M := (PyM merge_log).

(** Lines 41-49: [for item in input_value: if item: ...], with
    [outputs] and [item_count] threaded. *)
Fixpoint merge_items (input_value : pyval) (items : list pyval)
  (outputs : list pyval) (item_count : nat) : M (list pyval * nat) :=
  match items with
  | [] => ret (outputs, item_count)
  | item :: rest =>
      if truthy item then
        debug (LItem input_value item) ;;
        merge_items input_value rest (outputs ++ [item_record item]) (S item_count)
      else merge_items input_value rest outputs item_count
  end.

(** Lines 27-49: one iteration of the outer loop, for input number
    [index] (counted from 0 as [enumerate] does). *)
Definition merge_slot (index : nat) (input_value : pyval) (outputs : list pyval)
  : M (list pyval) :=
  if negb (truthy input_value) then
    debug (LSkipping (index + 1)) ;; ret outputs
  else
    match input_value with
    | PList items =>
        '(outputs, item_count) <- merge_items input_value items outputs 0 ;;
        debug (LMergedCount item_count (index + 1)) ;;
        ret outputs
    | _ =>
        let outputs := outputs ++ [item_record input_value] in
        debug (LMergedOne (index + 1)) ;;
        ret outputs
    end.

(** Line 27: [for index, input_value in enumerate([...])]. *)
Fixpoint merge_loop (index : nat) (inputs : list pyval) (outputs : list pyval)
  : M (list pyval) :=
  match inputs with
  | [] => ret outputs
  | input_value :: rest =>
      outputs <- merge_slot index input_value outputs ;;
      merge_loop (S index) rest outputs
  end.

(** The whole function, lines 1-55. *)
Definition list_merge (input_1 input_2 input_3 input_4 input_5 input_6 input_7
  input_8 input_9 input_10 : pyval) : M (list pyval) :=
  outputs <- merge_loop 0 [input_1; input_2; input_3; input_4; input_5;
                           input_6; input_7; input_8; input_9; input_10] [] ;;
  debug (LMergedResults outputs) ;;
  assert_json (PList outputs) ;;
  ret outputs.

(** ** Closed forms *)

(** The values one input contributes, in order. *)
Definition slot_values (v : pyval) : list pyval :=
  if truthy v then
    match v with
    | PList items => filter truthy items
    | _ => [v]
    end
  else [].

(** The values of all inputs, in slot order then element order. *)
Definition merged_values (inputs : list pyval) : list pyval :=
  flat_map slot_values inputs.

(** The messages one input logs. *)
Definition slot_log (index : nat) (v : pyval) : list merge_log :=
  if truthy v then
    match v with
    | PList items =>
        map (LItem v) (filter truthy items)
          ++ [LMergedCount (length (filter truthy items)) (index + 1)]
    | _ => [LMergedOne (index + 1)]
    end
  else [LSkipping (index + 1)].

Fixpoint loop_log (index : nat) (inputs : list pyval) : list merge_log :=
  match inputs with
  | [] => []
  | v :: rest => slot_log index v ++ loop_log (S index) rest
  end.

Definition is_summary (m : merge_log) : bool :=
  match m with
  | LSkipping _ | LMergedOne _ | LMergedCount _ _ => true
  | _ => false
  end.

(** ** Lemmas on the loops *)

Lemma merge_items_run iv items outputs count tr :
  merge_items iv items outputs count tr =
  (Ok (outputs ++ map item_record (filter truthy items),
       count + length (filter truthy items)),
   tr ++ map (LItem iv) (filter truthy items)).
Proof.
  revert outputs count tr.
  induction items as [|x rest IH]; intros outputs count tr; simpl.
  - now rewrite !app_nil_r, Nat.add_0_r.
  - destruct (truthy x); simpl.
    + unfold bind, debug. rewrite IH. simpl.
      now rewrite <- !app_assoc, Nat.add_succ_r.
    + apply IH.
Qed.

Lemma merge_slot_run index v outputs tr :
  merge_slot index v outputs tr =
  (Ok (outputs ++ map item_record (slot_values v)), tr ++ slot_log index v).
Proof.
  unfold merge_slot, slot_values, slot_log.
  destruct (truthy v) eqn:Hv; simpl.
  - destruct v; unfold bind, debug, ret; simpl; try reflexivity.
    rewrite merge_items_run. simpl. now rewrite <- app_assoc.
  - now rewrite app_nil_r.
Qed.

Lemma merge_loop_run index inputs outputs tr :
  merge_loop index inputs outputs tr =
  (Ok (outputs ++ map item_record (merged_values inputs)),
   tr ++ loop_log index inputs).
Proof.
  revert index outputs tr.
  induction inputs as [|v rest IH]; intros index outputs tr; simpl.
  - now rewrite !app_nil_r.
  - unfold bind. rewrite merge_slot_run, IH.
    unfold merged_values. simpl.
    now rewrite map_app, !app_assoc.
Qed.

Lemma slot_log_summaries index v :
  length (filter is_summary (slot_log index v)) = 1.
Proof.
  unfold slot_log. destruct (truthy v); [destruct v|]; try reflexivity.
  rewrite filter_app. simpl.
  enough (filter is_summary (map (LItem (PList l)) (filter truthy l)) = []) as ->
    by reflexivity.
  induction (filter truthy l) as [|x r IH]; simpl; [reflexivity | exact IH].
Qed.

Lemma loop_log_summaries index inputs :
  length (filter is_summary (loop_log index inputs)) = length inputs.
Proof.
  revert index. induction inputs as [|v rest IH]; intros index; simpl; [reflexivity|].
  now rewrite filter_app, length_app, slot_log_summaries, IH.
Qed.

Lemma slot_values_truthy v x : In x (slot_values v) -> truthy x = true.
Proof.
  unfold slot_values. destruct (truthy v) eqn:Hv; [|intros []].
  destruct v; try (intros [<-|[]]; exact Hv).
  intros Hx. now apply filter_In in Hx.
Qed.

Lemma merged_values_truthy inputs x : In x (merged_values inputs) -> truthy x = true.
Proof. intros Hx. apply in_flat_map in Hx as [w [_ Hw]]. exact (slot_values_truthy w x Hw). Qed.

Lemma merge_loop_oblivious index inputs outputs :
  log_oblivious (merge_loop index inputs outputs).
Proof.
  intros tr. rewrite !merge_loop_run. reflexivity.
Qed.

Lemma list_merge_run i1 i2 i3 i4 i5 i6 i7 i8 i9 i10 tr :
  let inputs := [i1; i2; i3; i4; i5; i6; i7; i8; i9; i10] in
  list_merge i1 i2 i3 i4 i5 i6 i7 i8 i9 i10 tr =
  (if forallb json_serializable (merged_values inputs)
   then Ok (map item_record (merged_values inputs))
   else Err (mk_exc TypeError json_error_msg),
   tr ++ loop_log 0 inputs ++ [LMergedResults (map item_record (merged_values inputs))]).
Proof.
  intros inputs. unfold list_merge, bind at 1. rewrite merge_loop_run.
  cbv beta iota. unfold bind, debug, assert_json. rewrite app_nil_l, json_records.
  destruct (forallb json_serializable _); unfold ret, raise; now rewrite <- app_assoc.
Qed.

(** ** Properties of [list_merge] *)

(** C9. [list_merge] returns the [{"item": v}] records of the values of its
    ten inputs taken in slot order and, inside a list input, in element
    order, with falsy inputs and falsy list elements dropped; when one of
    these values is not JSON serialisable the final [json.dumps] raises
    [TypeError] instead.  The log holds each slot's messages in order and
    then the merged results. *)
Theorem list_merge_result i1 i2 i3 i4 i5 i6 i7 i8 i9 i10 :
  let inputs := [i1; i2; i3; i4; i5; i6; i7; i8; i9; i10] in
  run (list_merge i1 i2 i3 i4 i5 i6 i7 i8 i9 i10) =
  (if forallb json_serializable (flat_map slot_values inputs)
   then Ok (map item_record (flat_map slot_values inputs))
   else Err (mk_exc TypeError json_error_msg),
   loop_log 0 inputs
     ++ [LMergedResults (map item_record (flat_map slot_values inputs))]).
Proof. intros inputs. unfold run. now rewrite list_merge_run. Qed.

(** C21. When every input is JSON serialisable, [list_merge] returns
    normally: the [assert json.dumps(outputs)] check cannot fail. *)
Theorem list_merge_serializable_ok i1 i2 i3 i4 i5 i6 i7 i8 i9 i10 :
  Forall (fun v => json_serializable v = true)
    [i1; i2; i3; i4; i5; i6; i7; i8; i9; i10] ->
  fst (run (list_merge i1 i2 i3 i4 i5 i6 i7 i8 i9 i10))
  = Ok (map item_record (merged_values [i1; i2; i3; i4; i5; i6; i7; i8; i9; i10])).
Proof.
  intros Hall. unfold run. rewrite list_merge_run. cbn [fst].
  replace (forallb _ _) with true; [reflexivity|]. symmetry.
  apply forallb_forall. intros x Hx.
  apply in_flat_map in Hx as [v [Hv Hx]].
  rewrite Forall_forall in Hall. specialize (Hall v Hv).
  unfold slot_values in Hx. destruct (truthy v); [|destruct Hx].
  destruct v; try (destruct Hx as [<-|[]]; exact Hall).
  apply filter_In in Hx as [Hx _]. rewrite json_list, forallb_forall in Hall.
  now apply Hall.
Qed.

Lemma list_merge_serializable_ok_witness :
  Forall (fun v => json_serializable v = true)
    [PList [PInt 1; PInt 0; PInt 2]; PStr "x"; PNone; PNone; PNone;
     PNone; PNone; PNone; PNone; PNone] /\
  fst (run (list_merge (PList [PInt 1; PInt 0; PInt 2]) (PStr "x") PNone PNone
             PNone PNone PNone PNone PNone PNone))
  = Ok (map item_record (merged_values
          [PList [PInt 1; PInt 0; PInt 2]; PStr "x"; PNone; PNone; PNone;
           PNone; PNone; PNone; PNone; PNone])).
Proof.
  assert (H : Forall (fun v => json_serializable v = true)
    [PList [PInt 1; PInt 0; PInt 2]; PStr "x"; PNone; PNone; PNone;
     PNone; PNone; PNone; PNone; PNone]) by (repeat constructor).
  split; [exact H | apply (list_merge_serializable_ok _ _ _ _ _ _ _ _ _ _ H)].
Defined.

(** C15. Every record [list_merge] returns is [{"item": v}] for a truthy
    [v]: no falsy value reaches the output. *)
Theorem list_merge_items_truthy i1 i2 i3 i4 i5 i6 i7 i8 i9 i10 outs :
  fst (run (list_merge i1 i2 i3 i4 i5 i6 i7 i8 i9 i10)) = Ok outs ->
  Forall (fun o => exists v, o = item_record v /\ truthy v = true) outs.
Proof.
  unfold run. rewrite list_merge_run. cbn [fst].
  destruct (forallb _ _); intros H; [injection H as <- | discriminate H].
  apply Forall_forall. intros o Ho. apply in_map_iff in Ho as [v [<- Hv]].
  exists v. split; [reflexivity|]. exact (merged_values_truthy [i1; i2; i3; i4; i5; i6; i7; i8; i9; i10] v Hv).
Qed.

Lemma list_merge_items_truthy_witness :
  fst (run (list_merge (PList [PInt 1; PInt 0; PInt 2]) (PStr "x") PNone PNone
             PNone PNone PNone PNone PNone PNone))
  = Ok [item_record (PInt 1); item_record (PInt 2); item_record (PStr "x")] /\
  Forall (fun o => exists v, o = item_record v /\ truthy v = true)
    [item_record (PInt 1); item_record (PInt 2); item_record (PStr "x")].
Proof.
  assert (H : fst (run (list_merge (PList [PInt 1; PInt 0; PInt 2]) (PStr "x")
            PNone PNone PNone PNone PNone PNone PNone PNone))
          = Ok [item_record (PInt 1); item_record (PInt 2); item_record (PStr "x")])
    by reflexivity.
  split; [exact H | exact (list_merge_items_truthy _ _ _ _ _ _ _ _ _ _ _ H)].
Defined.

(** The spec's example: [list_merge(input_1=[1, 0, 2], input_2="x")]
    returns [[{"item": 1}, {"item": 2}, {"item": "x"}]]: the falsy [0] is
    dropped and the order is kept. *)
Example list_merge_spec_example :
  fst (run (list_merge (PList [PInt 1; PInt 0; PInt 2]) (PStr "x") PNone PNone
             PNone PNone PNone PNone PNone PNone))
  = Ok [item_record (PInt 1); item_record (PInt 2); item_record (PStr "x")].
Proof. reflexivity. Qed.

(** With all ten inputs absent, [list_merge] returns the empty list
    and logs one "skipping" message per input, then the merged results. *)
Theorem list_merge_all_absent :
  run (list_merge PNone PNone PNone PNone PNone PNone PNone PNone PNone PNone)
  = (Ok [], map LSkipping [1; 2; 3; 4; 5; 6; 7; 8; 9; 10] ++ [LMergedResults []]).
Proof. reflexivity. Qed.

(** The log has exactly one summary message ("skipping ...",
    "merged 1 items ..." or "merged N items ...") per input slot. *)
Theorem list_merge_one_summary_per_slot i1 i2 i3 i4 i5 i6 i7 i8 i9 i10 :
  length (filter is_summary (snd (run (list_merge i1 i2 i3 i4 i5 i6 i7 i8 i9 i10))))
  = 10.
Proof.
  unfold run. rewrite list_merge_run. cbn [snd].
  rewrite app_nil_l, filter_app, length_app.
  now rewrite (loop_log_summaries 0 [i1; i2; i3; i4; i5; i6; i7; i8; i9; i10]).
Qed.

(** The debug log is a side channel: the result of [list_merge] does
    not depend on what was logged before, and the call only appends. *)
Theorem list_merge_log_oblivious i1 i2 i3 i4 i5 i6 i7 i8 i9 i10 :
  log_oblivious (list_merge i1 i2 i3 i4 i5 i6 i7 i8 i9 i10).
Proof. intros tr. rewrite !list_merge_run. cbn [fst snd]. now rewrite app_nil_l. Qed.

(** Only Python lists are flattened: a tuple input, although an
    ordered sequence, becomes one record, and a list element that is
    itself a non-empty list stays one record (one level of flattening). *)
Example list_merge_tuple_and_nested :
  fst (run (list_merge (PTuple [PInt 1; PInt 2]) (PList [PList [PInt 3; PInt 4]; PList []])
             PNone PNone PNone PNone PNone PNone PNone PNone))
  = Ok [item_record (PTuple [PInt 1; PInt 2]); item_record (PList [PInt 3; PInt 4])].
Proof. reflexivity. Qed.

End ListMerge.
