(* ===== verification/PyStr.v ===== *)
(** The [str] methods that [regex_split.py] calls, on ASCII strings:
    [str.replace(old, new)] (all non-overlapping occurrences, left to
    right), [str.lower()] and [str.strip()] (Python's whitespace set,
    which for ASCII is [\t \n \v \f \r], the separators [\x1c]-[\x1f] and
    the space); and the decimal integers of [%d], [%0<w>d], [str(int)]
    and [int()], with their round trip through [fixed_digits]. *)

From Stdlib Require Import String Ascii List Bool ZArith Lia.
From S2P Require Import Prelude.
Import ListNotations.
Local Open Scope string_scope.

Module PyStr.

(** ** [str.replace] *)

(** [prefix_rest p s] is [Some r] when [s = p ++ r]. *)
Fixpoint prefix_rest (p s : string) : option string :=
  match p, s with
  | EmptyString, _ => Some s
  | String a p', String b s' => if Ascii.eqb a b then prefix_rest p' s' else None
  | String _ _, EmptyString => None
  end.

(** The scan of CPython's [replace] for a non-empty [old], with fuel
    bounding the number of characters still to scan. *)
Fixpoint replace_scan (fuel : nat) (old new s : string) : string :=
  match fuel with
  | O => s
  | S fuel' =>
      match s with
      | EmptyString => EmptyString
      | String c s' =>
          match prefix_rest old s with
          | Some r => new ++ replace_scan fuel' old new r
          | None => String c (replace_scan fuel' old new s')
          end
      end
  end.

(** [s.replace(old, new)]; an empty [old] inserts [new] before every
    character and at the end. *)
Fixpoint replace_empty (new s : string) : string :=
  match s with
  | EmptyString => new
  | String c s' => new ++ String c (replace_empty new s')
  end.

Definition py_replace (s old new : string) : string :=
  match old with
  | EmptyString => replace_empty new s
  | _ => replace_scan (String.length s) old new s
  end.

(** ** [str.lower] and [str.strip] *)

Definition ascii_lower (c : ascii) : ascii :=
  let n := nat_of_ascii c in
  if Nat.leb 65 n && Nat.leb n 90 then ascii_of_nat (n + 32) else c.

Fixpoint py_lower (s : string) : string :=
  match s with
  | EmptyString => EmptyString
  | String c s' => String (ascii_lower c) (py_lower s')
  end.

(** [Py_UNICODE_ISSPACE] on the ASCII range. *)
Definition is_space (c : ascii) : bool :=
  let n := nat_of_ascii c in
  (Nat.leb 9 n && Nat.leb n 13) || (Nat.leb 28 n && Nat.leb n 32).

Fixpoint lstrip (s : string) : string :=
  match s with
  | EmptyString => EmptyString
  | String c s' => if is_space c then lstrip s' else s
  end.

Fixpoint rstrip (s : string) : string :=
  match s with
  | EmptyString => EmptyString
  | String c s' =>
      let r := rstrip s' in
      match r with
      | EmptyString => if is_space c then EmptyString else String c EmptyString
      | _ => String c r
      end
  end.

(** [s.strip()]: the slice between the first and after the last
    non-whitespace character. *)
Definition py_strip (s : string) : string := rstrip (lstrip s).

(** ** Decimal integers: C's [%d] and [%0<w>d], Python's [str(int)] *)

(** The digits of [n >= 0], most significant first; the fuel bounds the
    number of digits. *)
Fixpoint digits (fuel : nat) (n : Z) : list Z :=
  match fuel with
  | O => []
  | S fuel' => if (n <? 10)%Z then [n] else digits fuel' (n / 10) ++ [n mod 10]%Z
  end.

Definition digit_fuel (n : Z) : nat := S (Z.to_nat (Z.log2 n)).

Definition digit_char (d : Z) : ascii := ascii_of_nat (48 + Z.to_nat d).

Definition string_of_digits (ds : list Z) : string :=
  string_of_list_ascii (map digit_char ds).

(** [str(n)] for an integer [n], and [%d]. *)
Definition str_of_Z (n : Z) : string :=
  let s := string_of_digits (digits (digit_fuel (Z.abs n)) (Z.abs n)) in
  if (n <? 0)%Z then String "-" s else s.

(** [%0<w>d] for [n >= 0]: the digits, left-padded with zeros to [w]. *)
Definition zero_pad (w : nat) (n : Z) : string :=
  let s := string_of_digits (digits (digit_fuel n) n) in
  string_of_list_ascii (repeat "0"%char (w - String.length s)) ++ s.

(** [%<w>d] with glibc's space padding ([%e]), for [n >= 0]. *)
Definition space_pad (w : nat) (n : Z) : string :=
  let s := string_of_digits (digits (digit_fuel n) n) in
  string_of_list_ascii (repeat " "%char (w - String.length s)) ++ s.

(** The value of a string of ASCII digits, as [int()] reads it; the
    spaces [int()] allows around the digits are skipped. *)
Definition int_of_digits (s : string) : Z :=
  fold_left (fun acc c =>
    let n := Z.of_nat (nat_of_ascii c) in
    if ((48 <=? n) && (n <=? 57))%Z then (10 * acc + (n - 48))%Z else acc)
    (list_ascii_of_string s) 0%Z.

(** [repr(s)] of a string of code points below 256: single quotes
    unless the string holds a single quote and no double quote; the
    backslash and the quote escaped; [\t \n \r] by name; the other
    non-printable code points as [\xhh]. *)
Definition hex_digit (n : nat) : ascii :=
  if Nat.ltb n 10 then ascii_of_nat (48 + n) else ascii_of_nat (87 + n).

Definition repr_char (quote c : ascii) : string :=
  let n := nat_of_ascii c in
  if Ascii.eqb c quote || Ascii.eqb c "\"%char then String "\" (String c EmptyString)
  else if Nat.eqb n 9 then "\t"
  else if Nat.eqb n 10 then "\n"
  else if Nat.eqb n 13 then "\r"
  else if Nat.ltb n 32 || ((Nat.leb 127 n) && (Nat.leb n 160)) || Nat.eqb n 173 then
    String "\" (String "x" (String (hex_digit (n / 16)) (String (hex_digit (n mod 16)) EmptyString)))
  else String c EmptyString.

Definition py_repr (s : string) : string :=
  let cs := list_ascii_of_string s in
  let dquote := ascii_of_nat 34 in
  let quote := if existsb (Ascii.eqb "'"%char) cs && negb (existsb (Ascii.eqb dquote) cs)
               then dquote else "'"%char in
  String quote (fold_right (fun c acc => repr_char quote c ++ acc) (String quote EmptyString) cs).

(** [c in s] for a character [c]. *)
Definition str_mem (c : ascii) (s : string) : bool := existsb (Ascii.eqb c) (list_ascii_of_string s).

(** The last [w] decimal digits of [n], most significant first: the
    reference the printing and reading of integers are checked against. *)
Fixpoint fixed_digits (w : nat) (n : Z) : list Z :=
  match w with
  | O => []
  | S w' => fixed_digits w' (n / 10)%Z ++ [(n mod 10)%Z]
  end.

(** ** Lemmas *)

Lemma str_length_app (s1 s2 : string) :
  String.length (s1 ++ s2) = String.length s1 + String.length s2.
Proof. induction s1 as [|c s1 IH]; simpl; [reflexivity | now rewrite IH]. Qed.

Lemma prefix_rest_app p r : prefix_rest p (p ++ r) = Some r.
Proof. induction p as [|a p IH]; simpl; [reflexivity|]. now rewrite Ascii.eqb_refl. Qed.

Lemma prefix_rest_sound p s r : prefix_rest p s = Some r -> s = p ++ r.
Proof.
  revert s. induction p as [|a p IH]; intros [|b s]; simpl; try congruence.
  destruct (Ascii.eqb_spec a b) as [->|]; [intros H; f_equal; now apply IH | discriminate].
Qed.

Lemma prefix_rest_length p s r : prefix_rest p s = Some r -> String.length r <= String.length s.
Proof. intros H. apply prefix_rest_sound in H. subst s. rewrite str_length_app. lia. Qed.


(** Any fuel above the length of the string gives the same scan. *)
Lemma replace_scan_fuel fuel old new s :
  old <> EmptyString -> String.length s <= fuel ->
  replace_scan fuel old new s = replace_scan (S fuel) old new s.
Proof.
  intros Hold. revert s. induction fuel as [|fuel IH]; intros [|c s] Hlen; simpl in *;
    try reflexivity; try lia.
  destruct (prefix_rest old (String c s)) as [r|] eqn:Hp.
  - f_equal. destruct old as [|a old]; [congruence|].
    apply IH. apply prefix_rest_sound in Hp. simpl in Hp. injection Hp as -> Hp.
    rewrite Hp, str_length_app in Hlen. lia.
  - f_equal. apply IH. lia.
Qed.



(** [s.replace('\\', '\\\\')]: what a transport layer that escapes
    backslashes does to a string. *)
Fixpoint double_backslashes (s : string) : string :=
  match s with
  | EmptyString => EmptyString
  | String c s' =>
      if Ascii.eqb c "\"%char then String c (String c (double_backslashes s'))
      else String c (double_backslashes s')
  end.

Definition all_space (s : string) : bool := forallb is_space (list_ascii_of_string s).

Definition first_char (s : string) : option ascii :=
  match s with EmptyString => None | String c _ => Some c end.

Fixpoint last_char (s : string) : option ascii :=
  match s with
  | EmptyString => None
  | String c EmptyString => Some c
  | String _ s' => last_char s'
  end.

Lemma prefix_rest_mismatch a p c r : a <> c -> prefix_rest (String a p) (String c r) = None.
Proof. intros H. simpl. now destruct (Ascii.eqb_spec a c). Qed.

Lemma replace_scan_double fuel s :
  String.length (double_backslashes s) <= fuel ->
  replace_scan fuel "\\" "\" (double_backslashes s) = s.
Proof.
  revert fuel. induction s as [|c s IH]; intros fuel Hlen; [now destruct fuel|].
  destruct fuel as [|fuel]; [simpl in Hlen; destruct (Ascii.eqb c "\"%char); simpl in Hlen; lia|].
  cbn [double_backslashes] in *. destruct (Ascii.eqb_spec c "\"%char) as [->|Hc].
  - cbn [replace_scan].
    replace (prefix_rest _ _) with (Some (double_backslashes s)) by reflexivity.
    cbn [append]. f_equal. apply IH. simpl in Hlen. lia.
  - cbn [replace_scan]. rewrite prefix_rest_mismatch by congruence.
    f_equal. apply IH. simpl in Hlen. lia.
Qed.

Lemma lstrip_first s :
  match first_char (lstrip s) with Some c => is_space c = false | None => True end.
Proof.
  induction s as [|c s IH]; simpl; [exact I|].
  destruct (is_space c) eqn:Hc; [exact IH | exact Hc].
Qed.

Lemma rstrip_split s :
  exists post, s = rstrip s ++ post /\ all_space post = true /\
  match last_char (rstrip s) with Some c => is_space c = false | None => True end.
Proof.
  induction s as [|c s [post [Hs [Hpost Hlast]]]]; simpl.
  - now exists EmptyString.
  - destruct (rstrip s) as [|d r] eqn:Hr.
    + destruct (is_space c) eqn:Hc.
      * exists (String c post). simpl in *. unfold all_space in *. simpl. rewrite Hc, Hpost.
        split; [now f_equal | split; [reflexivity | exact I]].
      * exists post. simpl in *. split; [now f_equal | split; [exact Hpost | exact Hc]].
    + exists post. split; [simpl; now f_equal | split; [exact Hpost|]].
      simpl. destruct r; exact Hlast.
Qed.
Lemma lstrip_split s : exists pre, s = pre ++ lstrip s /\ all_space pre = true.
Proof.
  induction s as [|c s [pre [Hs Hpre]]]; simpl.
  - now exists EmptyString.
  - destruct (is_space c) eqn:Hc.
    + exists (String c pre). simpl. unfold all_space in *. simpl. rewrite Hc, Hpre. split; [now f_equal | reflexivity].
    + now exists EmptyString.
Qed.

Lemma first_char_app_l x y : x <> EmptyString -> first_char (x ++ y) = first_char x.
Proof. now destruct x. Qed.

(** [collapse]: undoing a transport layer's backslash doubling.
    [s.replace('\\\\', '\\')] applied to a string whose backslashes were
    all doubled gives the original string back. *)
Theorem py_replace_collapse_roundtrip (s : string) :
  py_replace (double_backslashes s) "\\" "\" = s.
Proof. apply replace_scan_double. lia. Qed.

(** [str.strip()] removes exactly the leading and trailing whitespace:
    the input is some whitespace, the result, and some whitespace, and the
    result neither starts nor ends with whitespace. *)
Theorem py_strip_spec (s : string) :
  exists pre post,
    s = pre ++ py_strip s ++ post /\ all_space pre = true /\ all_space post = true /\
    match first_char (py_strip s) with Some c => is_space c = false | None => True end /\
    match last_char (py_strip s) with Some c => is_space c = false | None => True end.
Proof.
  destruct (lstrip_split s) as [pre [Hs Hpre]].
  destruct (rstrip_split (lstrip s)) as [post [Hl [Hpost Hlast]]].
  exists pre, post. unfold py_strip.
  split; [rewrite Hs at 1; now rewrite Hl at 1|].
  split; [exact Hpre|]. split; [exact Hpost|]. split; [|exact Hlast].
  pose proof (lstrip_first s) as Hfirst.
  destruct (rstrip (lstrip s)) as [|c r] eqn:Hr; [exact I|].
  rewrite Hl, first_char_app_l in Hfirst by discriminate. exact Hfirst.
Qed.

(** ** Decimal digits: printing and reading back *)

Section DecimalDigits.
Local Open Scope list_scope.

Lemma length_string_of_list_ascii l : String.length (string_of_list_ascii l) = List.length l.
Proof. induction l as [|c l IH]; cbn; [reflexivity | now rewrite IH]. Qed.

Lemma string_of_list_ascii_app l1 l2 :
  string_of_list_ascii (l1 ++ l2) = (string_of_list_ascii l1 ++ string_of_list_ascii l2)%string.
Proof. induction l1 as [|c l IH]; cbn; [reflexivity | now rewrite IH]. Qed.

Lemma length_fixed_digits w n : List.length (fixed_digits w n) = w.
Proof. revert n. induction w as [|w IH]; intros n; cbn; [reflexivity|]. rewrite length_app, IH. cbn. lia. Qed.

Lemma fixed_digits_zero k : fixed_digits k 0 = repeat 0%Z k.
Proof.
  induction k as [|k IH]; cbn; [reflexivity|]. rewrite IH.
  change (repeat 0%Z k ++ [0%Z] = 0%Z :: repeat 0%Z k). now rewrite repeat_cons.
Qed.

Lemma pow10_succ w : (10 ^ Z.of_nat (S w) = 10 * 10 ^ Z.of_nat w)%Z.
Proof. rewrite Nat2Z.inj_succ, Z.pow_succ_r by lia. reflexivity. Qed.

Lemma pow10_pos w : (0 < 10 ^ Z.of_nat w)%Z.
Proof. apply Z.pow_pos_nonneg; lia. Qed.

Lemma fixed_digits_bound w n d : In d (fixed_digits w n) -> (0 <= d < 10)%Z.
Proof.
  revert n. induction w as [|w IH]; intros n; cbn; [tauto|].
  rewrite in_app_iff. intros [H|[<-|[]]]; [exact (IH _ H) | apply Z.mod_pos_bound; lia].
Qed.

(** The digits [digits] prints, left-padded with zeros to [w], are the
    last [w] digits, when the fuel suffices and [n] has at most [w]
    digits. *)
Lemma digits_padded fuel n w :
  (0 <= n < 10 ^ Z.of_nat fuel)%Z -> (n < 10 ^ Z.of_nat w)%Z -> (1 <= w)%nat ->
  repeat 0%Z (w - List.length (digits fuel n)) ++ digits fuel n = fixed_digits w n.
Proof.
  revert n w. induction fuel as [|fuel IH]; intros n w Hf Hw H1.
  - cbn in Hf. assert (n = 0%Z) as -> by lia. cbn. rewrite app_nil_r, fixed_digits_zero. f_equal. lia.
  - cbn [digits]. destruct (n <? 10)%Z eqn:E.
    + apply Z.ltb_lt in E. cbn [List.length].
      destruct w as [|w]; [lia|]. cbn [fixed_digits].
      rewrite Z.div_small, Z.mod_small, fixed_digits_zero by lia. f_equal. f_equal. lia.
    + apply Z.ltb_ge in E. rewrite pow10_succ in Hf.
      destruct w as [|w]; [lia|].
      assert (Hw1 : (1 <= w)%nat).
      { destruct w; [cbn in Hw; lia | lia]. }
      rewrite pow10_succ in Hw. pose proof (pow10_pos fuel). pose proof (pow10_pos w).
      rewrite length_app. cbn [List.length fixed_digits].
      replace (S w - (List.length (digits fuel (n / 10)) + 1))%nat
        with (w - List.length (digits fuel (n / 10)))%nat by lia.
      rewrite app_assoc, IH; [reflexivity | | | exact Hw1].
      * split; [apply Z.div_pos; lia | apply Z.div_lt_upper_bound; lia].
      * apply Z.div_lt_upper_bound; lia.
Qed.

(** [digits] prints at least [w] digits of a number of [w] digits. *)
Lemma digits_length_ge fuel n w :
  (10 ^ (Z.of_nat w - 1) <= n < 10 ^ Z.of_nat fuel)%Z ->
  (w <= List.length (digits fuel n))%nat.
Proof.
  revert n w. induction fuel as [|fuel IH]; intros n w [Hlo Hhi].
  - cbn in Hhi. destruct w as [|w]; [lia|].
    replace (Z.of_nat (S w) - 1)%Z with (Z.of_nat w) in Hlo by lia.
    pose proof (Z.pow_pos_nonneg 10 (Z.of_nat w)). lia.
  - cbn [digits]. destruct (n <? 10)%Z eqn:E.
    + apply Z.ltb_lt in E. cbn. destruct w as [|[|w]]; [lia | lia|].
      replace (Z.of_nat (S (S w)) - 1)%Z with (Z.succ (Z.of_nat w + 0))%Z in Hlo by lia.
      rewrite Z.pow_succ_r in Hlo by lia. pose proof (Z.pow_pos_nonneg 10 (Z.of_nat w + 0)). lia.
    + apply Z.ltb_ge in E. rewrite length_app. cbn [List.length].
      destruct w as [|w]; [lia|].
      enough (w <= List.length (digits fuel (n / 10)))%nat by lia.
      apply IH. rewrite pow10_succ in Hhi. split.
      * apply Z.div_le_lower_bound; [lia|].
        destruct w as [|w]; [cbn; lia|].
        replace (Z.of_nat (S (S w)) - 1)%Z with (Z.succ (Z.of_nat (S w) - 1))%Z in Hlo by lia.
        rewrite Z.pow_succ_r in Hlo by lia. lia.
      * apply Z.div_lt_upper_bound; lia.
Qed.

(** The fuel [digit_fuel n] suffices. *)
Lemma digit_fuel_enough n : (0 <= n -> n < 10 ^ Z.of_nat (digit_fuel n))%Z.
Proof.
  intros Hn. unfold digit_fuel. rewrite Nat2Z.inj_succ, Z2Nat.id by (apply Z.log2_nonneg).
  destruct (Z.eq_dec n 0) as [->|Hn0]; [reflexivity|].
  apply Z.lt_le_trans with (2 ^ Z.succ (Z.log2 n))%Z.
  - apply Z.log2_spec. lia.
  - apply Z.pow_le_mono_l. split; [lia|lia].
Qed.


(** [%0<w>d] prints the last [w] digits of a number below [10 ^ w]. *)
Lemma zero_pad_fixed w n :
  (1 <= w)%nat -> (0 <= n < 10 ^ Z.of_nat w)%Z -> zero_pad w n = string_of_digits (fixed_digits w n).
Proof.
  intros Hw Hn. unfold zero_pad, string_of_digits.
  rewrite length_string_of_list_ascii, length_map, <- string_of_list_ascii_app.
  pose proof (digit_fuel_enough n (proj1 Hn)) as Hf.
  rewrite <- (digits_padded (digit_fuel n) n w) by lia.
  rewrite map_app, map_repeat. reflexivity.
Qed.

(** [str(n)] of a number of exactly [w] digits prints them. *)
Lemma str_of_Z_fixed w n :
  (1 <= w)%nat -> (10 ^ (Z.of_nat w - 1) <= n < 10 ^ Z.of_nat w)%Z ->
  str_of_Z n = string_of_digits (fixed_digits w n).
Proof.
  intros Hw Hn. assert (H0 : (0 <= n)%Z) by (pose proof (Z.pow_pos_nonneg 10 (Z.of_nat w - 1)); lia).
  unfold str_of_Z. rewrite Z.abs_eq by lia. replace (n <? 0)%Z with false by (symmetry; apply Z.ltb_ge; lia).
  pose proof (digit_fuel_enough n H0) as Hf.
  rewrite <- (digits_padded (digit_fuel n) n w) by lia.
  replace (w - List.length (digits (digit_fuel n) n))%nat with 0%nat; [reflexivity|].
  pose proof (digits_length_ge (digit_fuel n) n w (conj (proj1 Hn) Hf)). lia.
Qed.

Lemma digit_char_value d : (0 <= d < 10)%Z -> Z.of_nat (nat_of_ascii (digit_char d)) = (48 + d)%Z.
Proof. intros Hd. unfold digit_char. rewrite nat_ascii_embedding by lia. lia. Qed.

(** [int()] reads back the digits: the value of [fixed_digits w n] is
    [n mod 10 ^ w]. *)
Lemma int_of_digits_fixed w n : int_of_digits (string_of_digits (fixed_digits w n)) = (n mod 10 ^ Z.of_nat w)%Z.
Proof.
  unfold int_of_digits, string_of_digits. rewrite list_ascii_of_string_of_list_ascii.
  set (f := fun acc c => let n := Z.of_nat (nat_of_ascii c) in
                         if ((48 <=? n) && (n <=? 57))%Z then (10 * acc + (n - 48))%Z else acc).
  enough (G : forall acc, fold_left f (map digit_char (fixed_digits w n)) acc
                          = (acc * 10 ^ Z.of_nat w + n mod 10 ^ Z.of_nat w)%Z) by (rewrite G; lia).
  revert n. induction w as [|w IH]; intros n acc.
  - cbn. rewrite Z.mod_1_r. lia.
  - cbn [fixed_digits]. rewrite map_app, fold_left_app, IH. cbn [map fold_left].
    pose proof (Z.mod_pos_bound n 10 ltac:(lia)) as Hd. pose proof (pow10_pos w).
    unfold f. rewrite (digit_char_value _ Hd).
    replace ((48 <=? 48 + n mod 10) && (48 + n mod 10 <=? 57))%Z with true
      by (symmetry; apply andb_true_intro; split; apply Z.leb_le; lia).
    rewrite pow10_succ, Z.rem_mul_r by lia. lia.
Qed.

Lemma digit_char_cases d :
  (0 <= d < 10)%Z ->
  In (digit_char d) ["0"; "1"; "2"; "3"; "4"; "5"; "6"; "7"; "8"; "9"]%char.
Proof.
  intros Hd. assert (E : d = 0%Z \/ d = 1%Z \/ d = 2%Z \/ d = 3%Z \/ d = 4%Z \/ d = 5%Z \/ d = 6%Z \/
                         d = 7%Z \/ d = 8%Z \/ d = 9%Z) by lia.
  repeat destruct E as [->|E]; [..| subst d]; cbn; tauto.
Qed.

End DecimalDigits.

End PyStr.
