(* ===== verification/ReSyntax.v ===== *)
(** The pattern language of Python's [re] module as [regex_split.py]
    uses it ([re.split(regex, input_string)] with no flags), and CPython's
    parser for it ([sre_parse.parse], Python 3.7 to 3.10).

    The subset: literals and escaped punctuation, [.], the categories
    [\d \D \s \S \w \W], the escapes [\a \f \n \r \t \v \\] (and [\b] for
    backspace inside a class), character classes with ranges and [^],
    the anchors [^ $ \A \Z \b \B], capturing groups, non-capturing groups
    [(?:...)], comments [(?#...)], alternation, and the repeats
    [* + ? {m} {m,} {,n} {m,n}] with their lazy forms.  Named groups,
    look-around, conditionals, inline flags, back-references and the
    numeric escapes ([\x], [\u], [\U], [\N], octal) are outside the subset:
    the parser answers [PUnsup] for them instead of guessing.  The parser
    raises the errors CPython raises on the subset ([re.error], and
    [OverflowError] for repeat counts of [2^32 - 1] and more).  Every
    tree it returns is well-formed ([wf_node]: [min <= max] in every
    bounded repeat), the hypothesis of the matcher's soundness. *)

From Stdlib Require Import String Ascii List Bool NArith Lia.
From S2P Require Import Prelude.
Import ListNotations.
Local Open Scope char_scope.

Module ReSyntax.

(** ** Parse trees (the opcodes of [sre_parse]) *)

Inductive category : Type :=
| CatDigit | CatNotDigit | CatSpace | CatNotSpace | CatWord | CatNotWord.

(** Items of an [IN] set: [LITERAL], [RANGE], [CATEGORY]. *)
Inductive set_item : Type :=
| SLit (c : ascii)
| SRange (lo hi : ascii)
| SCat (k : category).

Inductive anchor : Type :=
| AtBeginning | AtBeginningString | AtEnd | AtEndString | AtBoundary | AtNonBoundary.

(** [NGroup (Some g) r] is the capturing group number [g]; [NGroup None r]
    a non-capturing group; [NSeq] and [NAlt] are a subpattern and a
    [BRANCH]; [NRepeat greedy min max r] is [MAX_REPEAT] (greedy) or
    [MIN_REPEAT], [max = None] standing for [MAXREPEAT]. *)
Inductive node : Type :=
| NEmpty
| NLit (c : ascii)
| NAny
| NIn (negate : bool) (items : list set_item)
| NAt (a : anchor)
| NGroup (g : option nat) (r : node)
| NSeq (r1 r2 : node)
| NAlt (r1 r2 : node)
| NRepeat (greedy : bool) (min : N) (max : option N) (r : node).

(** A well-formed tree: every bounded repeat has [min <= max], which
    [_parse] checks ("min repeat greater than max repeat"). *)
Fixpoint wf_node (r : node) : bool :=
  match r with
  | NGroup _ r1 => wf_node r1
  | NSeq r1 r2 | NAlt r1 r2 => wf_node r1 && wf_node r2
  | NRepeat _ mn mx r1 =>
      match mx with Some m => (mn <=? m)%N | None => true end && wf_node r1
  | _ => true
  end.

(** [_sre.MAXREPEAT]. *)
Definition MAXREPEAT : N := 4294967295.

(** ** The tokenizer ([sre_parse.Tokenizer])

    A backslash and the character after it form one token; a backslash
    that ends the pattern is the token [TBadEsc].  The tokenizer reads one
    token ahead: consuming a token loads the next one, and loading
    [TBadEsc] raises "bad escape (end of pattern)" at once. *)

Inductive token : Type :=
| TChar (c : ascii)
| TEsc (c : ascii)
| TBadEsc.

Fixpoint tokenize (s : list ascii) : list token :=
  match s with
  | [] => []
  | c :: r =>
      if Ascii.eqb c "\" then
        match r with
        | [] => [TBadEsc]
        | d :: r' => TEsc d :: tokenize r'
        end
      else TChar c :: tokenize r
  end.

(** The text of a token, as error messages quote it. *)
Definition token_text (t : token) : string :=
  match t with
  | TChar c => String c EmptyString
  | TEsc c => String "\" (String c EmptyString)
  | TBadEsc => "\"
  end.

Definition bad_escape_end : string := "bad escape (end of pattern)".

(** Outcome of a parsing step: a value with the tokens left and the number
    of groups opened so far, an exception, a construct outside the subset,
    or exhausted fuel. *)
Inductive pres (A : Type) : Type :=
| POk (a : A) (rest : list token) (groups : nat)
| PErr (k : exc_class) (msg : string)
| PUnsup (what : string)
| PFuel.
Arguments POk {A} a rest groups.
Arguments PErr {A} k msg.
Arguments PUnsup {A} what.
Arguments PFuel {A}.

(** Propagates a failure of a parsing step. *)
Definition pbind {A B} (p : pres A) (f : A -> list token -> nat -> pres B) : pres B :=
  match p with
  | POk a r g => f a r g
  | PErr k m => PErr k m
  | PUnsup w => PUnsup w
  | PFuel => PFuel
  end.

(** [source.get()]: the current token ([None] at the end) and the stream
    after it, or the error of loading a trailing backslash. *)
Definition get (ts : list token) : pres (option token) :=
  match ts with
  | [] => POk None [] 0
  | t :: r =>
      match r with
      | TBadEsc :: _ => PErr ReError bad_escape_end
      | _ => POk (Some t) r 0
      end
  end.

(** [source.next]. *)
Definition peek (ts : list token) : option token :=
  match ts with [] => None | t :: _ => Some t end.

Definition is_char (t : option token) (c : ascii) : bool :=
  match t with Some (TChar d) => Ascii.eqb c d | _ => false end.

(** [source.match(c)]: consumes the current token when it is [c]. *)
Definition smatch (ts : list token) (c : ascii) : pres bool :=
  if is_char (peek ts) c then pbind (get ts) (fun _ r _ => POk true r 0)
  else POk false ts 0.

(** ** Escapes *)

Definition mem (c : ascii) (cs : string) : bool :=
  existsb (Ascii.eqb c) (list_ascii_of_string cs).

Definition is_ascii_letter (c : ascii) : bool :=
  let n := nat_of_ascii c in
  (Nat.leb 65 n && Nat.leb n 90) || (Nat.leb 97 n && Nat.leb n 122).

Definition is_ascii_digit (c : ascii) : bool :=
  let n := nat_of_ascii c in Nat.leb 48 n && Nat.leb n 57.

(** [CATEGORIES] entries that are character categories. *)
Definition category_of (c : ascii) : option category :=
  if Ascii.eqb c "d" then Some CatDigit
  else if Ascii.eqb c "D" then Some CatNotDigit
  else if Ascii.eqb c "s" then Some CatSpace
  else if Ascii.eqb c "S" then Some CatNotSpace
  else if Ascii.eqb c "w" then Some CatWord
  else if Ascii.eqb c "W" then Some CatNotWord
  else None.

(** [CATEGORIES] entries that are anchors. *)
Definition anchor_of (c : ascii) : option anchor :=
  if Ascii.eqb c "A" then Some AtBeginningString
  else if Ascii.eqb c "Z" then Some AtEndString
  else if Ascii.eqb c "b" then Some AtBoundary
  else if Ascii.eqb c "B" then Some AtNonBoundary
  else None.

(** [ESCAPES]: [\a \b \f \n \r \t \v \\]. *)
Definition escape_char (c : ascii) : option ascii :=
  if Ascii.eqb c "a" then Some (ascii_of_nat 7)
  else if Ascii.eqb c "b" then Some (ascii_of_nat 8)
  else if Ascii.eqb c "f" then Some (ascii_of_nat 12)
  else if Ascii.eqb c "n" then Some (ascii_of_nat 10)
  else if Ascii.eqb c "r" then Some (ascii_of_nat 13)
  else if Ascii.eqb c "t" then Some (ascii_of_nat 9)
  else if Ascii.eqb c "v" then Some (ascii_of_nat 11)
  else if Ascii.eqb c "\" then Some "\"
  else None.

Definition bad_escape (c : ascii) : string := "bad escape \" ++ String c EmptyString.

(** [sre_parse._escape]: an escape outside a class. *)
Definition escape (c : ascii) : pres node :=
  match anchor_of c, category_of c with
  | Some a, _ => POk (NAt a) [] 0
  | None, Some k => POk (NIn false [SCat k]) [] 0
  | None, None =>
      match escape_char c with
      | Some d => POk (NLit d) [] 0
      | None =>
          if mem c "xuUN0123456789" then PUnsup "numeric escape or group reference"
          else if is_ascii_letter c then PErr ReError (bad_escape c)
          else POk (NLit c) [] 0
      end
  end.

(** [sre_parse._class_escape]: an escape inside a class. *)
Definition class_escape (c : ascii) : pres set_item :=
  match escape_char c with
  | Some d => POk (SLit d) [] 0
  | None =>
      match category_of c with
      | Some k => POk (SCat k) [] 0
      | None =>
          if mem c "xuUN01234567" then PUnsup "numeric escape"
          else if mem c "89" then PErr ReError (bad_escape c)
          else if is_ascii_letter c then PErr ReError (bad_escape c)
          else POk (SLit c) [] 0
      end
  end.

(** ** Character classes *)

Definition class_code (t : token) : pres set_item :=
  match t with
  | TChar c => POk (SLit c) [] 0
  | TEsc c => class_escape c
  | TBadEsc => PErr ReError bad_escape_end
  end.

Definition unterminated_set {A} : pres A := PErr ReError "unterminated character set".

(** After the item [this] (parsed as [code1]) of a set: a [-] starts a
    range ending with [that]; a [-] followed by [[]] is a literal and ends
    the set.  [k] continues the loop; [done] ends the set. *)
Definition class_item (this : token) (code1 : set_item) (ts : list token)
  (items : list set_item)
  (k : list token -> list set_item -> pres (list set_item)) : pres (list set_item) :=
  pbind (smatch ts "-") (fun dash ts1 _ =>
    if negb dash then k ts1 (code1 :: items)
    else
      pbind (get ts1) (fun that ts2 _ =>
        match that with
        | None => unterminated_set
        | Some that =>
            if is_char (Some that) "]" then POk (rev (SLit "-" :: code1 :: items)) ts2 0
            else
              pbind (class_code that) (fun code2 _ _ =>
                match code1, code2 with
                | SLit lo, SLit hi =>
                    if N.ltb (N_of_ascii hi) (N_of_ascii lo)
                    then PErr ReError ("bad character range " ++ token_text this ++ "-" ++ token_text that)
                    else k ts2 (SRange lo hi :: items)
                | _, _ => PErr ReError ("bad character range " ++ token_text this ++ "-" ++ token_text that)
                end)
        end)).

(** The loop of [_parse] after [[] and an optional [^]: [items] holds the
    set built so far, most recent first; a [[]] ends the set unless the
    set is still empty. *)
Fixpoint parse_class (fuel : nat) (ts : list token) (items : list set_item)
  : pres (list set_item) :=
  match fuel with
  | O => PFuel
  | S fuel' =>
      pbind (get ts) (fun this ts1 _ =>
        match this with
        | None => unterminated_set
        | Some this =>
            if is_char (Some this) "]" && negb (match items with [] => true | _ => false end)
            then POk (rev items) ts1 0
            else pbind (class_code this) (fun code1 _ _ =>
                   class_item this code1 ts1 items (parse_class fuel'))
        end)
  end.

(** ** Repeats *)

(** [while source.next in DIGITS: lo += sourceget()]. *)
Fixpoint take_digits (fuel : nat) (ts : list token) : pres (list ascii) :=
  match fuel with
  | O => PFuel
  | S fuel' =>
      match peek ts with
      | Some (TChar d) =>
          if is_ascii_digit d then
            pbind (get ts) (fun _ ts1 _ =>
              pbind (take_digits fuel' ts1) (fun ds ts2 _ => POk (d :: ds) ts2 0))
          else POk [] ts 0
      | _ => POk [] ts 0
      end
  end.

Definition N_of_digits (ds : list ascii) : N :=
  fold_left (fun acc d => (10 * acc + (N_of_ascii d - 48))%N) ds 0%N.

(** The bounds of [{lo,hi}] after the [{]: [None] when the braces are not
    well formed (the [{] is then a literal), with the checks of [_parse]. *)
Definition braces (ts : list token) : pres (option (N * option N)) :=
  pbind (take_digits (S (length ts)) ts) (fun lo ts1 _ =>
  pbind (smatch ts1 ",") (fun comma ts2 _ =>
  pbind (if comma then take_digits (S (length ts2)) ts2 else POk lo ts2 0) (fun hi ts3 _ =>
  pbind (smatch ts3 "}") (fun closed ts4 _ =>
    if negb closed then POk None ts 0
    else
      let min := match lo with [] => 0%N | _ => N_of_digits lo end in
      if (MAXREPEAT <=? min)%N then PErr OverflowError "the repetition number is too large"
      else
        match hi with
        | [] => POk (Some (min, None)) ts4 0
        | _ =>
            let max := N_of_digits hi in
            if (MAXREPEAT <=? max)%N then PErr OverflowError "the repetition number is too large"
            else if (max <? min)%N then PErr ReError "min repeat greater than max repeat"
            else POk (Some (min, Some max)) ts4 0
        end)))).

(** Applies a repeat to the last item parsed (which [repeat_check] has
    accepted); a non-capturing group is unwrapped. *)
Definition apply_repeat (greedy : bool) (min : N) (max : option N) (items : list node)
  : list node :=
  match items with
  | [] => []
  | it :: items' =>
      let body := match it with NGroup None p => p | _ => it end in
      NRepeat greedy min max body :: items'
  end.

(** The item a repeat applies to: there must be one, and it may be
    neither an anchor nor a repeat. *)
Definition repeat_check (items : list node) : pres unit :=
  match items with
  | [] | NAt _ :: _ => PErr ReError "nothing to repeat"
  | NRepeat _ _ _ _ :: _ => PErr ReError "multiple repeat"
  | _ => POk tt [] 0
  end.

(** [(?#...)]: skips to the closing parenthesis. *)
Fixpoint skip_comment (fuel : nat) (ts : list token) : pres unit :=
  match fuel with
  | O => PFuel
  | S fuel' =>
      match peek ts with
      | None => PErr ReError "missing ), unterminated comment"
      | Some _ =>
          pbind (get ts) (fun t ts1 _ =>
            if is_char t ")" then POk tt ts1 0 else skip_comment fuel' ts1)
      end
  end.

(** A subpattern as one node. *)
Fixpoint seq_of (items : list node) : node :=
  match items with
  | [] => NEmpty
  | [x] => x
  | x :: r => NSeq x (seq_of r)
  end.

(** ** [_parse] and [_parse_sub]

    [parse_seq] is the loop of [_parse]: it parses items until the end of
    the pattern, a [|] or a [)], which it leaves in place; [items] holds
    the items so far, most recent first, and [g] the number of groups
    opened.  [parse_alt] is [_parse_sub]: subpatterns separated by [|]. *)
Fixpoint parse_seq (fuel : nat) (ts : list token) (g : nat) (items : list node)
  {struct fuel} : pres (list node) :=
  match fuel with
  | O => PFuel
  | S fuel' =>
      match peek ts with
      | None => POk (rev items) ts g
      | Some this =>
        if is_char (Some this) "|" || is_char (Some this) ")" then POk (rev items) ts g
        else
        pbind (get ts) (fun _ ts1 _ =>
        match this with
        | TBadEsc => PErr ReError bad_escape_end
        | TEsc c => pbind (escape c) (fun n _ _ => parse_seq fuel' ts1 g (n :: items))
        | TChar c =>
          if Ascii.eqb c "[" then
            pbind (smatch ts1 "^") (fun neg ts2 _ =>
            pbind (parse_class fuel' ts2 [])
              (fun set ts3 _ => parse_seq fuel' ts3 g (NIn neg set :: items)))
          else if mem c "*+?{" then
            let bounds : pres (option (N * option N)) :=
              if Ascii.eqb c "?" then POk (Some (0%N, Some 1%N)) ts1 0
              else if Ascii.eqb c "*" then POk (Some (0%N, None)) ts1 0
              else if Ascii.eqb c "+" then POk (Some (1%N, None)) ts1 0
              else if is_char (peek ts1) "}" then POk None ts1 0
              else braces ts1 in
            pbind bounds (fun b ts2 _ =>
              match b with
              | None => parse_seq fuel' ts2 g (NLit c :: items)
              | Some (min, max) =>
                  pbind (repeat_check items) (fun _ _ _ =>
                  pbind (smatch ts2 "?") (fun lazy ts3 _ =>
                  parse_seq fuel' ts3 g (apply_repeat (negb lazy) min max items)))
              end)
          else if Ascii.eqb c "." then parse_seq fuel' ts1 g (NAny :: items)
          else if Ascii.eqb c "(" then
            let group : pres (option (option nat)) :=
              pbind (smatch ts1 "?") (fun ext ts2 _ =>
                if negb ext then POk (Some (Some (S g))) ts2 (S g)
                else
                  pbind (get ts2) (fun char ts3 _ =>
                    match char with
                    | None => PErr ReError "unexpected end of pattern"
                    | Some (TChar d) =>
                        if Ascii.eqb d ":" then POk (Some None) ts3 g
                        else if Ascii.eqb d "#" then
                          pbind (skip_comment (S (length ts3)) ts3) (fun _ ts4 _ => POk None ts4 g)
                        else if mem d "P=!<(aiLmsux-" then PUnsup "group extension"
                        else PErr ReError ("unknown extension ?" ++ String d EmptyString)
                    | Some t => PErr ReError ("unknown extension ?" ++ token_text t)
                    end)) in
            pbind group (fun grp ts2 g1 =>
              match grp with
              | None => parse_seq fuel' ts2 g1 items
              | Some idx =>
                  pbind (parse_alt fuel' ts2 g1) (fun p ts3 g2 =>
                  pbind (smatch ts3 ")") (fun closed ts4 _ =>
                    if closed then parse_seq fuel' ts4 g2 (NGroup idx p :: items)
                    else PErr ReError "missing ), unterminated subpattern"))
              end)
          else if Ascii.eqb c "^" then parse_seq fuel' ts1 g (NAt AtBeginning :: items)
          else if Ascii.eqb c "$" then parse_seq fuel' ts1 g (NAt AtEnd :: items)
          else parse_seq fuel' ts1 g (NLit c :: items)
        end)
      end
  end
with parse_alt (fuel : nat) (ts : list token) (g : nat) {struct fuel} : pres node :=
  match fuel with
  | O => PFuel
  | S fuel' =>
      pbind (parse_seq fuel' ts g []) (fun items ts1 g1 =>
      pbind (smatch ts1 "|") (fun bar ts2 _ =>
        if bar then
          pbind (parse_alt fuel' ts2 g1) (fun alt ts3 g2 => POk (NAlt (seq_of items) alt) ts3 g2)
        else POk (seq_of items) ts1 g1))
  end.

(** [sre_parse.parse]: the tokenizer loads the first token, then the
    whole pattern must be consumed. *)
Definition parse_fuel (ts : list token) : nat := 2 * length ts + 2.

Definition parse_pattern (p : list ascii) : pres node :=
  let ts := tokenize p in
  match ts with
  | TBadEsc :: _ => PErr ReError bad_escape_end
  | _ =>
      pbind (parse_alt (parse_fuel ts) ts 0) (fun n ts1 g =>
        match ts1 with
        | [] => POk n [] g
        | _ => PErr ReError "unbalanced parenthesis"
        end)
  end.

(** ** The parser raises only [re.error] and [OverflowError] *)

Definition errs_ok {A} (p : pres A) : Prop :=
  match p with
  | PErr k _ => k = ReError \/ k = OverflowError
  | _ => True
  end.

Lemma pbind_errs_ok {A B} (p : pres A) (f : A -> list token -> nat -> pres B) :
  errs_ok p -> (forall a r g, errs_ok (f a r g)) -> errs_ok (pbind p f).
Proof. destruct p; simpl; auto. Qed.

Ltac errs_ok_tac :=
  repeat first
    [ exact I
    | solve [left; reflexivity | right; reflexivity]
    | progress cbv zeta
    | apply pbind_errs_ok; intros
    | match goal with
      | |- errs_ok (if ?b then _ else _) => destruct b
      | |- errs_ok (match ?x with _ => _ end) => destruct x
      | H : forall _ _, errs_ok (?k _ _) |- errs_ok (?k _ _) => apply H
      end
    | progress simpl errs_ok ].

Lemma get_errs_ok ts : errs_ok (get ts).
Proof. unfold get. errs_ok_tac. Qed.

Lemma smatch_errs_ok ts c : errs_ok (smatch ts c).
Proof. unfold smatch. errs_ok_tac. apply get_errs_ok. Qed.

Lemma escape_errs_ok c : errs_ok (escape c).
Proof. unfold escape. errs_ok_tac. Qed.

Lemma class_escape_errs_ok c : errs_ok (class_escape c).
Proof. unfold class_escape. errs_ok_tac. Qed.

Lemma class_code_errs_ok t : errs_ok (class_code t).
Proof. destruct t; simpl; errs_ok_tac. apply class_escape_errs_ok. Qed.

Create HintDb reparse discriminated.
#[export] Hint Resolve get_errs_ok smatch_errs_ok escape_errs_ok class_escape_errs_ok
  class_code_errs_ok : reparse.

Lemma class_item_errs_ok this code1 ts items k :
  (forall ts' items', errs_ok (k ts' items')) -> errs_ok (class_item this code1 ts items k).
Proof. intros Hk. unfold class_item. errs_ok_tac; eauto with reparse. Qed.

Lemma parse_class_errs_ok fuel ts items : errs_ok (parse_class fuel ts items).
Proof.
  revert ts items. induction fuel as [|fuel IH]; intros ts items; simpl; [exact I|].
  errs_ok_tac; eauto with reparse; apply class_item_errs_ok; intros; apply IH.
Qed.

Lemma take_digits_errs_ok fuel ts : errs_ok (take_digits fuel ts).
Proof.
  revert ts. induction fuel as [|fuel IH]; intros ts; simpl; [exact I|].
  errs_ok_tac; eauto with reparse.
Qed.

Lemma braces_errs_ok ts : errs_ok (braces ts).
Proof. unfold braces. errs_ok_tac; eauto using take_digits_errs_ok with reparse. Qed.

Lemma repeat_check_errs_ok items : errs_ok (repeat_check items).
Proof. unfold repeat_check. errs_ok_tac. Qed.

Lemma skip_comment_errs_ok fuel ts : errs_ok (skip_comment fuel ts).
Proof.
  revert ts. induction fuel as [|fuel IH]; intros ts; simpl; [exact I|].
  errs_ok_tac; eauto with reparse.
Qed.

#[export] Hint Resolve take_digits_errs_ok braces_errs_ok repeat_check_errs_ok
  skip_comment_errs_ok parse_class_errs_ok : reparse.

Lemma parse_errs_ok fuel :
  (forall ts g items, errs_ok (parse_seq fuel ts g items)) /\
  (forall ts g, errs_ok (parse_alt fuel ts g)).
Proof.
  induction fuel as [|fuel [IHs IHa]]; split; intros; simpl; try exact I;
    errs_ok_tac; eauto with reparse.
Qed.

Lemma parse_pattern_errs_ok p : errs_ok (parse_pattern p).
Proof.
  unfold parse_pattern.
  assert (Hk : forall ts, errs_ok (pbind (parse_alt (parse_fuel ts) ts 0)
     (fun n ts1 g => match ts1 with [] => POk n [] g
                     | _ => PErr ReError "unbalanced parenthesis" end))).
  { intros ts. apply pbind_errs_ok; [apply (proj2 (parse_errs_ok _)) |].
    intros n [|t r] g; simpl; auto. }
  destruct (tokenize p) as [|[c|c|] r]; try apply Hk. simpl. auto.
Qed.


(** ** The parser returns well-formed trees *)

(** [ok_post Q p]: the value of a successful parse satisfies [Q]. *)
Definition ok_post {A} (Q : A -> Prop) (p : pres A) : Prop :=
  match p with POk a _ _ => Q a | _ => True end.

Lemma ok_post_True {A} (p : pres A) : ok_post (fun _ => True) p.
Proof. destruct p; exact I. Qed.

Lemma pbind_post {A B} (P : A -> Prop) (Q : B -> Prop) (p : pres A) f :
  ok_post P p -> (forall a r g, P a -> ok_post Q (f a r g)) -> ok_post Q (pbind p f).
Proof. destruct p; simpl; auto. Qed.

Lemma escape_wf c : ok_post (fun n => wf_node n = true) (escape c).
Proof.
  unfold escape. destruct (anchor_of c); [reflexivity|]. destruct (category_of c); [reflexivity|].
  destruct (escape_char c); [reflexivity|].
  destruct (mem c _); [exact I|]. destruct (is_ascii_letter c); [exact I | reflexivity].
Qed.

Lemma braces_bounds ts :
  ok_post (fun b => match b with Some (mn, Some mx) => (mn <=? mx)%N = true | _ => True end) (braces ts).
Proof.
  unfold braces.
  repeat (apply pbind_post with (P := fun _ => True); [apply ok_post_True | intros ? ? ? _]).
  destruct (negb _); [exact I|]. destruct (_ <=? _)%N; [exact I|].
  destruct (_ : list ascii); [exact I|].
  destruct (_ <=? _)%N; [exact I|]. destruct (_ <? _)%N eqn:E; [exact I|].
  cbn. apply N.leb_le. apply N.ltb_ge in E. exact E.
Qed.

Lemma apply_repeat_wf greedy mn mx items :
  match mx with Some m => (mn <=? m)%N | None => true end = true ->
  forallb wf_node items = true -> forallb wf_node (apply_repeat greedy mn mx items) = true.
Proof.
  intros Hb. destruct items as [|it items]; cbn; [auto|]. rewrite !andb_true_iff.
  intros [Hit Hitems]. split; [|exact Hitems]. split; [exact Hb|].
  destruct it as [| | | | |[g|] r| | |]; exact Hit.
Qed.

Lemma forallb_wf_rev items : forallb wf_node (rev items) = forallb wf_node items.
Proof.
  induction items as [|it items IH]; [reflexivity|]. cbn [rev forallb].
  rewrite forallb_app, IH. cbn [forallb]. now rewrite andb_true_r, andb_comm.
Qed.


Lemma seq_of_wf items : forallb wf_node items = true -> wf_node (seq_of items) = true.
Proof.
  induction items as [|x [|y r] IH]; cbn [seq_of forallb]; [reflexivity | now rewrite andb_true_r |].
  rewrite andb_true_iff. intros [Hx Hr]. cbn [wf_node]. rewrite Hx. exact (IH Hr).
Qed.

(** The bounds a repeat operator gives ([?], [*], [+] or [{m,n}]). *)
Ltac bounds_tac :=
  repeat match goal with |- ok_post _ (if ?b then _ else _) => destruct b end;
  first [exact (braces_bounds _) | exact I | reflexivity].

(** One step of the proof that the parser builds well-formed trees. *)
Ltac wf_tac IHs IHa :=
  repeat first
    [ exact I
    | progress cbv zeta
    | apply pbind_post with (P := fun n => wf_node n = true); [first [apply escape_wf | apply IHa] | intros ? ? ? ?]
    | apply pbind_post with (P := fun l => forallb wf_node l = true); [apply IHs; reflexivity | intros ? ? ? ?]
    | apply pbind_post with (P := fun b => match b with Some (mn, Some mx) => (mn <=? mx)%N = true | _ => True end);
        [bounds_tac | intros ? ? ? ?]
    | apply pbind_post with (P := fun _ => True); [apply ok_post_True | intros ? ? ? _]
    | apply IHs
    | match goal with
      | |- ok_post _ (if ?b then _ else _) => destruct b
      | |- ok_post _ (match ?x with _ => _ end) => destruct x
      end ].

Lemma parse_wf fuel :
  (forall ts g items, forallb wf_node items = true ->
     ok_post (fun l => forallb wf_node l = true) (parse_seq fuel ts g items)) /\
  (forall ts g, ok_post (fun r => wf_node r = true) (parse_alt fuel ts g)).
Proof.
  induction fuel as [|fuel [IHs IHa]]; split; intros; cbn [parse_seq parse_alt]; try exact I;
    wf_tac IHs IHa; cbn [ok_post wf_node forallb andb] in *;
    repeat match goal with H : _ && _ = true |- _ => apply andb_true_iff in H as [? ?] end;
    try rewrite forallb_wf_rev;
    repeat match goal with H : ?x = true |- context [?x] => rewrite H end; cbn [andb];
    auto using apply_repeat_wf, seq_of_wf.
  all: first [ rewrite andb_true_r; apply seq_of_wf; assumption
             | apply apply_repeat_wf; [|assumption];
               match goal with o : option N |- _ => destruct o end; cbn in *; auto ].
Qed.


Lemma parse_pattern_wf p : ok_post (fun r => wf_node r = true) (parse_pattern p).
Proof.
  unfold parse_pattern.
  assert (Hk : forall ts, ok_post (fun r => wf_node r = true)
     (pbind (parse_alt (parse_fuel ts) ts 0)
        (fun n ts1 g => match ts1 with [] => POk n [] g
                        | _ => PErr ReError "unbalanced parenthesis" end))).
  { intros ts. apply pbind_post with (P := fun r => wf_node r = true); [apply (proj2 (parse_wf _))|].
    intros n [|t r] g Hn; exact Hn || exact I. }
  destruct (tokenize p) as [|[c|c|] r]; try apply Hk. exact I.
Qed.

End ReSyntax.
