(* ===== verification/ReParseFuel.v ===== *)
(** The fuel of the [re] parser of [ReSyntax] is enough.

    [parse_seq], [parse_alt], [parse_class], [take_digits] and
    [skip_comment] take fuel and answer [PFuel] when it runs out, an
    outcome Python does not have.  Every step of these loops consumes a
    token, and a nested group consumes its [(] before [parse_alt] starts
    on it, so fuel [2 * tokens + 1] is enough for [parse_seq] and
    [2 * tokens + 2] for [parse_alt] (one more step to call
    [parse_seq]); the bounded loops get one more than the tokens left.
    [fuel_post Q p] is the postcondition of a parsing step that does not
    run out of fuel: [Q] holds of its value and of the tokens it leaves,
    and it is not [PFuel]. *)

From Stdlib Require Import String Ascii List Bool Arith NArith Lia.
From S2P Require Import Prelude ReSyntax.
Import ListNotations ReSyntax.

Module ReParseFuel.

Definition fuel_post {A} (Q : A -> list token -> Prop) (p : pres A) : Prop :=
  match p with
  | POk a r _ => Q a r
  | PFuel => False
  | _ => True
  end.

Lemma pbind_fuel_post {A B} (P : A -> list token -> Prop) (Q : B -> list token -> Prop)
  (p : pres A) (f : A -> list token -> nat -> pres B) :
  fuel_post P p -> (forall a r g, P a r -> fuel_post Q (f a r g)) -> fuel_post Q (pbind p f).
Proof. destruct p; cbn; auto. Qed.

Lemma fuel_post_weaken {A} (P Q : A -> list token -> Prop) (p : pres A) :
  (forall a r, P a r -> Q a r) -> fuel_post P p -> fuel_post Q p.
Proof. destruct p; cbn; auto. Qed.

Lemma fuel_post_not_fuel {A} (Q : A -> list token -> Prop) (p : pres A) :
  fuel_post Q p -> p <> PFuel.
Proof. destruct p; cbn; congruence. Qed.

(** The tokens a step leaves are at most [n]. *)
Definition within_len {A} (n : nat) (_ : A) (r : list token) : Prop := length r <= n.

Lemma get_post ts :
  fuel_post (fun t r => length r <= length ts /\ (ts <> [] -> S (length r) <= length ts) /\
                        (t <> None -> S (length r) <= length ts)) (get ts).
Proof.
  destruct ts as [|t [|[c|c|] r]]; cbn; repeat split; try lia; intros; exact I || congruence.
Qed.

Lemma smatch_post ts c :
  fuel_post (fun b r => length r <= length ts /\ (b = true -> S (length r) <= length ts)) (smatch ts c).
Proof.
  unfold smatch. destruct (is_char (peek ts) c) eqn:E.
  - apply (pbind_fuel_post _ _ _ _ (get_post ts)). intros a r g [H1 [H2 _]]. cbn.
    destruct ts as [|t ts]; [discriminate E|]. split; [lia|intros _; apply H2; discriminate].
  - cbn. split; [lia|discriminate].
Qed.

Lemma take_digits_post : forall fuel ts, length ts < fuel ->
  fuel_post (within_len (length ts)) (take_digits fuel ts).
Proof.
  induction fuel as [|fuel IH]; intros ts Hf; [lia|]. cbn [take_digits].
  destruct (peek ts) as [[d| |]|] eqn:Hp; cbn; try (unfold within_len; lia).
  destruct (is_ascii_digit d); cbn; [|unfold within_len; lia].
  apply (pbind_fuel_post _ _ _ _ (get_post ts)). intros a r g [H1 [H2 _]].
  assert (ts <> []) by (destruct ts; discriminate).
  apply (pbind_fuel_post _ _ _ _ (IH r ltac:(specialize (H2 H); lia))).
  intros ds r' g' Hr. cbn. unfold within_len in *. lia.
Qed.

Lemma braces_post ts : fuel_post (within_len (length ts)) (braces ts).
Proof.
  unfold braces. apply (pbind_fuel_post _ _ _ _ (take_digits_post _ ts (Nat.lt_succ_diag_r _))).
  intros lo ts1 _ H1. apply (pbind_fuel_post _ _ _ _ (smatch_post ts1 ",")).
  intros comma ts2 _ [H2 _].
  eapply pbind_fuel_post with (P := within_len (length ts2)).
  { destruct comma; [exact (take_digits_post _ ts2 (Nat.lt_succ_diag_r _))|cbn; unfold within_len; lia]. }
  intros hi ts3 _ H3. apply (pbind_fuel_post _ _ _ _ (smatch_post ts3 "}")).
  intros closed ts4 _ [H4 _]. unfold within_len in *.
  destruct closed; cbn; [|lia].
  destruct (MAXREPEAT <=? _)%N; cbn; [exact I|].
  destruct hi; cbn; [lia|].
  destruct (MAXREPEAT <=? _)%N; cbn; [exact I|]. destruct (_ <? _)%N; cbn; [exact I|lia].
Qed.

Lemma skip_comment_post : forall fuel ts, length ts < fuel ->
  fuel_post (within_len (length ts)) (skip_comment fuel ts).
Proof.
  induction fuel as [|fuel IH]; intros ts Hf; [lia|]. cbn [skip_comment].
  destruct (peek ts) eqn:Hp; cbn; [|exact I].
  apply (pbind_fuel_post _ _ _ _ (get_post ts)). intros a r g [H1 [H2 _]].
  assert (ts <> []) by (destruct ts; discriminate). specialize (H2 H).
  destruct (is_char a ")"); cbn; [unfold within_len; lia|].
  apply (fuel_post_weaken (within_len (length r))); [unfold within_len; intros; lia|].
  apply IH. lia.
Qed.

(** Case splits down to outcomes that are not [PFuel]. *)
Ltac cases_exact_I :=
  repeat (match goal with |- context [match ?x with _ => _ end] => destruct x end; cbn);
  exact I.

Lemma escape_post c : fuel_post (fun _ _ => True) (escape c).
Proof. unfold escape. cases_exact_I. Qed.

Lemma class_code_post t : fuel_post (fun _ _ => True) (class_code t).
Proof. destruct t as [c|c|]; cbn; try exact I. unfold class_escape. cases_exact_I. Qed.

Lemma class_item_post this code1 ts items k n :
  length ts <= n -> (forall r its, length r <= length ts -> fuel_post (within_len n) (k r its)) ->
  fuel_post (within_len n) (class_item this code1 ts items k).
Proof.
  intros Hn Hk. unfold class_item. apply (pbind_fuel_post _ _ _ _ (smatch_post ts "-")).
  intros dash ts1 _ [H1 _]. destruct dash; cbn [negb]; [|apply Hk; exact H1].
  apply (pbind_fuel_post _ _ _ _ (get_post ts1)). intros that ts2 _ [H2 _].
  destruct that as [that|]; [|exact I].
  destruct (is_char (Some that) "]"); [cbn; unfold within_len; lia|].
  apply (pbind_fuel_post _ _ _ _ (class_code_post that)). intros code2 _ _ _.
  destruct code1, code2; cbn; try exact I.
  destruct (N.ltb _ _); [exact I|]. apply Hk. lia.
Qed.

Lemma parse_class_post : forall fuel ts items, length ts < fuel ->
  fuel_post (within_len (length ts)) (parse_class fuel ts items).
Proof.
  induction fuel as [|fuel IH]; intros ts items Hf; [lia|]. cbn [parse_class].
  apply (pbind_fuel_post _ _ _ _ (get_post ts)). intros this ts1 _ [H1 [_ H3]].
  destruct this as [this|]; [|exact I]. specialize (H3 ltac:(discriminate)).
  destruct (_ && _); [cbn; unfold within_len; lia|].
  apply (pbind_fuel_post _ _ _ _ (class_code_post this)). intros code1 _ _ _.
  apply class_item_post; [lia|]. intros r its Hr.
  apply (fuel_post_weaken (within_len (length r))); [unfold within_len; intros; lia|].
  apply IH. lia.
Qed.

(** A finished step: a value with few enough tokens left, or an error. *)
Ltac leaf := cbv beta iota delta [fuel_post within_len unterminated_set] in *; first [exact I | lia].

(** One step of [pbind] with the postcondition [L] of its first part. *)
Ltac pstep L := apply (pbind_fuel_post _ _ _ _ L).

Lemma parse_fuel_post : forall fuel,
  (forall ts g items, 2 * length ts + 1 <= fuel ->
     fuel_post (within_len (length ts)) (parse_seq fuel ts g items)) /\
  (forall ts g, 2 * length ts + 2 <= fuel ->
     fuel_post (within_len (length ts)) (parse_alt fuel ts g)).
Proof.
  induction fuel as [|f [IHs IHa]]; split; intros ts g; [intros; lia|intros; lia| |].
  - intros items Hf. cbn [parse_seq].
    destruct (peek ts) as [this|] eqn:Hp; cbv beta iota; [|leaf].
    destruct (_ || _); cbv beta iota; [leaf|].
    assert (Hne : ts <> []) by (destruct ts; discriminate).
    pstep (get_post ts). intros _ ts1 _ [_ [H1 _]]. specialize (H1 Hne). cbv beta.
    assert (Hseq : forall r g' its, length r <= length ts1 ->
                     fuel_post (within_len (length ts)) (parse_seq f r g' its)).
    { intros r g' its Hr. apply (fuel_post_weaken (within_len (length r))); [leaf|]. apply IHs. lia. }
    destruct this as [c|c|]; cbv iota; [| |leaf].
    + destruct (Ascii.eqb c "["); cbv beta iota.
      { pstep (smatch_post ts1 "^"). intros neg ts2 _ [H2 _].
        pstep (parse_class_post f ts2 [] ltac:(lia)). intros set ts3 _ H3.
        apply Hseq. unfold within_len in H3. lia. }
      destruct (mem c "*+?{"); cbv beta iota.
      { eapply pbind_fuel_post with (P := within_len (length ts1)).
        { repeat (destruct (Ascii.eqb c _); cbv beta iota; [leaf|]).
          destruct (is_char _ _); cbv beta iota; [leaf|exact (braces_post ts1)]. }
        intros b ts2 _ H2. unfold within_len in H2.
        destruct b as [[mn mx]|]; cbv beta iota; [|apply Hseq; lia].
        apply (pbind_fuel_post (fun _ _ => True)); [destruct items as [|[] ?]; exact I|].
        intros _ _ _ _. pstep (smatch_post ts2 "?"). intros lazy ts3 _ [H3 _]. apply Hseq. lia. }
      destruct (Ascii.eqb c "."); cbv beta iota; [apply Hseq; lia|].
      destruct (Ascii.eqb c "("); cbv beta iota.
      { eapply pbind_fuel_post with (P := within_len (length ts1)).
        { pstep (smatch_post ts1 "?"). intros ext ts2 _ [H2 _].
          destruct ext; cbv beta iota delta [negb]; [|leaf].
          pstep (get_post ts2). intros ch ts3 _ [H3 _].
          destruct ch as [[d|d|]|]; cbv beta iota; try leaf.
          destruct (Ascii.eqb d ":"); cbv beta iota; [leaf|].
          destruct (Ascii.eqb d "#"); cbv beta iota.
          - pstep (skip_comment_post _ ts3 (Nat.lt_succ_diag_r _)). intros u ts4 _ H4. leaf.
          - destruct (mem d _); exact I. }
        intros grp ts2 g1 H2. unfold within_len in H2.
        destruct grp as [idx|]; cbv beta iota; [|apply Hseq; lia].
        pstep (IHa ts2 g1 ltac:(lia)). intros p ts3 g2 H3. unfold within_len in H3.
        pstep (smatch_post ts3 ")"). intros closed ts4 _ [H4 _].
        destruct closed; cbv beta iota; [apply Hseq; lia|exact I]. }
      destruct (Ascii.eqb c "^"); cbv beta iota; [apply Hseq; lia|].
      destruct (Ascii.eqb c "$"); cbv beta iota; apply Hseq; lia.
    + pstep (escape_post c). intros n _ _ _. apply Hseq. lia.
  - intros Hf. cbn [parse_alt].
    pstep (IHs ts g [] ltac:(lia)). intros items ts1 g1 H1. unfold within_len in H1.
    pstep (smatch_post ts1 "|"). intros bar ts2 _ [H2 H2'].
    destruct bar; cbv beta iota; [|leaf].
    specialize (H2' eq_refl).
    pstep (IHa ts2 g1 ltac:(lia)). intros alt ts3 g2 H3. leaf.
Qed.

Lemma parse_pattern_post p : fuel_post (fun _ _ => True) (parse_pattern p).
Proof.
  unfold parse_pattern.
  assert (H := proj2 (parse_fuel_post _) (tokenize p) 0 (le_n _)).
  destruct (tokenize p) as [|[c|c|] ts]; try exact I; pstep H; intros n ts1 g _; destruct ts1; exact I.
Qed.

(** C14. The parser never runs out of fuel: on every pattern,
    [parse_pattern] returns a tree, raises [re.error] or
    [OverflowError], or reports an unmodelled construct; it never
    answers [PFuel].  Its fuel [2 * tokens + 2] is enough. *)
Theorem parse_pattern_no_fuel_out p : parse_pattern p <> PFuel.
Proof. exact (fuel_post_not_fuel _ _ (parse_pattern_post p)). Qed.

End ReParseFuel.
