(* ===== verification/ReMatch.v ===== *)
(** The matching engine of CPython's [_sre] on the parse trees of
    [ReSyntax], and [Pattern.split] ([pattern_split] in [_sre.c]).

    [mtch r i c k] is the backtracking matcher in continuation-passing
    style: it tries to match [r] at position [i] of the subject with the
    capture list [c] and calls [k] on each end position in the order
    [_sre] tries them, the first success winning.  Repeats follow
    [MAX_UNTIL] / [MIN_UNTIL]: the [min] mandatory iterations first, then
    further iterations while [count < max] and the previous optional
    iteration was not empty ([last_ptr], the zero-width-match guard).
    The repeat loop takes fuel [rep_fuel]; [search] tries the start
    positions from [i] to the end; [split_loop] is the loop of
    [pattern_split] with its [must_advance] flag, which forbids an empty
    match where the previous (empty) match ended.

    [matches] and [fails] describe determinate matches (the engine
    commits to one end position) with a rule per construct; they prove
    that a pattern matches a subject whose characters are only partly
    known.  [mrel] and [reps] are the relational semantics of patterns,
    [mcap] and [capreps] the same relation threading the capture list
    (a group pushes its span when it closes); the matcher and [search]
    are proved sound for [mcap], hence for [mrel]. *)

From Stdlib Require Import String Ascii List Bool Arith NArith Lia.
From S2P Require Import Prelude PyStr ReSyntax.
Import ListNotations ReSyntax.
Local Open Scope char_scope.

Module ReMatch.

(** ** Character tests ([SRE_UNI_IS_DIGIT], [..._SPACE], [..._WORD]) *)

Definition is_digit (c : ascii) : bool := is_ascii_digit c.

Definition is_word (c : ascii) : bool :=
  is_ascii_letter c || is_ascii_digit c || Ascii.eqb c "_".

Definition category_match (k : category) (c : ascii) : bool :=
  match k with
  | CatDigit => is_digit c
  | CatNotDigit => negb (is_digit c)
  | CatSpace => PyStr.is_space c
  | CatNotSpace => negb (PyStr.is_space c)
  | CatWord => is_word c
  | CatNotWord => negb (is_word c)
  end.

Definition item_match (it : set_item) (c : ascii) : bool :=
  match it with
  | SLit a => Ascii.eqb a c
  | SRange lo hi => N.leb (N_of_ascii lo) (N_of_ascii c) && N.leb (N_of_ascii c) (N_of_ascii hi)
  | SCat k => category_match k c
  end.

Definition in_set (negate : bool) (items : list set_item) (c : ascii) : bool :=
  xorb negate (existsb (fun it => item_match it c) items).

Definition newline : ascii := ascii_of_nat 10.

(** A capture list: group number and span, the latest binding first. *)
Definition caps := list (nat * (nat * nat)).

Fixpoint lookup_cap (g : nat) (c : caps) : option (nat * nat) :=
  match c with
  | [] => None
  | (h, sp) :: c' => if Nat.eqb g h then Some sp else lookup_cap g c'
  end.

Section Subject.
Variable s : list ascii.

Definition char_at (i : nat) : option ascii := nth_error s i.

Definition word_at (i : nat) : bool :=
  match char_at i with Some c => is_word c | None => false end.

Definition word_before (i : nat) : bool :=
  match i with O => false | S j => word_at j end.

(** [SRE(at)] without MULTILINE. *)
Definition at_anchor (a : anchor) (i : nat) : bool :=
  let n := length s in
  match a with
  | AtBeginning | AtBeginningString => Nat.eqb i 0
  | AtEnd => Nat.eqb i n || (Nat.eqb (S i) n && match char_at i with
                                                 | Some c => Ascii.eqb c newline
                                                 | None => false end)
  | AtEndString => Nat.eqb i n
  | AtBoundary => negb (Nat.eqb n 0) && xorb (word_before i) (word_at i)
  | AtNonBoundary => negb (Nat.eqb n 0) && Bool.eqb (word_before i) (word_at i)
  end.

(** One character satisfying [p] at [i]. *)
Definition one_char {R} (p : ascii -> bool) (i : nat) (c : caps)
  (k : nat -> caps -> option R) : option R :=
  match char_at i with
  | Some b => if p b then k (S i) c else None
  | None => None
  end.

Definition first_some {R} (x : option R) (y : unit -> option R) : option R :=
  match x with Some v => Some v | None => y tt end.

(** Iterations a repeat can run from position [i]: the mandatory ones,
    one per character left, and the last empty one. *)
Definition rep_fuel (min : N) (i : nat) : nat := N.to_nat min + (length s - i) + 2.

(** [MAX_UNTIL] ([greedy]) and [MIN_UNTIL]: after [count] iterations, at
    position [j]; [last] is where the previous optional iteration started
    ([last_ptr]).  [body j c k] matches one iteration. *)
Fixpoint rep_loop {R} (body : nat -> caps -> (nat -> caps -> option R) -> option R)
  (greedy : bool) (min : N) (max : option N) (k : nat -> caps -> option R)
  (fuel : nat) (count : N) (last : option nat) (j : nat) (c : caps) : option R :=
  match fuel with
  | O => None
  | S fuel' =>
      if N.ltb count min then
        body j c (fun j' c' => rep_loop body greedy min max k fuel' (N.succ count) last j' c')
      else
        let more (_ : unit) :=
          if (match max with None => true | Some mx => N.ltb count mx end)
             && negb (match last with Some l => Nat.eqb l j | None => false end)
          then body j c (fun j' c' => rep_loop body greedy min max k fuel' (N.succ count) (Some j) j' c')
          else None in
        if greedy then first_some (more tt) (fun _ => k j c)
        else first_some (k j c) more
  end.

Fixpoint mtch {R} (r : node) (i : nat) (c : caps) (k : nat -> caps -> option R)
  : option R :=
  match r with
  | NEmpty => k i c
  | NLit a => one_char (Ascii.eqb a) i c k
  | NAny => one_char (fun b => negb (Ascii.eqb b newline)) i c k
  | NIn neg items => one_char (in_set neg items) i c k
  | NAt a => if at_anchor a i then k i c else None
  | NGroup None r1 => mtch r1 i c k
  | NGroup (Some g) r1 => mtch r1 i c (fun j c' => k j ((g, (i, j)) :: c'))
  | NSeq r1 r2 => mtch r1 i c (fun j c' => mtch r2 j c' k)
  | NAlt r1 r2 => first_some (mtch r1 i c k) (fun _ => mtch r2 i c k)
  | NRepeat greedy min max r1 =>
      rep_loop (fun j c' k' => mtch r1 j c' k') greedy min max k (rep_fuel min i) 0%N None i c
  end.

(** A match of [r] starting exactly at [i]; with [must_advance] an empty
    match there does not count. *)
Definition match_here (r : node) (must_advance : bool) (i : nat) : option (nat * caps) :=
  mtch r i [] (fun j c => if must_advance && Nat.eqb j i then None else Some (j, c)).

(** [SRE(search)]: the first start position from [i] on with a match;
    [must_advance] applies to the first position only. *)
Fixpoint search_k (k : nat) (r : node) (must_advance : bool) (i : nat)
  : option (nat * nat * caps) :=
  match match_here r must_advance i with
  | Some (j, c) => Some (i, j, c)
  | None =>
      match k with
      | O => None
      | S k' => search_k k' r false (S i)
      end
  end.

Definition search (r : node) (must_advance : bool) (i : nat) : option (nat * nat * caps) :=
  search_k (length s - i) r must_advance i.

Definition slice (a b : nat) : list ascii := firstn (b - a) (skipn a s).

(** The groups [1..ngroups] of a match, [None] for a group that did not
    take part in it. *)
Definition group_values (ngroups : nat) (c : caps) : list (option (list ascii)) :=
  map (fun g => option_map (fun sp => slice (fst sp) (snd sp)) (lookup_cap g c))
      (seq 1 ngroups).

(** The loop of [pattern_split]: the piece before each match, then the
    match's groups; after the last match the rest of the subject. *)
Fixpoint split_loop (fuel : nat) (r : node) (ngroups : nat) (last : nat)
  (must_advance : bool) : option (list (option (list ascii))) :=
  match fuel with
  | O => None
  | S fuel' =>
      match search r must_advance last with
      | None => Some [Some (slice last (length s))]
      | Some (ms, me, c) =>
          match split_loop fuel' r ngroups me (Nat.eqb me ms) with
          | Some rest => Some (Some (slice last ms) :: group_values ngroups c ++ rest)
          | None => None
          end
      end
  end.

Definition split_fuel : nat := 2 * length s + 2.

Definition pattern_split (r : node) (ngroups : nat) : option (list (option (list ascii))) :=
  split_loop split_fuel r ngroups 0 false.

(** ** Determinate matches

    [matches r i c j c']: [r] matches from [i] to [j], leaving the
    captures [c'], and the engine commits to that match: whatever the
    continuation, if it succeeds at [(j, c')] the result is its result
    there.  [fails r i c]: [r] has no match at [i]. *)
Definition matches (r : node) (i : nat) (c : caps) (j : nat) (c' : caps) : Prop :=
  forall R (k : nat -> caps -> option R), k j c' <> None -> mtch r i c k = k j c'.

Definition fails (r : node) (i : nat) (c : caps) : Prop :=
  forall R (k : nat -> caps -> option R), mtch r i c k = None.

(** ** The relational semantics

    [mrel r i j]: [r] matches the characters of the subject from [i] to
    [j]; [reps r n i j]: [n] consecutive matches of [r] do.  A repeat
    matches any number of iterations between its bounds.  The engine
    searches this relation in a fixed order and with the zero-width
    guard of [rep_loop]; every match it reports is in the relation
    ([mtch_sound]). *)
Inductive mrel : node -> nat -> nat -> Prop :=
| MEmpty i : mrel NEmpty i i
| MLit a i : char_at i = Some a -> mrel (NLit a) i (S i)
| MAny b i : char_at i = Some b -> Ascii.eqb b newline = false -> mrel NAny i (S i)
| MIn neg items b i : char_at i = Some b -> in_set neg items b = true -> mrel (NIn neg items) i (S i)
| MAt a i : at_anchor a i = true -> mrel (NAt a) i i
| MGroup g r i j : mrel r i j -> mrel (NGroup g r) i j
| MSeq r1 r2 i j l : mrel r1 i j -> mrel r2 j l -> mrel (NSeq r1 r2) i l
| MAltL r1 r2 i j : mrel r1 i j -> mrel (NAlt r1 r2) i j
| MAltR r1 r2 i j : mrel r2 i j -> mrel (NAlt r1 r2) i j
| MRep greedy mn mx r n i j :
    reps r n i j -> (mn <= n)%N -> match mx with Some m => (n <= m)%N | None => True end ->
    mrel (NRepeat greedy mn mx r) i j
with reps : node -> N -> nat -> nat -> Prop :=
| RNil r i : reps r 0 i i
| RCons r n i j l : mrel r i j -> reps r n j l -> reps r (N.succ n) i l.

(** [mcap r i c j c']: the same relation with the captures: from [i]
    with the captures [c], [r] matches up to [j] and leaves [c']; a
    capturing group records its span, the latest binding first, as
    [mtch] does.  [capreps] threads the captures through the
    iterations of a repeat.  A match of [mcap] is one of [mrel]
    ([mcap_mrel]); the groups [re.split] returns are read from the
    captures of an [mcap] match. *)
Inductive mcap : node -> nat -> caps -> nat -> caps -> Prop :=
| CEmpty i c : mcap NEmpty i c i c
| CLit a i c : char_at i = Some a -> mcap (NLit a) i c (S i) c
| CAny b i c : char_at i = Some b -> Ascii.eqb b newline = false -> mcap NAny i c (S i) c
| CIn neg items b i c :
    char_at i = Some b -> in_set neg items b = true -> mcap (NIn neg items) i c (S i) c
| CAt a i c : at_anchor a i = true -> mcap (NAt a) i c i c
| CGroupN r i c j c' : mcap r i c j c' -> mcap (NGroup None r) i c j c'
| CGroupS g r i c j c' : mcap r i c j c' -> mcap (NGroup (Some g) r) i c j ((g, (i, j)) :: c')
| CSeq r1 r2 i c j c1 l c2 : mcap r1 i c j c1 -> mcap r2 j c1 l c2 -> mcap (NSeq r1 r2) i c l c2
| CAltL r1 r2 i c j c' : mcap r1 i c j c' -> mcap (NAlt r1 r2) i c j c'
| CAltR r1 r2 i c j c' : mcap r2 i c j c' -> mcap (NAlt r1 r2) i c j c'
| CRep greedy mn mx r n i c j c' :
    capreps r n i c j c' -> (mn <= n)%N -> match mx with Some m => (n <= m)%N | None => True end ->
    mcap (NRepeat greedy mn mx r) i c j c'
with capreps : node -> N -> nat -> caps -> nat -> caps -> Prop :=
| CRNil r i c : capreps r 0 i c i c
| CRCons r n i c j c1 l c2 :
    mcap r i c j c1 -> capreps r n j c1 l c2 -> capreps r (N.succ n) i c l c2.

(** ** Positions: a match only moves forward, within the subject *)

Lemma first_some_inv {R} (x : option R) y v :
  first_some x y = Some v -> x = Some v \/ (x = None /\ y tt = Some v).
Proof. destruct x; simpl; [left; exact H | right; now split]. Qed.

(** [m] calls its continuation only at positions between [i] and the end. *)
Definition within {R} (i : nat) (m : (nat -> caps -> option R) -> option R) : Prop :=
  forall k x, m k = Some x -> exists j c, i <= j <= length s /\ k j c = Some x.

Lemma rep_loop_within {R} (body : nat -> caps -> (nat -> caps -> option R) -> option R)
  greedy min max (k : nat -> caps -> option R) :
  (forall j c, j <= length s -> within j (body j c)) ->
  forall fuel count last j c x, j <= length s ->
  rep_loop body greedy min max k fuel count last j c = Some x ->
  exists j' c', j <= j' <= length s /\ k j' c' = Some x.
Proof.
  intros Hbody fuel. induction fuel as [|fuel IH]; intros count last j c x Hj H;
    simpl in H; [discriminate|].
  assert (Hmore : forall l : bool, (if l then body j c (fun (j' : nat) (c' : caps) =>
            rep_loop body greedy min max k fuel (N.succ count) (Some j) j' c') else None) = Some x ->
          exists j' c', j <= j' <= length s /\ k j' c' = Some x).
  { intros [] Hm; [|discriminate].
    destruct (Hbody j c Hj _ _ Hm) as [j1 [c1 [Hj1 Hr]]].
    destruct (IH _ _ _ _ _ (proj2 Hj1) Hr) as [j2 [c2 [Hj2 Hk]]].
    exists j2, c2. split; [lia | exact Hk]. }
  destruct (N.ltb count min).
  - destruct (Hbody j c Hj _ _ H) as [j1 [c1 [Hj1 Hr]]].
    destruct (IH _ _ _ _ _ (proj2 Hj1) Hr) as [j2 [c2 [Hj2 Hk]]].
    exists j2, c2. split; [lia | exact Hk].
  - destruct greedy; apply first_some_inv in H as [H | [_ H]];
      first [exact (Hmore _ H) | exists j, c; split; [lia | exact H]].
Qed.

Lemma one_char_within {R} p i c : within (R:=R) i (one_char p i c).
Proof.
  intros k x H. unfold one_char, char_at in H.
  destruct (nth_error s i) as [b|] eqn:Hb; [|discriminate].
  destruct (p b); [|discriminate].
  assert (i < length s) by (apply nth_error_Some; congruence).
  exists (S i), c. split; [lia | exact H].
Qed.

Lemma mtch_within {R} r : forall i c, i <= length s -> within (R:=R) i (mtch r i c).
Proof.
  induction r as [| a | | neg items | a | [g|] r1 IH | r1 IH1 r2 IH2 | r1 IH1 r2 IH2
                  | greedy min max r1 IH]; intros i c Hi k x H; simpl in H.
  - exists i, c. split; [lia | exact H].
  - exact (one_char_within _ _ _ _ _ H).
  - exact (one_char_within _ _ _ _ _ H).
  - exact (one_char_within _ _ _ _ _ H).
  - destruct (at_anchor a i); [exists i, c; split; [lia | exact H] | discriminate].
  - destruct (IH i c Hi _ _ H) as [j [c' [Hj Hk]]]. eexists j, _. split; [exact Hj | exact Hk].
  - exact (IH i c Hi _ _ H).
  - destruct (IH1 i c Hi _ _ H) as [j [c' [Hj Hk]]].
    destruct (IH2 j c' (proj2 Hj) _ _ Hk) as [j2 [c2 [Hj2 Hk2]]].
    exists j2, c2. split; [lia | exact Hk2].
  - apply first_some_inv in H as [H | [_ H]]; [exact (IH1 i c Hi _ _ H) | exact (IH2 i c Hi _ _ H)].
  - refine (rep_loop_within _ _ _ _ _ _ _ _ _ _ _ _ Hi H).
    intros j c' Hj k' x' H'. exact (IH j c' Hj k' x' H').
Qed.

(** [search] finds a match at or after [i], ending at or after its start
    and within the subject; with [must_advance] it ends after [i]. *)
Lemma match_here_spec r ma i j c :
  i <= length s -> match_here r ma i = Some (j, c) ->
  i <= j <= length s /\ (ma = true -> i < j).
Proof.
  intros Hi Hm. unfold match_here in Hm.
  destruct (mtch_within r i [] Hi _ _ Hm) as [j' [c' [Hj' Hk]]].
  destruct (ma && Nat.eqb j' i) eqn:Hma; [discriminate|].
  injection Hk as <- <-. split; [exact Hj'|].
  intros ->. simpl in Hma. destruct (Nat.eqb_spec j' i); [discriminate | lia].
Qed.

Lemma search_k_spec r : forall k ma i ms me c,
  i + k <= length s -> search_k k r ma i = Some (ms, me, c) ->
  i <= ms <= me /\ me <= length s /\ (ma = true -> i < me).
Proof.
  induction k as [|k IH]; intros ma i ms me c Hik H; simpl in H;
    destruct (match_here r ma i) as [[j c']|] eqn:Hm.
  1,3: injection H as <- <- <-;
       destruct (match_here_spec r ma i j c' ltac:(lia) Hm) as [Hj Hma];
       split; [lia|]; split; [lia | exact Hma].
  - discriminate.
  - destruct (IH false (S i) ms me c ltac:(lia) H) as [H1 [H2 _]].
    split; [lia|]. split; [exact H2 | intros _; lia].
Qed.

Lemma search_spec r ma i ms me c :
  i <= length s -> search r ma i = Some (ms, me, c) ->
  i <= ms <= me /\ me <= length s /\ (ma = true -> i < me).
Proof. intros Hi. apply search_k_spec. lia. Qed.

(** The measure of [split_loop]: twice the characters left, plus one
    when an empty match is still allowed at [last]. *)
Definition split_measure (last : nat) (ma : bool) : nat :=
  2 * (length s - last) + (if ma then 0 else 1).

Lemma split_loop_some fuel r ng : forall last ma,
  last <= length s -> split_measure last ma < fuel -> split_loop fuel r ng last ma <> None.
Proof.
  induction fuel as [|fuel IH]; intros last ma Hl Hf; [lia|]. simpl.
  destruct (search r ma last) as [[[ms me] c]|] eqn:Hs; [|discriminate].
  destruct (search_spec r ma last ms me c Hl Hs) as [[H1 H2] [H3 H4]].
  destruct (split_loop fuel r ng me (Nat.eqb me ms)) eqn:Hr; [discriminate|].
  exfalso. apply (IH me (Nat.eqb me ms) H3); [|exact Hr].
  unfold split_measure in *. destruct (Nat.eqb_spec me ms); destruct ma.
  - specialize (H4 eq_refl). lia.
  - assert (me = last \/ last < me) as [->|] by lia; lia.
  - specialize (H4 eq_refl). lia.
  - lia.
Qed.


(** C11. [re.split]'s loop terminates: the fuel [2 * len + 2] of
    [pattern_split] is always enough, because every round either moves
    past the previous match or switches [must_advance] on. *)
Theorem pattern_split_terminates r ngroups : pattern_split r ngroups <> None.
Proof.
  unfold pattern_split, split_fuel. apply split_loop_some; [lia|].
  unfold split_measure. lia.
Qed.

(** ** Determinate matches: the rules *)

Lemma matches_lit a i c : char_at i = Some a -> matches (NLit a) i c (S i) c.
Proof. intros H R k _. cbn. unfold one_char. now rewrite H, Ascii.eqb_refl. Qed.

Lemma fails_lit a b i c : char_at i = Some b -> Ascii.eqb a b = false -> fails (NLit a) i c.
Proof. intros H E R k. cbn. unfold one_char. now rewrite H, E. Qed.

Lemma matches_in neg items b i c :
  char_at i = Some b -> in_set neg items b = true -> matches (NIn neg items) i c (S i) c.
Proof. intros H E R k _. cbn. unfold one_char. now rewrite H, E. Qed.

Lemma fails_in neg items b i c :
  char_at i = Some b -> in_set neg items b = false -> fails (NIn neg items) i c.
Proof. intros H E R k. cbn. unfold one_char. now rewrite H, E. Qed.

Lemma matches_seq r1 r2 i c j c1 l c2 :
  matches r1 i c j c1 -> matches r2 j c1 l c2 -> matches (NSeq r1 r2) i c l c2.
Proof.
  intros H1 H2 R k Hk. cbn. rewrite (H1 R (fun j c' => mtch r2 j c' k)); [exact (H2 R k Hk)|].
  rewrite (H2 R k Hk). exact Hk.
Qed.

Lemma fails_seq r1 r2 i c : fails r1 i c -> fails (NSeq r1 r2) i c.
Proof. intros H R k. exact (H R _). Qed.

Lemma matches_group g r i c j c' :
  matches r i c j c' -> matches (NGroup (Some g) r) i c j ((g, (i, j)) :: c').
Proof. intros H R k Hk. exact (H R (fun j c' => k j ((g, (i, j)) :: c')) Hk). Qed.

Lemma matches_alt_l r1 r2 i c j c' : matches r1 i c j c' -> matches (NAlt r1 r2) i c j c'.
Proof.
  intros H R k Hk. cbn. rewrite (H R k Hk). destruct (k j c'); [reflexivity | congruence].
Qed.

Lemma matches_alt_r r1 r2 i c j c' :
  fails r1 i c -> matches r2 i c j c' -> matches (NAlt r1 r2) i c j c'.
Proof. intros H1 H2 R k Hk. cbn. rewrite (H1 R k). exact (H2 R k Hk). Qed.

Lemma fails_alt r1 r2 i c : fails r1 i c -> fails r2 i c -> fails (NAlt r1 r2) i c.
Proof. intros H1 H2 R k. cbn. rewrite (H1 R k). exact (H2 R k). Qed.

(** The greedy repeat of a one-character set, with [n] characters of
    the set ahead and [n] iterations left before [max]: it takes them all
    and commits to the end position. *)
Lemma rep_loop_set neg items min mx R (k : nat -> caps -> option R) n :
  (min <= mx)%N ->
  forall fuel count last j c,
  (count + N.of_nat n)%N = mx -> n < fuel ->
  (forall t, t < n -> exists b, char_at (j + t) = Some b /\ in_set neg items b = true) ->
  (forall l, last = Some l -> l < j) ->
  k (j + n) c <> None ->
  rep_loop (fun j c' k' => mtch (NIn neg items) j c' k') true min (Some mx) k fuel count last j c
  = k (j + n) c.
Proof.
  intros Hmin. induction n as [|n IH]; intros [|fuel] count last j c Hc Hf Hs Hl Hk; try lia.
  - rewrite Nat.add_0_r in *. cbn. replace (count <? min)%N with false by (symmetry; apply N.ltb_ge; lia).
    replace (count <? mx)%N with false by (symmetry; apply N.ltb_ge; lia). reflexivity.
  - destruct (Hs 0 ltac:(lia)) as [b [Hb Hin]]. rewrite Nat.add_0_r in Hb.
    assert (Hs' : forall t, t < n -> exists b, char_at (S j + t) = Some b /\ in_set neg items b = true).
    { intros t Ht. replace (S j + t) with (j + S t) by lia. apply Hs. lia. }
    replace (j + S n) with (S j + n) in * by lia.
    cbn [rep_loop]. destruct (count <? min)%N.
    + cbn [mtch one_char]. unfold one_char. rewrite Hb, Hin.
      apply IH; auto; [lia | lia | intros l Hl'; specialize (Hl l Hl'); lia].
    + replace (count <? mx)%N with true by (symmetry; apply N.ltb_lt; lia).
      replace (match last with Some l => Nat.eqb l j | None => false end) with false
        by (destruct last as [l|]; [specialize (Hl l eq_refl); symmetry; apply Nat.eqb_neq; lia | reflexivity]).
      cbn [andb negb first_some mtch]. unfold one_char. rewrite Hb, Hin.
      rewrite IH; auto; [| lia | lia | intros l E; injection E as <-; lia].
      destruct (k (S j + n) c); [reflexivity | congruence].
Qed.

Lemma matches_rep_set neg items min mx i c :
  (min <= mx)%N -> i + N.to_nat mx <= length s ->
  (forall t, t < N.to_nat mx -> exists b, char_at (i + t) = Some b /\ in_set neg items b = true) ->
  matches (NRepeat true min (Some mx) (NIn neg items)) i c (i + N.to_nat mx) c.
Proof.
  intros Hmin Hlen Hs R k Hk. cbn [mtch].
  apply rep_loop_set; auto.
  - lia.
  - unfold rep_fuel. lia.
  - discriminate.
Qed.

(** A determinate match at [i] is what [match_here] finds. *)
Lemma match_here_matches r i j c :
  matches r i [] j c -> match_here r false i = Some (j, c).
Proof. intros H. unfold match_here. rewrite H; [reflexivity | discriminate]. Qed.

(** ** Soundness against the relational semantics *)

(** The repeat loop: every end position it hands to [k] is reached by a
    number of iterations within the bounds. *)
Lemma rep_loop_sound {R} r (body : nat -> caps -> (nat -> caps -> option R) -> option R)
  greedy mn mx (k : nat -> caps -> option R) :
  (forall j c k' x, body j c k' = Some x -> exists j' c', mcap r j c j' c' /\ k' j' c' = Some x) ->
  match mx with Some m => (mn <= m)%N | None => True end ->
  forall fuel count last j c x,
  match mx with Some m => (count <= m)%N | None => True end ->
  rep_loop body greedy mn mx k fuel count last j c = Some x ->
  exists n j' c', capreps r n j c j' c' /\ (mn <= count + n)%N /\
    match mx with Some m => (count + n <= m)%N | None => True end /\ k j' c' = Some x.
Proof.
  intros Hbody Hmn. induction fuel as [|fuel IH]; intros count last j c x Hc H; [discriminate|].
  cbn [rep_loop] in H.
  assert (Step : forall last', body j c (fun j' c' => rep_loop body greedy mn mx k fuel (N.succ count) last' j' c')
                   = Some x -> (count < mn \/ match mx with Some m => count < m | None => True end)%N ->
                 exists n j' c', capreps r n j c j' c' /\ (mn <= count + n)%N /\
                   match mx with Some m => (count + n <= m)%N | None => True end /\ k j' c' = Some x).
  { intros last' Hb Hlt. apply Hbody in Hb as (j1 & c1 & Hr & Hb).
    apply IH in Hb as (n & j' & c' & Hn & Hlo & Hhi & Hk);
      [| destruct mx; [destruct Hlt; lia | exact I]].
    exists (N.succ n), j', c'. split; [exact (CRCons r n j c j1 c1 j' c' Hr Hn)|].
    split; [lia|]. split; [destruct mx; lia | exact Hk]. }
  destruct (count <? mn)%N eqn:E.
  - apply N.ltb_lt in E. exact (Step last H (or_introl E)).
  - apply N.ltb_ge in E.
    assert (Here : k j c = Some x -> exists n j' c', capreps r n j c j' c' /\ (mn <= count + n)%N /\
              match mx with Some m => (count + n <= m)%N | None => True end /\ k j' c' = Some x).
    { intros Hk. exists 0%N, j, c. split; [constructor|]. rewrite N.add_0_r. auto. }
    assert (More : (if (match mx with None => true | Some m => (count <? m)%N end)
                       && negb (match last with Some l => Nat.eqb l j | None => false end)
                    then body j c (fun j' c' => rep_loop body greedy mn mx k fuel (N.succ count) (Some j) j' c')
                    else None) = Some x ->
                   exists n j' c', capreps r n j c j' c' /\ (mn <= count + n)%N /\
                     match mx with Some m => (count + n <= m)%N | None => True end /\ k j' c' = Some x).
    { destruct (match mx with None => true | Some m => (count <? m)%N end) eqn:Em; [|discriminate].
      destruct (negb _); [|discriminate]. intros Hb. apply (Step _ Hb). right.
      destruct mx; [apply N.ltb_lt; exact Em | exact I]. }
    destruct greedy; apply first_some_inv in H as [H|[H1 H2]]; auto.
Qed.

Lemma mtch_sound r : wf_node r = true ->
  forall R i c (k : nat -> caps -> option R) x,
  mtch r i c k = Some x -> exists j c', mcap r i c j c' /\ k j c' = Some x.
Proof.
  induction r as [| a | | neg items | a | g r IH | r1 IH1 r2 IH2 | r1 IH1 r2 IH2 | greedy mn mx r IH];
    intros Hwf R i c k x H; cbn [mtch wf_node] in *.
  - exists i, c. split; [constructor | exact H].
  - unfold one_char in H. destruct (char_at i) as [b|] eqn:Hb; [|discriminate].
    destruct (Ascii.eqb a b) eqn:E; [|discriminate]. apply Ascii.eqb_eq in E. subst b.
    exists (S i), c. split; [constructor; exact Hb | exact H].
  - unfold one_char in H. destruct (char_at i) as [b|] eqn:Hb; [|discriminate].
    destruct (negb (Ascii.eqb b newline)) eqn:E; [|discriminate]. apply negb_true_iff in E.
    exists (S i), c. split; [econstructor; eauto | exact H].
  - unfold one_char in H. destruct (char_at i) as [b|] eqn:Hb; [|discriminate].
    destruct (in_set neg items b) eqn:E; [|discriminate].
    exists (S i), c. split; [econstructor; eauto | exact H].
  - destruct (at_anchor a i) eqn:E; [|discriminate]. exists i, c. split; [constructor; exact E | exact H].
  - destruct g as [g|].
    + apply IH in H as (j & c' & Hr & H); [|exact Hwf]. exists j, ((g, (i, j)) :: c'). split; [constructor; exact Hr | exact H].
    + apply IH in H as (j & c' & Hr & H); [|exact Hwf]. exists j, c'. split; [constructor; exact Hr | exact H].
  - apply andb_true_iff in Hwf as [W1 W2].
    apply IH1 in H as (j & c1 & Hr1 & H); [|exact W1]. apply IH2 in H as (l & c2 & Hr2 & H); [|exact W2].
    exists l, c2. split; [econstructor; eauto | exact H].
  - apply andb_true_iff in Hwf as [W1 W2].
    apply first_some_inv in H as [H|[_ H]].
    + apply IH1 in H as (j & c' & Hr & H); [|exact W1]. exists j, c'. split; [apply CAltL; exact Hr | exact H].
    + apply IH2 in H as (j & c' & Hr & H); [|exact W2]. exists j, c'. split; [apply CAltR; exact Hr | exact H].
  - apply andb_true_iff in Hwf as [Wb W].
    apply (rep_loop_sound r) in H as (n & j & c' & Hn & Hlo & Hhi & H).
    + exists j, c'. split; [|exact H]. apply (CRep greedy mn mx r n); [exact Hn | lia | destruct mx; lia].
    + intros j c1 k' y Hy. exact (IH W _ j c1 k' y Hy).
    + destruct mx; [apply N.leb_le; exact Wb | exact I].
    + destruct mx; [lia | exact I].
Qed.

Lemma capreps_reps r (IH : forall i c j c', mcap r i c j c' -> mrel r i j) r0 n i c j c' :
  capreps r0 n i c j c' -> r0 = r -> reps r n i j.
Proof.
  induction 1 as [|r0 n i c j c1 l c2 Hm _ IHr]; intros ->; [constructor|].
  exact (RCons r n i j l (IH _ _ _ _ Hm) (IHr eq_refl)).
Qed.

(** A match that records captures is a match. *)
Lemma mcap_mrel r : forall i c j c', mcap r i c j c' -> mrel r i j.
Proof.
  induction r as [| a | | neg items | a | g r IH | r1 IH1 r2 IH2 | r1 IH1 r2 IH2 | greedy mn mx r IH];
    intros i c j c' H; inversion H; subst; try solve [econstructor; eauto].
  eapply MRep; [exact (capreps_reps r IH _ _ _ _ _ _ ltac:(eassumption) eq_refl)|assumption..].
Qed.

(** The captures [match_here] reports are those of an [mcap] match
    from the empty capture list. *)
Lemma match_here_caps r ma i j c :
  wf_node r = true -> match_here r ma i = Some (j, c) -> mcap r i [] j c.
Proof.
  intros Hwf H. unfold match_here in H. apply mtch_sound in H as (j' & c' & Hr & H); [|exact Hwf].
  destruct (ma && Nat.eqb j' i); [discriminate|]. injection H as <- <-. exact Hr.
Qed.

Lemma match_here_sound r ma i j c :
  wf_node r = true -> match_here r ma i = Some (j, c) -> mrel r i j.
Proof.
  intros Hwf H. exact (mcap_mrel r i [] j c (match_here_caps r ma i j c Hwf H)).
Qed.

Lemma search_k_found r : forall k ma i ms me c,
  search_k k r ma i = Some (ms, me, c) -> exists ma', match_here r ma' ms = Some (me, c).
Proof.
  induction k as [|k IH]; intros ma i ms me c H; cbn [search_k] in H;
    destruct (match_here r ma i) as [[j c']|] eqn:Hm.
  1,3: injection H as <- <- <-; exists ma; exact Hm.
  - discriminate.
  - exact (IH _ _ _ _ _ H).
Qed.

(** [search_k] reaches every start position up to [i + k]: when one of
    them has a match, the scan returns the first such position. *)
Lemma search_k_first r : forall k ma i j m,
  i <= j <= i + k -> match_here r (ma && Nat.eqb j i) j = Some m ->
  exists ms me c, search_k k r ma i = Some (ms, me, c) /\ i <= ms <= j /\
    match_here r (ma && Nat.eqb ms i) ms = Some (me, c) /\
    (forall p, i <= p < ms -> match_here r (ma && Nat.eqb p i) p = None).
Proof.
  induction k as [|k IH]; intros ma i j m Hj Hm; cbn [search_k];
    destruct (match_here r ma i) as [[e c]|] eqn:Hi.
  1,3: exists i, e, c; rewrite Nat.eqb_refl, andb_true_r;
       repeat split; [lia | lia | exact Hi | intros; lia].
  - assert (j = i) as -> by lia. rewrite Nat.eqb_refl, andb_true_r, Hi in Hm. discriminate.
  - destruct (Nat.eq_dec j i) as [->|Hne].
    { rewrite Nat.eqb_refl, andb_true_r, Hi in Hm. discriminate. }
    rewrite (proj2 (Nat.eqb_neq j i) Hne), andb_false_r in Hm.
    destruct (IH false (S i) j m) as (ms & me & c & Hs & Hr & Hms & Hp); [lia | exact Hm|].
    exists ms, me, c. rewrite (proj2 (Nat.eqb_neq ms i)) by lia. cbn [andb] in *.
    rewrite andb_false_r. repeat split; [exact Hs | lia | lia | exact Hms |].
    intros p Hp'. destruct (Nat.eq_dec p i) as [->|Hpi].
    + rewrite Nat.eqb_refl, andb_true_r. exact Hi.
    + rewrite (proj2 (Nat.eqb_neq p i) Hpi), andb_false_r. apply Hp. lia.
Qed.

End Subject.

(** ** [re.split(pattern, string)]: compile, then split. *)
Definition re_split (pattern subject : list ascii) : pres (list (option (list ascii))) :=
  pbind (parse_pattern pattern) (fun r _ ngroups =>
    match pattern_split subject r ngroups with
    | Some items => POk items [] ngroups
    | None => PFuel
    end).


End ReMatch.
