(* ===== verification/ReFuel.v ===== *)
(** The fuel of the repeat loop of [ReMatch] is enough.

    [rep_loop] counts its iterations down from [rep_fuel min i] and
    answers [None] when the count runs out, the same answer as "no
    match".  This file shows that the count never runs out: an
    iteration of a repeat body ends at or after the position it starts
    from and never beyond the end of the subject (a body is [local]),
    so the measure [rep_measure] (mandatory iterations left, characters
    left, and one for the empty optional iteration the [last_ptr] guard
    still allows) decreases at every iteration, and [rep_fuel] exceeds
    it at the start.  The matcher [mtch] is [local] for every tree, so
    every repeat of [mtch] computes what it computes with any larger
    fuel. *)

From Stdlib Require Import Ascii List Bool Arith NArith Lia.
From S2P Require Import Prelude ReSyntax ReMatch.
Import ListNotations ReSyntax ReMatch.

Module ReFuel.

Section Fuel.
Variable s : list ascii.
Context {R : Type}.

(** [j'] is a position a match starting at [j] can end at. *)
Definition within (j j' : nat) : Prop := j <= j' /\ (j' <= length s \/ j' = j).

(** Two continuations that agree on every end position from [j]. *)
Definition cont_agree (j : nat) (k k' : nat -> caps -> option R) : Prop :=
  forall j' c', within j j' -> k j' c' = k' j' c'.

(** A CPS matcher that only looks at its continuation on the end
    positions [within] its start. *)
Definition local (m : nat -> caps -> (nat -> caps -> option R) -> option R) : Prop :=
  forall j c k k', cont_agree j k k' -> m j c k = m j c k'.

(** What is left of a repeat after [count] iterations, at [j]. *)
Definition rep_measure (min count : N) (last : option nat) (j : nat) : nat :=
  N.to_nat (min - count) + (length s - j) +
  match last with Some l => if Nat.eqb l j then 0 else 1 | None => 1 end.

Lemma within_refl j : within j j.
Proof. unfold within. lia. Qed.

Lemma within_trans i j l : within i j -> within j l -> within i l.
Proof. unfold within. lia. Qed.

Lemma cont_agree_within j j' k k' : within j j' -> cont_agree j k k' -> cont_agree j' k k'.
Proof. intros Hw H l c Hl. apply H. exact (within_trans _ _ _ Hw Hl). Qed.

Lemma one_char_local p : local (fun j c k => one_char s p j c k).
Proof.
  intros j c k k' Hk. unfold one_char, char_at.
  destruct (nth_error s j) as [a|] eqn:E; [|reflexivity].
  destruct (p a); [|reflexivity]. apply Hk.
  assert (j < length s) by (apply nth_error_Some; congruence). unfold within. lia.
Qed.

(** A mandatory iteration uses up one of [min]. *)
Lemma rep_measure_mandatory min count last j j' :
  (count < min)%N -> within j j' ->
  rep_measure min (N.succ count) last j' < rep_measure min count last j.
Proof.
  unfold rep_measure, within. intros Hc Hw.
  destruct last as [l|]; [destruct (Nat.eqb_spec l j), (Nat.eqb_spec l j')|]; lia.
Qed.

(** An optional iteration is allowed only when the previous one did
    not start at [j]; it either advances or closes the empty case. *)
Lemma rep_measure_optional min count last j j' :
  (min <= count)%N ->
  match last with Some l => Nat.eqb l j | None => false end = false -> within j j' ->
  rep_measure min (N.succ count) (Some j) j' < rep_measure min count last j.
Proof.
  unfold rep_measure, within. intros Hc Hl Hw.
  destruct (Nat.eqb_spec j j'); destruct last as [l|]; try rewrite Hl; lia.
Qed.

Section Loop.
Variable body : nat -> caps -> (nat -> caps -> option R) -> option R.
Hypothesis body_local : local body.
Variables (greedy : bool) (min : N) (max : option N).

Lemma rep_loop_local : forall fuel count last j c k k', cont_agree j k k' ->
  rep_loop body greedy min max k fuel count last j c =
  rep_loop body greedy min max k' fuel count last j c.
Proof.
  induction fuel as [|fuel IH]; intros count last j c k k' Hk; [reflexivity|].
  assert (HB : forall l, body j c (fun j' c' => rep_loop body greedy min max k fuel (N.succ count) l j' c')
                       = body j c (fun j' c' => rep_loop body greedy min max k' fuel (N.succ count) l j' c')).
  { intros l. apply body_local. intros j' c' Hw. apply IH. exact (cont_agree_within _ _ _ _ Hw Hk). }
  cbn [rep_loop]. rewrite (Hk j c (within_refl j)).
  destruct (N.ltb count min); [apply HB|].
  destruct (_ && _); rewrite ?HB; reflexivity.
Qed.

(** More fuel than the measure: any further fuel changes nothing. *)
Lemma rep_loop_fuel k : forall fuel count last j c,
  rep_measure min count last j < fuel -> forall e,
  rep_loop body greedy min max k (fuel + e) count last j c =
  rep_loop body greedy min max k fuel count last j c.
Proof.
  induction fuel as [|fuel IH]; intros count last j c Hf e; [lia|].
  cbn [Nat.add rep_loop]. destruct (N.ltb_spec count min) as [Hc|Hc].
  - apply body_local. intros j' c' Hw. apply IH.
    pose proof (rep_measure_mandatory min count last j j' Hc Hw). lia.
  - destruct (match max with None => true | Some mx => N.ltb count mx end
              && negb (match last with Some l => Nat.eqb l j | None => false end)) eqn:Hg;
      [|reflexivity].
    apply andb_true_iff in Hg as [_ Hg]. apply negb_true_iff in Hg.
    assert (HB : body j c (fun j' c' => rep_loop body greedy min max k (fuel + e) (N.succ count) (Some j) j' c')
               = body j c (fun j' c' => rep_loop body greedy min max k fuel (N.succ count) (Some j) j' c')).
    { apply body_local. intros j' c' Hw. apply IH.
      pose proof (rep_measure_optional min count last j j' Hc Hg Hw). lia. }
    rewrite HB. reflexivity.
Qed.

End Loop.

Lemma mtch_local r : local (fun j c k => mtch s r j c k).
Proof.
  induction r as [|a| |neg items|an|[g|] r IH|r1 IH1 r2 IH2|r1 IH1 r2 IH2|greedy mn mx r IH];
    intros j c k k' Hk; cbn [mtch].
  - exact (Hk j c (within_refl j)).
  - exact (one_char_local _ j c k k' Hk).
  - exact (one_char_local _ j c k k' Hk).
  - exact (one_char_local _ j c k k' Hk).
  - destruct (at_anchor s an j); [exact (Hk j c (within_refl j))|reflexivity].
  - apply IH. intros j' c' Hw. exact (Hk j' _ Hw).
  - exact (IH j c k k' Hk).
  - apply IH1. intros j' c' Hw. apply IH2. exact (cont_agree_within _ _ _ _ Hw Hk).
  - unfold first_some. rewrite (IH1 j c k k' Hk), (IH2 j c k k' Hk). reflexivity.
  - apply rep_loop_local; [exact IH|exact Hk].
Qed.

(** C13. The fuel of the repeat loop is enough: for every repeat
    [r{min,max}] (greedy or lazy, any body), any position [i] and
    continuation [k], running the loop with any fuel larger than
    [rep_fuel min i] gives what [mtch] gives.  A [None] of [mtch] is
    never the loop running out of fuel. *)
Theorem mtch_rep_fuel_enough greedy min max r i c (k : nat -> caps -> option R) e :
  rep_loop (fun j c' k' => mtch s r j c' k') greedy min max k (rep_fuel s min i + e) 0%N None i c =
  mtch s (NRepeat greedy min max r) i c k.
Proof.
  cbn [mtch]. apply rep_loop_fuel; [exact (mtch_local r)|].
  unfold rep_measure, rep_fuel. lia.
Qed.

End Fuel.

End ReFuel.
