(* ===== verification/ReComplete.v ===== *)
(** Completeness of the matching engine of [ReMatch] for the relational
    semantics [mrel].

    [ReMatch] proves the engine sound: every match it reports is an
    [mrel] match.  This file proves the converse: when [mrel r i j]
    holds, [mtch r i] reaches a success whenever its continuation
    accepts the end position [j] (whatever the captures).  The repeat
    loop needs an argument of its own, because of its zero-width guard
    ([last_ptr]): an [mrel] derivation may contain empty optional
    iterations, which the loop refuses to repeat; they are skipped, and
    the loop follows the remaining, non-empty, iterations, with the
    fuel of [ReFuel] ([rep_measure]) decreasing at each one.

    With soundness, completeness gives the contract of [search]: it
    finds a match exactly at the leftmost position where the pattern
    has an admissible match in the relational semantics. *)

From Stdlib Require Import Ascii List Bool Arith NArith Lia.
From S2P Require Import Prelude ReSyntax ReMatch ReFuel.
Import ListNotations ReSyntax ReMatch ReFuel.

Module ReComplete.

Section Leftmost.
Variable s : list ascii.

(** [re.split] with leftmost cuts: every cut is at the leftmost position
    from the end of the previous one where the pattern has a match
    ([must_advance] forbidding an empty match where the previous empty
    match ended), the groups returned after a piece are those an [mcap]
    match there records from no captures, and no match starts in the
    rest after the last cut. *)
Inductive split_lm (r : node) (ng : nat) : nat -> bool -> list (option (list ascii)) -> Prop :=
| LmEnd last ma :
    (forall p q, last <= p <= length s -> mrel s r p q -> (ma && Nat.eqb p last && Nat.eqb q p) = true) ->
    split_lm r ng last ma [Some (slice s last (length s))]
| LmMatch last ma ms me c rest :
    last <= ms -> mcap s r ms [] me c -> (ma && Nat.eqb ms last && Nat.eqb me ms) = false ->
    (forall p q, last <= p < ms -> mrel s r p q -> (ma && Nat.eqb p last && Nat.eqb q p) = true) ->
    split_lm r ng me (Nat.eqb me ms) rest ->
    split_lm r ng last ma (Some (slice s last ms) :: group_values s ng c ++ rest).

End Leftmost.

Section Complete.
Variable s : list ascii.
Context {R : Type}.

(** A continuation that succeeds at [j] with any captures. *)
Definition accepts (j : nat) (k : nat -> caps -> option R) : Prop :=
  forall c, k j c <> None.

(** A CPS matcher that succeeds on every [mrel] match of [r]. *)
Definition complete_for (r : node) (m : nat -> caps -> (nat -> caps -> option R) -> option R) : Prop :=
  forall i j c k, mrel s r i j -> accepts j k -> m i c k <> None.

Lemma first_some_l {A} (x : option A) y : x <> None -> first_some x y <> None.
Proof. destruct x; cbn; congruence. Qed.

Lemma first_some_r {A} (x : option A) y : y tt <> None -> first_some x y <> None.
Proof. destruct x; cbn; congruence. Qed.

Lemma char_at_within i b : char_at s i = Some b -> within s i (S i).
Proof.
  unfold char_at, within. intros H.
  assert (i < length s) by (apply nth_error_Some; congruence). lia.
Qed.

Lemma reps_within r (IH : forall i j, mrel s r i j -> within s i j) r0 n i j :
  reps s r0 n i j -> r0 = r -> within s i j.
Proof.
  induction 1 as [|r0 n i j l Hm _ IHr]; intros ->; [apply within_refl|].
  exact (within_trans _ _ _ _ (IH _ _ Hm) (IHr eq_refl)).
Qed.

Lemma mrel_within r : forall i j, mrel s r i j -> within s i j.
Proof.
  induction r as [|a| |neg items|an|g r IH|r1 IH1 r2 IH2|r1 IH1 r2 IH2|greedy mn mx r IH];
    intros i j H; inversion H; subst;
    try solve [apply within_refl | eapply char_at_within; eassumption | eauto].
  - match goal with H1 : mrel _ r1 _ ?m, H2 : mrel _ r2 ?m _ |- _ =>
      exact (within_trans _ _ _ _ (IH1 _ _ H1) (IH2 _ _ H2)) end.
  - match goal with Hr : reps _ _ _ _ _ |- _ => exact (reps_within r IH _ _ _ _ Hr eq_refl) end.
Qed.

Section Rep.
Variable body : nat -> caps -> (nat -> caps -> option R) -> option R.
Variable r : node.
Hypothesis body_complete : complete_for r body.
Variables (greedy : bool) (mn : N) (mx : option N) (k : nat -> caps -> option R).

(** The guard of an optional iteration will not block at [j]: the last
    optional iteration did not start there. *)
Definition last_ok (count : N) (last : option nat) (j : nat) : Prop :=
  match last with None => True | Some l => (mn <= count)%N /\ l <> j end.

Definition max_ok (n : N) : Prop :=
  match mx with Some m => (n <= m)%N | None => True end.

Lemma rep_loop_complete r0 n j l : reps s r0 n j l -> r0 = r ->
  forall count last c fuel,
  (mn <= count + n)%N -> max_ok (count + n) -> last_ok count last j ->
  rep_measure s mn count last j < fuel -> accepts l k ->
  rep_loop body greedy mn mx k fuel count last j c <> None.
Proof.
  induction 1 as [r0 i|r0 n i j' l Hm Hr IH]; intros -> count last c fuel Hmn Hmx Hl Hf Hk;
    (destruct fuel as [|fuel]; [lia|]).
  - cbn [rep_loop]. rewrite (proj2 (N.ltb_ge count mn)) by lia.
    destruct greedy; [apply first_some_r|apply first_some_l]; apply Hk.
  - destruct (N.ltb_spec count mn) as [Hc|Hc].
    + cbn [rep_loop]. rewrite (proj2 (N.ltb_lt count mn) Hc).
      eapply body_complete; [exact Hm|]. intros c'. apply IH; [reflexivity|lia|..].
      * unfold max_ok in *. destruct mx; lia.
      * destruct last; cbn in *; [lia|exact I].
      * pose proof (rep_measure_mandatory s mn count last i j' Hc (mrel_within _ _ _ Hm)). lia.
      * exact Hk.
    + destruct (Nat.eq_dec j' i) as [->|Hne].
      { apply (IH eq_refl count last c (S fuel)); [lia|..|exact Hl|exact Hf|exact Hk].
        unfold max_ok in *. destruct mx; lia. }
      assert (Hg : match last with Some l => Nat.eqb l i | None => false end = false).
      { destruct last as [l'|]; [apply Nat.eqb_neq; apply Hl|reflexivity]. }
      assert (Hb : body i c (fun j'' c' => rep_loop body greedy mn mx k fuel (N.succ count) (Some i) j'' c') <> None).
      { eapply body_complete; [exact Hm|]. intros c'. apply IH; [reflexivity|lia|..].
        - unfold max_ok in *. destruct mx; lia.
        - cbn. split; [lia|congruence].
        - pose proof (rep_measure_optional s mn count last i j' Hc Hg (mrel_within _ _ _ Hm)). lia.
        - exact Hk. }
      cbn [rep_loop]. rewrite (proj2 (N.ltb_ge count mn) Hc), Hg.
      replace (match mx with None => true | Some mx0 => N.ltb count mx0 end) with true
        by (unfold max_ok in Hmx; destruct mx; [symmetry; apply N.ltb_lt; lia|reflexivity]).
      destruct greedy; [apply first_some_l|apply first_some_r]; exact Hb.
Qed.

End Rep.

Lemma mtch_complete r : complete_for r (fun i c k => mtch s r i c k).
Proof.
  induction r as [|a| |neg items|an|[g|] r IH|r1 IH1 r2 IH2|r1 IH1 r2 IH2|greedy mn mx r IH];
    intros i j c k Hm Hk; inversion Hm; subst; cbn [mtch]; unfold one_char.
  - apply Hk.
  - match goal with H : char_at _ _ = Some _ |- _ => rewrite H end. rewrite Ascii.eqb_refl. apply Hk.
  - match goal with H : char_at _ _ = Some _ |- _ => rewrite H end.
    match goal with H : Ascii.eqb _ newline = false |- _ => rewrite H end. apply Hk.
  - match goal with H : char_at _ _ = Some _ |- _ => rewrite H end.
    match goal with H : in_set _ _ _ = true |- _ => rewrite H end. apply Hk.
  - match goal with H : at_anchor _ _ _ = true |- _ => rewrite H end. apply Hk.
  - eapply IH; [eassumption|]. intros c'. apply Hk.
  - eapply IH; eassumption.
  - eapply IH1; [eassumption|]. intros c'. eapply IH2; eassumption.
  - apply first_some_l. eapply IH1; eassumption.
  - apply first_some_r. eapply IH2; eassumption.
  - eapply (rep_loop_complete _ r IH); [eassumption|reflexivity|lia|..|exact Hk].
    + unfold max_ok. destruct mx; [|exact I]. lia.
    + exact I.
    + unfold rep_measure, rep_fuel. lia.
Qed.

End Complete.

Section Search.
Variable s : list ascii.

(** The match [match_here] reports ends where the [must_advance] flag
    allows. *)
Lemma match_here_admissible r ma p j c :
  wf_node r = true -> match_here s r ma p = Some (j, c) -> (ma && Nat.eqb j p) = false.
Proof.
  intros Hwf H. unfold match_here in H. apply mtch_sound in H as (j' & c' & _ & H); [|exact Hwf].
  destruct (ma && Nat.eqb j' p) eqn:E; [discriminate|]. injection H as <- _. exact E.
Qed.

Lemma match_here_complete r ma p q :
  mrel s r p q -> (ma && Nat.eqb q p) = false -> exists m, match_here s r ma p = Some m.
Proof.
  intros Hm Ha. unfold match_here.
  destruct (mtch s r p [] _) as [m|] eqn:E; [eauto|exfalso].
  refine (mtch_complete s r p q [] _ Hm _ E). intros c. rewrite Ha. discriminate.
Qed.

(** C12. The contract of [search] in the relational semantics: when the
    pattern (as the parser returns it) has a match from [j] to [l] at a
    position [j] from [i] on that [must_advance] does not forbid,
    [search] returns a match: it is a match of the pattern, it starts
    at or before [j], and no admissible match of the pattern starts
    between [i] and it. *)
Theorem search_leftmost_match r ma i j l :
  wf_node r = true -> i <= j <= length s -> mrel s r j l ->
  (ma && Nat.eqb j i && Nat.eqb l j) = false ->
  exists ms me c, search s r ma i = Some (ms, me, c) /\ i <= ms <= j /\ mrel s r ms me /\
    (ma && Nat.eqb ms i && Nat.eqb me ms) = false /\
    (forall p q, i <= p < ms -> mrel s r p q -> (ma && Nat.eqb p i && Nat.eqb q p) = true).
Proof.
  intros Hwf Hj Hm Ha.
  destruct (match_here_complete r (ma && Nat.eqb j i) j l Hm Ha) as [m Hmh].
  destruct (search_k_first s r (length s - i) ma i j m ltac:(lia) Hmh) as (ms & me & c & Hs & Hr & Hms & Hp).
  exists ms, me, c. repeat split; [exact Hs|lia|lia| exact (match_here_sound s r _ ms me c Hwf Hms)
                                  | exact (match_here_admissible r _ ms me c Hwf Hms)|].
  intros p q Hpq Hq. destruct (ma && Nat.eqb p i && Nat.eqb q p) eqn:E; [reflexivity|exfalso].
  destruct (match_here_complete r _ p q Hq E) as [m' Hm']. rewrite (Hp p Hpq) in Hm'. discriminate.
Qed.

(** [search] answers [None] only when no admissible match starts from
    [i] on. *)
Lemma search_none r ma i : search s r ma i = None ->
  forall p q, i <= p <= length s -> mrel s r p q -> (ma && Nat.eqb p i && Nat.eqb q p) = true.
Proof.
  intros Hs p q Hp Hq. destruct (ma && Nat.eqb p i && Nat.eqb q p) eqn:E; [reflexivity|exfalso].
  destruct (match_here_complete r _ p q Hq E) as [m Hm].
  destruct (search_k_first s r (length s - i) ma i p m ltac:(lia) Hm) as (ms & me & c & Hs' & _).
  unfold search in Hs. congruence.
Qed.

(** What [search] returns is an admissible match, and none starts
    before it. *)
Lemma search_some_leftmost r ma i ms me c :
  wf_node r = true -> i <= length s -> search s r ma i = Some (ms, me, c) ->
  mrel s r ms me /\ (ma && Nat.eqb ms i && Nat.eqb me ms) = false /\
  (forall p q, i <= p < ms -> mrel s r p q -> (ma && Nat.eqb p i && Nat.eqb q p) = true).
Proof.
  intros Hwf Hi Hs. destruct (search_spec s r ma i ms me c Hi Hs) as [Hr [Hme Hma]].
  split; [|split].
  - unfold search in Hs. destruct (search_k_found s r _ _ _ _ _ _ Hs) as [ma' Hm].
    exact (match_here_sound s r ma' ms me c Hwf Hm).
  - destruct ma; [|reflexivity]. destruct (Nat.eqb_spec ms i) as [->|]; [|reflexivity].
    cbn. apply Nat.eqb_neq. specialize (Hma eq_refl). lia.
  - intros p q Hp Hq. destruct (ma && Nat.eqb p i && Nat.eqb q p) eqn:E; [reflexivity|exfalso].
    destruct (match_here_complete r _ p q Hq E) as [m Hm].
    destruct (search_k_first s r (length s - i) ma i p m ltac:(lia) Hm) as (ms' & me' & c' & Hs' & Hr' & _).
    unfold search in Hs. rewrite Hs in Hs'. injection Hs' as -> _ _. lia.
Qed.

(** The captures [search] reports are those of an [mcap] match. *)
Lemma search_caps r ma i ms me c :
  wf_node r = true -> search s r ma i = Some (ms, me, c) -> mcap s r ms [] me c.
Proof.
  intros Hwf Hs. unfold search in Hs. destruct (search_k_found s r _ _ _ _ _ _ Hs) as [ma' Hm].
  exact (match_here_caps s r ma' ms me c Hwf Hm).
Qed.

Lemma split_loop_leftmost r ng : wf_node r = true ->
  forall fuel last ma items, last <= length s ->
  split_loop s fuel r ng last ma = Some items -> split_lm s r ng last ma items.
Proof.
  intros Hwf. induction fuel as [|fuel IH]; intros last ma items Hl H; cbn [split_loop] in H; [discriminate|].
  destruct (search s r ma last) as [[[ms me] c]|] eqn:Hs.
  - destruct (split_loop s fuel r ng me (Nat.eqb me ms)) as [rest|] eqn:Hr; [|discriminate].
    injection H as <-. destruct (search_spec s r ma last ms me c Hl Hs) as [Hpos [Hme _]].
    destruct (search_some_leftmost r ma last ms me c Hwf Hl Hs) as (_ & Ha & Hp).
    apply (LmMatch s r ng last ma ms me c rest);
      [lia|exact (search_caps r ma last ms me c Hwf Hs)|exact Ha|exact Hp|exact (IH _ _ _ Hme Hr)].
  - injection H as <-. apply LmEnd. exact (search_none r ma last Hs).
Qed.

End Search.

(** C8. [re.split] cuts at leftmost matches and leaves no match behind:
    when the pattern parses, the list [re.split] returns is the text up
    to the leftmost match of the pattern ([mrel]) from the start, the
    groups that match records ([mcap], a group that took no part giving
    [None]), the text up to the leftmost match from the end of the
    previous one (an empty match not allowed where an empty match
    ended), ..., and the rest of the subject, in which no match of the
    pattern starts. *)
Theorem re_split_leftmost pattern subject items rest g :
  re_split pattern subject = POk items rest g ->
  exists r rest', parse_pattern pattern = POk r rest' g /\ split_lm subject r g 0 false items.
Proof.
  unfold re_split. pose proof (parse_pattern_wf pattern) as Hwf.
  destruct (parse_pattern pattern) as [r rest' g'| | |]; cbn [pbind]; try discriminate.
  cbn [ok_post] in Hwf.
  destruct (pattern_split subject r g') as [its|] eqn:Hs; [|discriminate].
  intros H. injection H as <- <- <-. exists r, rest'. split; [reflexivity|].
  exact (split_loop_leftmost subject r g' Hwf _ 0 false its (Nat.le_0_l _) Hs).
Qed.

Lemma search_leftmost_match_witness :
  exists ms me c, search ["a"; ","; "b"]%char (NLit ",") false 0 = Some (ms, me, c) /\ 0 <= ms <= 1 /\
    mrel ["a"; ","; "b"]%char (NLit ",") ms me /\
    (false && Nat.eqb ms 0 && Nat.eqb me ms) = false /\
    (forall p q, 0 <= p < ms -> mrel ["a"; ","; "b"]%char (NLit ",") p q ->
       (false && Nat.eqb p 0 && Nat.eqb q p) = true).
Proof.
  exact (search_leftmost_match ["a"; ","; "b"]%char (NLit ",") false 0 1 2 eq_refl
           ltac:(cbn; lia) (MLit ["a"; ","; "b"]%char ","%char 1 eq_refl) eq_refl).
Defined.

Lemma re_split_leftmost_witness :
  exists r rest', parse_pattern ["("; ","; ")"]%char = POk r rest' 1 /\
    split_lm ["a"; ","; "b"]%char r 1 0 false [Some ["a"%char]; Some [","%char]; Some ["b"%char]].
Proof.
  exact (re_split_leftmost ["("; ","; ")"]%char ["a"; ","; "b"]%char _ [] 1 eq_refl).
Defined.

(** The group after a piece is the one the match records: for [(,)]
    on ["a,b"], no leftmost split puts [None] where [re.split] puts
    [","]. *)
Example split_lm_group_recorded :
  ~ split_lm ["a"; ","; "b"]%char (NGroup (Some 1) (NLit ",")) 1 0 false
      [Some ["a"%char]; None; Some ["b"%char]].
Proof.
  intros H. inversion H; subst.
  match goal with Hc : mcap _ _ _ _ _ _ |- _ => inversion Hc; subst end.
  match goal with Hg : option_map _ _ = None |- _ => cbn in Hg; discriminate Hg end.
Qed.

End ReComplete.
