(* ===== verification/RegexSplit.v ===== *)
(** [src/custom_functions/regex_split.py]: parses the [strip_whitespace]
    flag, collapses doubled backslashes in the pattern, splits the input
    with [re.split] (the [ReSyntax]/[ReMatch] model), strips each piece
    when asked, and wraps every piece in an [{"item": piece}] record. *)

From Stdlib Require Import String Ascii List Bool Lia.
From S2P Require Import Prelude PyValue PyStr ReSyntax ReParseFuel ReMatch.
Import ListNotations.
Local Open Scope string_scope.

Module RegexSplit.

(** Line 29: "the input string {input_string} was split into {results}". *)
Inductive split_log : Type :=
| LSplit (input_string : pyval) (results : list pyval).

Abbreviation M := (PyM split_log).

(** Lines 19-21: [strip_whitespace is None or strip_whitespace.lower() == 'true']. *)
Definition strip_flag (strip_whitespace : pyval) : M bool :=
  match strip_whitespace with
  | PNone => ret true
  | PStr s => ret (String.eqb (PyStr.py_lower s) "true")
  | v => no_attribute v "lower"
  end.

(** Line 23: [regex.replace('\\\\', '\\')], two backslashes to one. *)
Definition collapse_backslashes (regex : pyval) : M string :=
  match regex with
  | PStr r => ret (PyStr.py_replace r "\\" "\")
  | v => no_attribute v "replace"
  end.

(** A piece of [re.split]'s result: a string, or [None] for a group that
    did not take part in the match. *)
Definition piece_value (p : option (list ascii)) : pyval :=
  match p with
  | Some cs => PStr (string_of_list_ascii cs)
  | None => PNone
  end.

(** Line 24: [re.split(regex, input_string)]: the pattern is compiled
    first, then the subject must be a string. *)
Definition re_split (regex : string) (input_string : pyval) : M (list pyval) :=
  match ReSyntax.parse_pattern (list_ascii_of_string regex) with
  | ReSyntax.PErr k msg => raise k msg
  | ReSyntax.PUnsup what => raise Unmodelled what
  | ReSyntax.PFuel => raise Unmodelled "parser fuel"
  | ReSyntax.POk r _ ngroups =>
      match input_string with
      | PStr s =>
          match ReMatch.pattern_split (list_ascii_of_string s) r ngroups with
          | Some pieces => ret (map piece_value pieces)
          | None => raise Unmodelled "split fuel"
          end
      | _ => raise TypeError "expected string or bytes-like object"
      end
  end.

(** Lines 26-27: [[result.strip() for result in results]]; [None] has no
    [strip]. *)
Fixpoint strip_all (results : list pyval) : M (list pyval) :=
  match results with
  | [] => ret []
  | PStr s :: rest => rest' <- strip_all rest ;; ret (PStr (PyStr.py_strip s) :: rest')
  | v :: _ => no_attribute v "strip"
  end.

(** The whole function, lines 1-34. *)
Definition regex_split (input_string regex strip_whitespace : pyval) : M (list pyval) :=
  strip <- strip_flag strip_whitespace ;;
  pattern <- collapse_backslashes regex ;;
  results <- re_split pattern input_string ;;
  results <- (if strip then strip_all results else ret results) ;;
  debug (LSplit input_string results) ;;
  let outputs := map item_record results in
  assert_json (PList outputs) ;;
  ret outputs.

(** ** Lemmas *)

(** A value [re.split] can put in its result. *)
Definition piece_like (v : pyval) : bool :=
  match v with PStr _ | PNone => true | _ => false end.

(** The exceptions [regex_split] can raise. *)
Definition split_error (e : py_exc) : Prop :=
  exc_kind e = AttributeError \/ exc_kind e = ReError \/ exc_kind e = OverflowError \/
  exc_kind e = Unmodelled \/ e = mk_exc TypeError "expected string or bytes-like object".


Lemma strip_flag_raises w : raises_only split_error (strip_flag w).
Proof. unfold strip_flag. destruct w; first [apply ret_raises_only | apply raise_raises_only; now left]. Qed.

Lemma collapse_raises r : raises_only split_error (collapse_backslashes r).
Proof. unfold collapse_backslashes. destruct r; first [apply ret_raises_only | apply raise_raises_only; now left]. Qed.

Lemma re_split_raises p i : raises_only split_error (re_split p i).
Proof.
  unfold re_split. pose proof (ReSyntax.parse_pattern_errs_ok (list_ascii_of_string p)) as He.
  destruct (ReSyntax.parse_pattern _) as [r rest ng|k msg|w|]; simpl in He.
  - destruct i; try (apply raise_raises_only; now do 4 right).
    destruct (ReMatch.pattern_split _ _ _); [apply ret_raises_only|].
    apply raise_raises_only. now do 3 right; left.
  - apply raise_raises_only. destruct He as [-> | ->]; [now right; left | now do 2 right; left].
  - apply raise_raises_only. now do 3 right; left.
  - apply raise_raises_only. now do 3 right; left.
Qed.

Lemma map_piece_value_like l : forallb piece_like (map piece_value l) = true.
Proof. induction l as [|[x|] l IH]; simpl; auto. Qed.

Lemma re_split_returns p i : returns (fun res => forallb piece_like res = true) (re_split p i).
Proof.
  unfold re_split. destruct (ReSyntax.parse_pattern _); try apply raise_returns.
  destruct i; try apply raise_returns.
  destruct (ReMatch.pattern_split _ _ _); [apply ret_returns, map_piece_value_like | apply raise_returns].
Qed.

Lemma strip_all_raises rs : raises_only split_error (strip_all rs).
Proof.
  induction rs as [|v rs IH]; simpl; [apply ret_raises_only|].
  destruct v; try (apply raise_raises_only; now left).
  apply bind_raises_only; [exact IH | intros; apply ret_raises_only].
Qed.

Lemma strip_all_returns rs : returns (fun res => forallb piece_like res = true) (strip_all rs).
Proof.
  induction rs as [|v rs IH]; simpl; [now apply ret_returns|].
  destruct v; try apply raise_returns.
  apply (bind_returns _ _ _ _ IH). intros a Ha. now apply ret_returns.
Qed.

Lemma json_piece_records l :
  forallb piece_like l = true -> json_serializable (PList (map item_record l)) = true.
Proof.
  rewrite json_records. induction l as [|[] l IH]; simpl; auto; discriminate.
Qed.

(** The results after the optional stripping are pieces. *)
Lemma stripped_returns (strip : bool) results :
  forallb piece_like results = true ->
  returns (fun res => forallb piece_like res = true)
    (if strip then strip_all results else ret (L:=split_log) results).
Proof. intros H. destruct strip; [apply strip_all_returns | now apply ret_returns]. Qed.

Lemma stripped_raises (strip : bool) results :
  raises_only split_error (if strip then strip_all results else ret (L:=split_log) results).
Proof. destruct strip; [apply strip_all_raises | apply ret_raises_only]. Qed.

Lemma regex_split_raises i r w : raises_only split_error (regex_split i r w).
Proof.
  unfold regex_split.
  apply bind_raises_only; [apply strip_flag_raises | intros strip].
  apply bind_raises_only; [apply collapse_raises | intros pattern].
  apply (bind_raises_only_post _ _ _ _ (re_split_raises _ _) (re_split_returns _ _)).
  intros results Hres.
  apply (bind_raises_only_post _ _ _ _ (stripped_raises strip results) (stripped_returns strip results Hres)).
  intros results' Hres'.
  apply bind_raises_only; [apply debug_raises_only | intros _].
  unfold assert_json. rewrite (json_piece_records _ Hres').
  apply bind_raises_only; intros; apply ret_raises_only.
Qed.

Lemma regex_split_returns i r w :
  returns (fun outs => Forall (fun o => exists v, o = item_record v /\ piece_like v = true) outs)
    (regex_split i r w).
Proof.
  unfold regex_split.
  apply (bind_returns (fun _ => True)); [intros ? ? ? _; exact I | intros strip _].
  apply (bind_returns (fun _ => True)); [intros ? ? ? _; exact I | intros pattern _].
  apply (bind_returns _ _ _ _ (re_split_returns _ _)). intros results Hres.
  apply (bind_returns _ _ _ _ (stripped_returns strip results Hres)). intros results' Hres'.
  apply (bind_returns _ _ _ _ (returns_True _)). intros _ _.
  unfold assert_json. rewrite (json_piece_records _ Hres').
  apply (bind_returns _ _ _ _ (ret_returns (fun _ => True) tt I)). intros _ _.
  apply ret_returns. apply Forall_forall. intros o Ho. apply in_map_iff in Ho as [v [<- Hv]].
  exists v. split; [reflexivity|]. rewrite forallb_forall in Hres'. now apply Hres'.
Qed.

Lemma strip_all_oblivious rs : log_oblivious (strip_all rs).
Proof. induction rs as [|[] rs IH]; simpl; oblivious. Qed.

Lemma re_split_oblivious p i : log_oblivious (re_split p i).
Proof. unfold re_split. oblivious. Qed.

#[export] Hint Resolve strip_all_oblivious re_split_oblivious : pylog.

(** ** Where the [Unmodelled] marker comes from *)

(** An exception other than the [Unmodelled] marker, or the marker the
    parser answers on [pattern] for a construct outside the subset. *)
Definition unsup_of (pattern : string) (e : py_exc) : Prop :=
  exc_kind e = Unmodelled ->
  ReSyntax.parse_pattern (list_ascii_of_string pattern) = ReSyntax.PUnsup (exc_msg e).

(** The same for the argument [regex] of [regex_split], a string whose
    doubled backslashes are collapsed before it is compiled. *)
Definition regex_unsup (regex : pyval) (e : py_exc) : Prop :=
  exc_kind e = Unmodelled -> exists s, regex = PStr s /\
    ReSyntax.parse_pattern (list_ascii_of_string (PyStr.py_replace s "\\" "\")) =
    ReSyntax.PUnsup (exc_msg e).

Definition not_unmodelled (e : py_exc) : Prop := exc_kind e <> Unmodelled.

(** Closes [raise k msg] goals for a class [k] other than [Unmodelled]. *)
Ltac raise_other :=
  apply raise_raises_only; cbv beta delta [not_unmodelled unsup_of regex_unsup]; cbn; discriminate.

Lemma strip_flag_modelled w : raises_only not_unmodelled (strip_flag w).
Proof. unfold strip_flag. destruct w; first [apply ret_raises_only | raise_other]. Qed.

Lemma collapse_modelled r : raises_only not_unmodelled (collapse_backslashes r).
Proof. unfold collapse_backslashes. destruct r; first [apply ret_raises_only | raise_other]. Qed.

Lemma collapse_returns r :
  returns (fun pat => exists s, r = PStr s /\ pat = PyStr.py_replace s "\\" "\") (collapse_backslashes r).
Proof. unfold collapse_backslashes. destruct r; try apply raise_returns. apply ret_returns. eauto. Qed.

Lemma strip_all_modelled rs : raises_only not_unmodelled (strip_all rs).
Proof.
  induction rs as [|v rs IH]; simpl; [apply ret_raises_only|].
  destruct v; try raise_other.
  apply bind_raises_only; [exact IH | intros; apply ret_raises_only].
Qed.

Lemma stripped_modelled (strip : bool) results :
  raises_only not_unmodelled (if strip then strip_all results else ret (L:=split_log) results).
Proof. destruct strip; [apply strip_all_modelled | apply ret_raises_only]. Qed.

Lemma not_unmodelled_regex r e : not_unmodelled e -> regex_unsup r e.
Proof. intros H H'. contradiction. Qed.

(** [re.split] raises the marker only for an unsupported construct of
    its pattern: the parser and the split loop never run out of fuel. *)
Lemma re_split_unsup p i : raises_only (unsup_of p) (re_split p i).
Proof.
  unfold re_split. pose proof (ReSyntax.parse_pattern_errs_ok (list_ascii_of_string p)) as He.
  pose proof (ReParseFuel.parse_pattern_post (list_ascii_of_string p)) as Hf.
  destruct (ReSyntax.parse_pattern _) as [r rest ng|k msg|w|] eqn:Hp; cbn in He, Hf.
  - destruct i; try raise_other.
    destruct (ReMatch.pattern_split _ _ _) eqn:Hs; [apply ret_raises_only|exfalso; revert Hs].
    unfold ReMatch.pattern_split, ReMatch.split_fuel.
    apply ReMatch.split_loop_some; [lia|unfold ReMatch.split_measure; lia].
  - apply raise_raises_only. unfold unsup_of. cbn. destruct He as [-> | ->]; discriminate.
  - apply raise_raises_only. intros _. exact Hp.
  - contradiction.
Qed.

Lemma regex_split_unsup i r w : raises_only (regex_unsup r) (regex_split i r w).
Proof.
  unfold regex_split.
  apply bind_raises_only; [exact (raises_only_weaken _ _ _ (not_unmodelled_regex r) (strip_flag_modelled w)) | intros strip].
  apply (bind_raises_only_post _ _ _ _
           (raises_only_weaken _ _ _ (not_unmodelled_regex r) (collapse_modelled r)) (collapse_returns r)).
  intros pattern [s [-> ->]].
  apply (bind_raises_only_post _ _ _ _
           (raises_only_weaken _ _ _ (fun e He Hk => ex_intro _ s (conj eq_refl (He Hk))) (re_split_unsup _ i))
           (re_split_returns _ _)).
  intros results Hres.
  apply (bind_raises_only_post _ _ _ _
           (raises_only_weaken _ _ _ (not_unmodelled_regex _) (stripped_modelled strip results))
           (stripped_returns strip results Hres)).
  intros results' Hres'.
  apply bind_raises_only; [apply debug_raises_only | intros _].
  unfold assert_json. rewrite (json_piece_records _ Hres').
  apply bind_raises_only; intros; apply ret_raises_only.
Qed.

(** C23. [regex_split] raises the [Unmodelled] marker only when the
    pattern (a string, its doubled backslashes collapsed) uses a
    construct outside the modelled subset, with the parser's
    description of that construct: neither the parser nor the split
    loop of [re.split] ever runs out of fuel, so every other outcome of
    the model is an outcome of Python. *)
Theorem regex_split_unmodelled i r w e :
  fst (run (regex_split i r w)) = Err e -> exc_kind e = Unmodelled ->
  exists s, r = PStr s /\
    ReSyntax.parse_pattern (list_ascii_of_string (PyStr.py_replace s "\\" "\")) =
    ReSyntax.PUnsup (exc_msg e).
Proof. intros H. exact (raises_only_run _ _ _ (regex_split_unsup i r w) H). Qed.

Lemma regex_split_unmodelled_witness :
  fst (run (regex_split (PStr "a1b") (PStr "(?P<x>1)") PNone)) = Err (mk_exc Unmodelled "group extension") /\
  exists s, PStr "(?P<x>1)" = PStr s /\
    ReSyntax.parse_pattern (list_ascii_of_string (PyStr.py_replace s "\\" "\")) =
    ReSyntax.PUnsup (exc_msg (mk_exc Unmodelled "group extension")).
Proof.
  assert (H : fst (run (regex_split (PStr "a1b") (PStr "(?P<x>1)") PNone)) = Err (mk_exc Unmodelled "group extension"))
    by reflexivity.
  split; [exact H|exact (regex_split_unmodelled _ _ _ _ H eq_refl)].
Defined.

(** ** Properties of [regex_split] *)

(** C22. [regex_split] fails only with an [AttributeError] (a flag or a
    pattern that is not a string, a [None] piece to strip), a [re.error]
    or [OverflowError] from compiling the pattern, or the [TypeError] of a
    subject that is not a string ([Unmodelled] marks patterns outside the
    modelled subset): the [assert json.dumps(outputs)] check never fails. *)
Theorem regex_split_errors i r w e :
  fst (run (regex_split i r w)) = Err e -> split_error e.
Proof. apply raises_only_run, regex_split_raises. Qed.

Lemma regex_split_errors_witness :
  fst (run (regex_split (PStr "a,b") PNone PNone))
  = Err (mk_exc AttributeError "'NoneType' object has no attribute 'replace'") /\
  split_error (mk_exc AttributeError "'NoneType' object has no attribute 'replace'").
Proof.
  assert (H : fst (run (regex_split (PStr "a,b") PNone PNone))
             = Err (mk_exc AttributeError "'NoneType' object has no attribute 'replace'"))
    by reflexivity.
  split; [exact H | exact (regex_split_errors _ _ _ _ H)].
Defined.

(** The spec's example: splitting ["a, b,,c"] on [","] with stripping
    (the default, or the string ["True"] in any case) gives the records of
    ["a"], ["b"], [""] and ["c"]; with ["False"] the space is kept. *)
Example regex_split_spec_example :
  fst (run (regex_split (PStr "a, b,,c") (PStr ",") PNone))
    = Ok (map item_record [PStr "a"; PStr "b"; PStr ""; PStr "c"]) /\
  fst (run (regex_split (PStr "a, b,,c") (PStr ",") (PStr "TRUE")))
    = Ok (map item_record [PStr "a"; PStr "b"; PStr ""; PStr "c"]) /\
  fst (run (regex_split (PStr "a, b,,c") (PStr ",") (PStr "False")))
    = Ok (map item_record [PStr "a"; PStr " b"; PStr ""; PStr "c"]).
Proof. split; [|split]; reflexivity. Qed.

(** A boolean [strip_whitespace] (the spec calls the flag a boolean)
    makes [regex_split] raise [AttributeError] before anything else:
    [bool] has no [lower] method. *)
Lemma regex_split_bool_flag_raises i r b :
  run (regex_split i r (PBool b))
  = (Err (mk_exc AttributeError "'bool' object has no attribute 'lower'"), []).
Proof. reflexivity. Qed.

(** A missing pattern ([regex=None]) raises [AttributeError] from
    [None.replace], not a validation error, whatever the other inputs. *)
Theorem regex_split_none_regex i f :
  run (regex_split i PNone PNone)
    = (Err (mk_exc AttributeError "'NoneType' object has no attribute 'replace'"), []) /\
  run (regex_split i PNone (PStr f))
    = (Err (mk_exc AttributeError "'NoneType' object has no attribute 'replace'"), []).
Proof. split; reflexivity. Qed.

(** Doubled backslashes in the pattern are collapsed: [\\.] splits
    ["a.b"] on the dot.  The spec's example input ["a\.b"] with the
    pattern [\.] keeps the backslash in the first piece. *)
Example regex_split_backslash_examples :
  fst (run (regex_split (PStr "a.b") (PStr "\\.") PNone))
    = Ok (map item_record [PStr "a"; PStr "b"]) /\
  fst (run (regex_split (PStr "a\.b") (PStr "\.") PNone))
    = Ok (map item_record [PStr "a\"; PStr "b"]).
Proof. split; reflexivity. Qed.

(** Capturing groups of the pattern are returned between the pieces,
    as [re.split] does: splitting ["a,b"] on [(,)] gives ["a"], [","],
    ["b"]; a group that did not take part gives [None], which makes the
    default stripping raise [AttributeError]. *)
Example regex_split_groups :
  fst (run (regex_split (PStr "a,b") (PStr "(,)") PNone))
    = Ok (map item_record [PStr "a"; PStr ","; PStr "b"]) /\
  fst (run (regex_split (PStr "a,b") (PStr "(,)|(;)") (PStr "false")))
    = Ok (map item_record [PStr "a"; PStr ","; PNone; PStr "b"]) /\
  fst (run (regex_split (PStr "a,b") (PStr "(,)|(;)") PNone))
    = Err (mk_exc AttributeError "'NoneType' object has no attribute 'strip'").
Proof. split; [|split]; reflexivity. Qed.

(** [re.split] does not log. *)
Lemma re_split_log p i tr : snd (re_split p i tr) = tr.
Proof.
  unfold re_split.
  repeat match goal with |- context [match ?x with _ => _ end] => destruct x end; reflexivity.
Qed.

(** Stripping fails at the first [None] piece. *)
Lemma strip_all_none rs tr : forallb piece_like rs = true -> In PNone rs ->
  fst (strip_all rs tr) = Err (mk_exc AttributeError "'NoneType' object has no attribute 'strip'").
Proof.
  induction rs as [|v rs IH]; intros Hp Hin; [contradiction|].
  destruct v; cbn in Hp; try discriminate; [reflexivity|].
  destruct Hin as [Hv|Hin]; [discriminate|]. cbn [strip_all].
  specialize (IH Hp Hin).
  destruct (strip_all rs tr) as [[a|e] tr'] eqn:E; cbn in IH; [discriminate|].
  rewrite (bind_err _ _ _ _ _ E). exact IH.
Qed.

(** C24. The unmatched-group bug in general: whenever stripping is on
    and [re.split] returns [None] for a group that took no part in a
    match, [regex_split] raises [AttributeError] from [None.strip()]
    instead of returning the pieces. *)
Theorem regex_split_none_piece i s w pieces :
  fst (run (strip_flag w)) = Ok true ->
  fst (run (re_split (PyStr.py_replace s "\\" "\") i)) = Ok pieces -> In PNone pieces ->
  fst (run (regex_split i (PStr s) w)) =
    Err (mk_exc AttributeError "'NoneType' object has no attribute 'strip'").
Proof.
  intros Hw Hr Hin. unfold run in *.
  assert (Hs : strip_flag w [] = (Ok true, [])).
  { destruct w; cbn in Hw |- *; try discriminate Hw; [reflexivity|]. injection Hw as ->. reflexivity. }
  assert (Hr' : re_split (PyStr.py_replace s "\\" "\") i [] = (Ok pieces, [])).
  { pose proof (re_split_log (PyStr.py_replace s "\\" "\") i []) as L.
    destruct (re_split _ i []) as [r0 tr0]; cbn in L, Hr; subst; reflexivity. }
  assert (Hp : forallb piece_like pieces = true) by exact (re_split_returns _ _ _ _ _ Hr').
  unfold regex_split. rewrite (bind_ok _ _ _ _ _ Hs). cbn [collapse_backslashes].
  rewrite bind_ret_l, (bind_ok _ _ _ _ _ Hr'). cbv iota.
  pose proof (strip_all_none pieces [] Hp Hin) as H.
  destruct (strip_all pieces []) as [[a|e] tr'] eqn:E; cbn in H; [discriminate|].
  rewrite (bind_err _ _ _ _ _ E). exact H.
Qed.

Lemma regex_split_none_piece_witness :
  fst (run (regex_split (PStr "a,b") (PStr "(,)|(;)") PNone)) =
    Err (mk_exc AttributeError "'NoneType' object has no attribute 'strip'").
Proof.
  exact (regex_split_none_piece (PStr "a,b") "(,)|(;)" PNone [PStr "a"; PStr ","; PNone; PStr "b"]
           eq_refl eq_refl ltac:(cbn; auto)).
Defined.

(** [result.strip()] on a piece. *)
Definition strip_value (v : pyval) : pyval :=
  match v with PStr t => PStr (PyStr.py_strip t) | _ => v end.

(** Stripping pieces that are all strings. *)
Lemma strip_all_strs rs tr : Forall (fun v => exists t, v = PStr t) rs ->
  strip_all rs tr = (Ok (map strip_value rs), tr).
Proof.
  induction 1 as [|v rs [t ->] _ IH]; [reflexivity|]. cbn [strip_all].
  rewrite (bind_ok _ _ _ _ _ IH). reflexivity.
Qed.

Lemma strip_value_like rs :
  forallb piece_like rs = true -> forallb piece_like (map strip_value rs) = true.
Proof. induction rs as [|[] rs IH]; cbn; auto; discriminate. Qed.

(** C18. The result of [regex_split] in terms of [re.split]: when the
    flag parses to [strip] and [re.split] of the collapsed pattern
    returns the pieces (strings when stripping, which fails on [None]
    otherwise), [regex_split] returns one [{"item": piece}] record per
    piece, in order, each stripped when [strip] is on, and logs one
    message with the input and these pieces. *)
Theorem regex_split_result i s w strip pieces :
  fst (run (strip_flag w)) = Ok strip ->
  fst (run (re_split (PyStr.py_replace s "\\" "\") i)) = Ok pieces ->
  (strip = true -> Forall (fun v => exists t, v = PStr t) pieces) ->
  let results := if strip then map strip_value pieces else pieces in
  run (regex_split i (PStr s) w) = (Ok (map item_record results), [LSplit i results]).
Proof.
  intros Hw Hr Hs results. unfold run in *.
  assert (Hf : strip_flag w [] = (Ok strip, [])).
  { destruct w; cbn in Hw |- *; try discriminate Hw; injection Hw as <-; reflexivity. }
  assert (Hr' : re_split (PyStr.py_replace s "\\" "\") i [] = (Ok pieces, [])).
  { pose proof (re_split_log (PyStr.py_replace s "\\" "\") i []) as L.
    destruct (re_split _ i []) as [r0 tr0]; cbn in L, Hr; subst; reflexivity. }
  assert (Hp : forallb piece_like pieces = true) by exact (re_split_returns _ _ _ _ _ Hr').
  assert (Hst : (if strip then strip_all pieces else ret (L:=split_log) pieces) [] = (Ok results, [])).
  { unfold results. destruct strip; [exact (strip_all_strs pieces [] (Hs eq_refl))|reflexivity]. }
  assert (Hj : forallb piece_like results = true).
  { unfold results. destruct strip; [apply strip_value_like|]; exact Hp. }
  unfold regex_split. rewrite (bind_ok _ _ _ _ _ Hf). cbn [collapse_backslashes].
  rewrite bind_ret_l, (bind_ok _ _ _ _ _ Hr'), (bind_ok _ _ _ _ _ Hst).
  unfold assert_json. rewrite (json_piece_records _ Hj). reflexivity.
Qed.

Lemma regex_split_result_witness :
  run (regex_split (PStr "a, b,,c") (PStr ",") PNone) =
  (Ok (map item_record [PStr "a"; PStr "b"; PStr ""; PStr "c"]),
   [LSplit (PStr "a, b,,c") [PStr "a"; PStr "b"; PStr ""; PStr "c"]]).
Proof.
  exact (regex_split_result (PStr "a, b,,c") "," PNone true [PStr "a"; PStr " b"; PStr ""; PStr "c"]
           eq_refl eq_refl (fun _ => ltac:(repeat constructor; eexists; reflexivity))).
Defined.

(** The debug log is a side channel for [regex_split]. *)
Theorem regex_split_log_oblivious i r w : log_oblivious (regex_split i r w).
Proof. unfold regex_split, strip_flag, collapse_backslashes. oblivious. Qed.

End RegexSplit.
