(* ===== verification/Calendar.v ===== *)
(** The proleptic Gregorian calendar of CPython's [datetime] module
    ([Modules/_datetimemodule.c]), which [datetime_modify.py] relies on
    through [datetime + timedelta]: leap years, month lengths, and the
    conversions between a date and its ordinal (day 1 is 0001-01-01).

    [ord_to_ymd] is CPython's: it splits the ordinal into 400-, 100-, 4-
    and 1-year cycles, estimates the month as [(n + 50) >> 5] and corrects
    the estimate once.  The roundtrip theorems are proved by checking one
    400-year cycle with [vm_compute] and extending it by periodicity. *)

From Stdlib Require Import ZArith Bool List Lia.
Import ListNotations.
Local Open Scope Z_scope.

Module Calendar.

Definition MINYEAR : Z := 1.
Definition MAXYEAR : Z := 9999.
(** [MAXORDINAL]: the ordinal of 9999-12-31. *)
Definition MAXORDINAL : Z := 3652059.

(** [is_leap]. *)
Definition is_leap (year : Z) : bool :=
  (year mod 4 =? 0) && (negb (year mod 100 =? 0) || (year mod 400 =? 0)).

(** [_days_in_month] and [_days_before_month] (1-based, index 0 unused). *)
Definition days_in_month_tbl : list Z := [0; 31; 28; 31; 30; 31; 30; 31; 31; 30; 31; 30; 31].
Definition days_before_month_tbl : list Z := [0; 0; 31; 59; 90; 120; 151; 181; 212; 243; 273; 304; 334].

Definition tbl (t : list Z) (m : Z) : Z := nth (Z.to_nat m) t 0.

(** [days_in_month(year, month)]. *)
Definition days_in_month (year month : Z) : Z :=
  if (month =? 2) && is_leap year then 29 else tbl days_in_month_tbl month.

(** [days_before_month(year, month)]. *)
Definition days_before_month (year month : Z) : Z :=
  tbl days_before_month_tbl month + (if (2 <? month) && is_leap year then 1 else 0).

(** [days_before_year(year)]: days in the years before [year]. *)
Definition days_before_year (year : Z) : Z :=
  let y := year - 1 in y * 365 + y / 4 - y / 100 + y / 400.

Definition DI4Y : Z := 1461.
Definition DI100Y : Z := 36524.
Definition DI400Y : Z := 146097.

(** [ymd_to_ord(year, month, day)]. *)
Definition ymd_to_ord (year month day : Z) : Z :=
  days_before_year year + days_before_month year month + day.

(** The part of [ord_to_ymd] after the 400-year cycles: [n] days into the
    cycle that starts on January 1st of [year]. *)
Definition ymd_in_cycle (year n : Z) : Z * Z * Z :=
  let n100 := n / DI100Y in
  let n := n mod DI100Y in
  let n4 := n / DI4Y in
  let n := n mod DI4Y in
  let n1 := n / 365 in
  let n := n mod 365 in
  let year := year + n100 * 100 + n4 * 4 + n1 in
  if (n1 =? 4) || (n100 =? 4) then (year - 1, 12, 31)
  else
    let leapyear := (n1 =? 3) && (negb (n4 =? 24) || (n100 =? 3)) in
    let month := Z.shiftr (n + 50) 5 in
    let preceding := tbl days_before_month_tbl month
                     + (if (2 <? month) && leapyear then 1 else 0) in
    let '(month, preceding) :=
      if n <? preceding then (month - 1, preceding - days_in_month year (month - 1))
      else (month, preceding) in
    (year, month, n - preceding + 1).

(** [ord_to_ymd(ordinal)], for [ordinal >= 1]. *)
Definition ord_to_ymd (ordinal : Z) : Z * Z * Z :=
  let o := ordinal - 1 in
  ymd_in_cycle ((o / DI400Y) * 400 + 1) (o mod DI400Y).

(** A valid date of [datetime]. *)
Definition valid_date (year month day : Z) : bool :=
  (MINYEAR <=? year) && (year <=? MAXYEAR) && (1 <=? month) && (month <=? 12)
  && (1 <=? day) && (day <=? days_in_month year month).

(** ** Checking a range of integers by computation *)

(** [forall_range f lo n]: [f] holds on [lo], ..., [lo + n - 1]. *)
Definition forall_range (f : Z -> bool) (lo : Z) (n : positive) : bool :=
  snd (Pos.iter (fun '(o, acc) => (o + 1, acc && f o)) (lo, true) n).

Lemma forall_range_iter f lo n :
  Pos.iter (fun '(o, acc) => (o + 1, acc && f o)) (lo, true) n
  = (lo + Zpos n, forall_range f lo n) /\
  (forall_range f lo n = true -> forall o, lo <= o < lo + Zpos n -> f o = true).
Proof.
  unfold forall_range. induction n as [|n IH] using Pos.peano_ind.
  - simpl. split; [reflexivity|]. intros H o Ho. replace o with lo by lia. exact H.
  - rewrite Pos.iter_succ. destruct IH as [IH1 IH2]. rewrite IH1. simpl.
    split; [f_equal; lia|]. intros H o Ho. apply andb_prop in H as [H1 H2].
    destruct (Z.eq_dec o (lo + Zpos n)) as [->|Hne]; [exact H2|].
    apply IH2; [exact H1 | lia].
Qed.

Lemma forall_range_spec f lo n :
  forall_range f lo n = true -> forall o, lo <= o < lo + Zpos n -> f o = true.
Proof. apply forall_range_iter. Qed.

(** ** One 400-year cycle *)

Definition ord_cycle_ok (o : Z) : bool :=
  let '(y, m, d) := ord_to_ymd o in
  valid_date y m d && (ymd_to_ord y m d =? o) && (y <=? 400).

Definition date_cycle_ok (y m d : Z) : bool :=
  negb (d <=? days_in_month y m) ||
  (let o := ymd_to_ord y m d in
   match ord_to_ymd o with
   | (y', m', d') => (y' =? y) && (m' =? m) && (d' =? d)
   end && (1 <=? o) && (o <=? (if y <=? 399 then 145731 else DI400Y))).

Lemma ord_cycle_check : forall_range ord_cycle_ok 1 146097 = true.
Proof. vm_compute. reflexivity. Qed.

Lemma date_cycle_check :
  forall_range (fun y => forall_range (fun m => forall_range (date_cycle_ok y m) 1 31) 1 12) 1 400
  = true.
Proof. vm_compute. reflexivity. Qed.

(** ** Periodicity: the calendar repeats every 400 years *)

Lemma is_leap_shift y q : is_leap (y + 400 * q) = is_leap y.
Proof.
  unfold is_leap.
  replace (y + 400 * q) with (y + (100 * q) * 4) at 1 by ring. rewrite Z_mod_plus_full.
  replace (y + 400 * q) with (y + (4 * q) * 100) at 1 by ring. rewrite Z_mod_plus_full.
  replace (y + 400 * q) with (y + q * 400) by ring. now rewrite Z_mod_plus_full.
Qed.

Lemma days_in_month_shift y q m : days_in_month (y + 400 * q) m = days_in_month y m.
Proof. unfold days_in_month. now rewrite is_leap_shift. Qed.

Lemma days_before_month_shift y q m : days_before_month (y + 400 * q) m = days_before_month y m.
Proof. unfold days_before_month. now rewrite is_leap_shift. Qed.

(** [(a + b * c) / c = a / c + b], in the form the shifts use. *)
Lemma div_shift a k c : c <> 0 -> (a + k * c) / c = a / c + k.
Proof. intros Hc. now apply Z_div_plus_full. Qed.

Lemma days_before_year_shift y q : days_before_year (y + 400 * q) = days_before_year y + DI400Y * q.
Proof.
  unfold days_before_year, DI400Y.
  replace (y + 400 * q - 1) with (y - 1 + (100 * q) * 4) at 2 by ring.
  replace (y + 400 * q - 1) with (y - 1 + (4 * q) * 100) at 2 by ring.
  replace (y + 400 * q - 1) with (y - 1 + q * 400) at 2 by ring.
  rewrite !div_shift by lia. ring.
Qed.

Lemma ymd_to_ord_shift y m d q : ymd_to_ord (y + 400 * q) m d = ymd_to_ord y m d + DI400Y * q.
Proof. unfold ymd_to_ord. rewrite days_before_year_shift, days_before_month_shift. lia. Qed.

Definition shift_year (q : Z) (ymd : Z * Z * Z) : Z * Z * Z :=
  let '(y, m, d) := ymd in (y + 400 * q, m, d).

Lemma ymd_in_cycle_shift year q n :
  ymd_in_cycle (year + 400 * q) n = shift_year q (ymd_in_cycle year n).
Proof.
  unfold ymd_in_cycle. cbv zeta.
  set (K := n / DI100Y * 100 + n mod DI100Y / DI4Y * 4 + n mod DI100Y mod DI4Y / 365).
  replace (year + 400 * q + n / DI100Y * 100 + n mod DI100Y / DI4Y * 4
           + n mod DI100Y mod DI4Y / 365) with ((year + K) + 400 * q) by (unfold K; ring).
  replace (year + n / DI100Y * 100 + n mod DI100Y / DI4Y * 4 + n mod DI100Y mod DI4Y / 365)
    with (year + K) by (unfold K; ring).
  rewrite days_in_month_shift.
  destruct (_ || _); simpl; [f_equal; f_equal; lia|].
  destruct (_ <? _); simpl; reflexivity.
Qed.

Lemma ord_to_ymd_shift o q :
  1 <= o -> 0 <= q -> ord_to_ymd (o + DI400Y * q) = shift_year q (ord_to_ymd o).
Proof.
  intros Ho Hq. unfold ord_to_ymd.
  replace (o + DI400Y * q - 1) with ((o - 1) + q * DI400Y) by ring.
  rewrite Z_div_plus_full, Z_mod_plus_full by (unfold DI400Y; lia).
  rewrite <- ymd_in_cycle_shift. f_equal. ring.
Qed.

(** ** Bounds *)

Lemma tbl_range t m : Forall (fun x => 0 <= x <= 334) t -> 0 <= tbl t m <= 334.
Proof.
  intros Ht. unfold tbl. destruct (Nat.lt_ge_cases (Z.to_nat m) (length t)) as [Hl|Hl].
  - rewrite Forall_forall in Ht. apply Ht, nth_In, Hl.
  - rewrite nth_overflow by exact Hl. lia.
Qed.

Lemma days_before_month_nonneg y m : 0 <= days_before_month y m.
Proof.
  unfold days_before_month.
  assert (H := tbl_range days_before_month_tbl m ltac:(repeat constructor; lia)).
  destruct (_ && _); lia.
Qed.

Lemma days_in_month_le y m : days_in_month y m <= 31.
Proof.
  unfold days_in_month. destruct (_ && _); [lia|].
  unfold tbl. destruct (Z.to_nat m) as [|[|[|[|[|[|[|[|[|[|[|[|[|k]]]]]]]]]]]]]; simpl;
    try lia. destruct k; simpl; lia.
Qed.

(** No date of year 10000 or later has an ordinal up to [MAXORDINAL]. *)
Lemma ymd_to_ord_year_bound y m d :
  1 <= d -> ymd_to_ord y m d <= MAXORDINAL -> y <= MAXYEAR.
Proof.
  intros Hd Ho. pose proof (days_before_month_nonneg y m).
  unfold ymd_to_ord, days_before_year, MAXORDINAL, MAXYEAR in *.
  destruct (Z.le_gt_cases y 9999) as [|Hy]; [assumption|].
  pose proof (Z.div_le_mono 9999 (y - 1) 4 ltac:(lia) ltac:(lia)).
  pose proof (Z.div_le_mono 9999 (y - 1) 400 ltac:(lia) ltac:(lia)).
  pose proof (Z.mul_div_le (y - 1) 100 ltac:(lia)).
  change (9999 / 4) with 2499 in *. change (9999 / 400) with 24 in *. lia.
Qed.

(** The decomposition of a positive number into 400-year cycles. *)
Lemma cycle_decomp x : 1 <= x ->
  x = ((x - 1) mod 400 + 1) + 400 * ((x - 1) / 400) /\ 0 <= (x - 1) / 400 /\
  1 <= (x - 1) mod 400 + 1 <= 400.
Proof.
  intros Hx. pose proof (Z.div_mod (x - 1) 400 ltac:(lia)).
  pose proof (Z.mod_pos_bound (x - 1) 400 ltac:(lia)).
  split; [lia|]. split; [apply Z.div_pos; lia | lia].
Qed.

Lemma ord_decomp o : 1 <= o ->
  o = ((o - 1) mod DI400Y + 1) + DI400Y * ((o - 1) / DI400Y) /\ 0 <= (o - 1) / DI400Y /\
  1 <= (o - 1) mod DI400Y + 1 <= DI400Y.
Proof.
  intros Ho. unfold DI400Y. pose proof (Z.div_mod (o - 1) 146097 ltac:(lia)).
  pose proof (Z.mod_pos_bound (o - 1) 146097 ltac:(lia)).
  split; [lia|]. split; [apply Z.div_pos; lia | lia].
Qed.


(** ** Consecutive days across month and year ends *)

Lemma month_step_tbl m b :
  1 <= m <= 11 ->
  tbl days_before_month_tbl (m + 1) + (if (2 <? m + 1) && b then 1 else 0)
  = tbl days_before_month_tbl m + (if (2 <? m) && b then 1 else 0)
    + (if (m =? 2) && b then 29 else tbl days_in_month_tbl m).
Proof.
  intros Hm.
  assert (m = 1 \/ m = 2 \/ m = 3 \/ m = 4 \/ m = 5 \/ m = 6 \/ m = 7 \/ m = 8 \/ m = 9 \/
          m = 10 \/ m = 11) as Hcase by lia.
  repeat destruct Hcase as [->|Hcase]; subst; destruct b; reflexivity.
Qed.

Lemma month_step y m :
  1 <= m <= 11 -> ymd_to_ord y (m + 1) 1 = ymd_to_ord y m (days_in_month y m) + 1.
Proof.
  intros Hm. unfold ymd_to_ord, days_before_month, days_in_month.
  rewrite (month_step_tbl m (is_leap y) Hm). lia.
Qed.

Lemma year_step_check :
  forall_range (fun y => ymd_to_ord (y + 1) 1 1 =? ymd_to_ord y 12 31 + 1) 0 400 = true.
Proof. vm_compute. reflexivity. Qed.

Lemma year_step y : ymd_to_ord (y + 1) 1 1 = ymd_to_ord y 12 31 + 1.
Proof.
  pose proof (Z.div_mod y 400 ltac:(lia)). pose proof (Z.mod_pos_bound y 400 ltac:(lia)).
  pose proof (forall_range_spec _ _ _ year_step_check (y mod 400) ltac:(lia)) as Hc.
  apply Z.eqb_eq in Hc.
  remember (y mod 400) as r. remember (y / 400) as q.
  assert (Hy : y = r + 400 * q) by lia. rewrite Hy.
  replace (r + 400 * q + 1) with ((r + 1) + 400 * q) by ring.
  rewrite !ymd_to_ord_shift. lia.
Qed.

(** Dates of years before [MINYEAR] have ordinals below 1. *)
Lemma ymd_to_ord_low_year y m d :
  y < MINYEAR -> 1 <= m <= 12 -> d <= days_in_month y m -> ymd_to_ord y m d < 1.
Proof.
  intros Hy Hm Hd. pose proof (days_in_month_le y m).
  assert (days_before_month y m <= 335).
  { unfold days_before_month.
    pose proof (tbl_range days_before_month_tbl m ltac:(repeat constructor; lia)).
    destruct (_ && _); lia. }
  unfold ymd_to_ord, days_before_year, MINYEAR in *.
  pose proof (Z.div_le_mono (y - 1) (-1) 4 ltac:(lia) ltac:(lia)).
  pose proof (Z.div_le_mono (y - 1) (-1) 400 ltac:(lia) ltac:(lia)).
  pose proof (Z.div_mod (y - 1) 100 ltac:(lia)). pose proof (Z.mod_pos_bound (y - 1) 100 ltac:(lia)).
  change (-1 / 4) with (-1) in *. change (-1 / 400) with (-1) in *. lia.
Qed.

(** ** Roundtrips *)

(** [ord_to_ymd] maps every ordinal of [datetime]'s range to a valid
    date whose ordinal is the one it started from. *)
Lemma ord_to_ymd_correct o :
  1 <= o <= MAXORDINAL ->
  let '(y, m, d) := ord_to_ymd o in valid_date y m d = true /\ ymd_to_ord y m d = o.
Proof.
  intros Ho.
  destruct (ord_decomp o ltac:(lia)) as [Heq [Hq Hr]].
  set (q := (o - 1) / DI400Y) in *. set (r := (o - 1) mod DI400Y + 1) in *.
  pose proof (forall_range_spec _ _ _ ord_cycle_check r ltac:(unfold DI400Y in Hr; lia)) as Hc.
  unfold ord_cycle_ok in Hc. rewrite Heq, ord_to_ymd_shift by lia.
  destruct (ord_to_ymd r) as [[y m] d]. unfold shift_year.
  apply andb_prop in Hc as [Hc Hy]. apply andb_prop in Hc as [Hv Ho'].
  apply Z.eqb_eq in Ho'.
  assert (Hord : ymd_to_ord (y + 400 * q) m d = o) by (rewrite ymd_to_ord_shift; lia).
  split; [|rewrite Hord; exact Heq].
  unfold valid_date in *. rewrite days_in_month_shift.
  repeat (apply andb_prop in Hv as [Hv ?]). rewrite !Bool.andb_true_iff, !Z.leb_le in *.
  pose proof (ymd_to_ord_year_bound (y + 400 * q) m d ltac:(lia) ltac:(lia)).
  unfold MINYEAR, MAXYEAR in *. lia.
Qed.

(** Every valid date has an ordinal in [datetime]'s range, from which
    [ord_to_ymd] gives the date back. *)
Lemma ymd_to_ord_correct y m d :
  valid_date y m d = true ->
  1 <= ymd_to_ord y m d <= MAXORDINAL /\ ord_to_ymd (ymd_to_ord y m d) = (y, m, d).
Proof.
  intros Hv. unfold valid_date in Hv.
  rewrite !Bool.andb_true_iff, !Z.leb_le in Hv. unfold MINYEAR, MAXYEAR in Hv.
  destruct Hv as [[[[[Hy1 Hy2] Hm1] Hm2] Hd1] Hd2].
  destruct (cycle_decomp y ltac:(lia)) as [Heq [Hq Hr]].
  set (q := (y - 1) / 400) in *. set (yr := (y - 1) mod 400 + 1) in *.
  pose proof (days_in_month_le y m).
  rewrite Heq, days_in_month_shift in Hd2.
  pose proof (forall_range_spec _ _ _ date_cycle_check yr ltac:(lia)) as H1.
  pose proof (forall_range_spec _ _ _ H1 m ltac:(lia)) as H2.
  pose proof (forall_range_spec _ _ _ H2 d ltac:(rewrite Heq, days_in_month_shift in *; lia)) as H3.
  unfold date_cycle_ok in H3. apply Z.leb_le in Hd2. rewrite Hd2 in H3. simpl in H3.
  destruct (ord_to_ymd (ymd_to_ord yr m d)) as [[y' m'] d'] eqn:Hymd.
  rewrite !Bool.andb_true_iff, !Z.eqb_eq, !Z.leb_le in H3.
  destruct H3 as [[[[-> ->] ->] Hlo] Hhi].
  rewrite Heq, ymd_to_ord_shift, ord_to_ymd_shift, Hymd by lia. unfold shift_year.
  split; [|reflexivity].
  assert (q <= 24) by lia.
  assert (q = 24 -> yr <= 399) by (intros Hq24; rewrite Hq24 in Heq; lia).
  unfold DI400Y, MAXORDINAL in *.
  destruct (Z.leb_spec yr 399); destruct (Z.eq_dec q 24); nia.
Qed.

(** C16. [ord_to_ymd] maps every ordinal of [datetime]'s range to a valid
    date whose ordinal is the one it started from. *)
Theorem ord_to_ymd_roundtrip o :
  1 <= o <= MAXORDINAL ->
  let '(y, m, d) := ord_to_ymd o in valid_date y m d = true /\ ymd_to_ord y m d = o.
Proof. exact (ord_to_ymd_correct o). Qed.

(** C17. Every valid date has an ordinal in [datetime]'s range, from which
    [ord_to_ymd] gives the date back. *)
Theorem ymd_to_ord_roundtrip y m d :
  valid_date y m d = true ->
  1 <= ymd_to_ord y m d <= MAXORDINAL /\ ord_to_ymd (ymd_to_ord y m d) = (y, m, d).
Proof. exact (ymd_to_ord_correct y m d). Qed.

Lemma ord_to_ymd_roundtrip_witness :
  1 <= 738945 <= MAXORDINAL /\ valid_date 2024 2 29 = true /\ ymd_to_ord 2024 2 29 = 738945.
Proof.
  assert (H : 1 <= 738945 <= MAXORDINAL) by (unfold MAXORDINAL; lia).
  exact (conj H (ord_to_ymd_roundtrip 738945 H)).
Defined.

Lemma ymd_to_ord_roundtrip_witness :
  valid_date 9999 12 31 = true /\
  1 <= ymd_to_ord 9999 12 31 <= MAXORDINAL /\ ord_to_ymd (ymd_to_ord 9999 12 31) = (9999, 12, 31).
Proof. exact (conj eq_refl (ymd_to_ord_roundtrip 9999 12 31 eq_refl)). Defined.

End Calendar.
