(* ===== verification/DateTime.v ===== *)
(** Naive [datetime] and [timedelta] objects of CPython's [datetime]
    module ([Modules/_datetimemodule.c], 3.11), as far as
    [datetime_modify.py] uses them: the constructors' range checks, the
    normalisation of [timedelta] fields, [datetime + timedelta] with its
    field-wise carry ([normalize_datetime] and [normalize_y_m_d]) and its
    [OverflowError], [datetime - datetime] and the conversion of a
    [timedelta] to and from microseconds.

    The C code computes on [int]s.  The fields are kept as [Z]: the bound
    theorems below show that on valid objects no [int] computation of
    [add_datetime_timedelta] overflows, and the only conversion that can
    fail, [_PyLong_AsInt] in [microseconds_to_delta_ex], is written out.

    The reference semantics is the count of microseconds since
    0001-01-01T00:00:00 ([to_us], [from_us]); the main theorem shows that
    the carry-based addition is the addition of microsecond counts, with
    [OverflowError] exactly when the sum leaves the range of [datetime]. *)

From Stdlib Require Import ZArith Bool List String Lia.
From S2P Require Import Prelude PyStr Calendar.
Import ListNotations.
Local Open Scope Z_scope.

Module DateTime.
Import Calendar PyStr.

(** ** Objects *)

(** A naive [datetime] ([tzinfo] is [None], [fold] is 0). *)
Record datetime : Type := mk_datetime {
  year : Z; month : Z; day : Z;
  hour : Z; minute : Z; second : Z; microsecond : Z }.

(** A [timedelta]: days, seconds and microseconds. *)
Record timedelta : Type := mk_timedelta {
  td_days : Z; td_seconds : Z; td_microseconds : Z }.

Definition MAX_DELTA_DAYS : Z := 999999999.
Definition INT_MIN : Z := -2147483648.
Definition INT_MAX : Z := 2147483647.
Definition US_PER_SECOND : Z := 1000000.
Definition SECONDS_PER_DAY : Z := 86400.

(** ** Normalisation ([normalize_pair], [normalize_y_m_d], ...) *)

(** [normalize_pair(&hi, &lo, factor)]: carries the multiples of
    [factor] in [lo] into [hi]; C's [divmod] rounds towards minus
    infinity, as [Z.div] and [Z.modulo] do. *)
Definition normalize_pair (hi lo factor : Z) : Z * Z :=
  if (lo <? 0) || (factor <=? lo) then (hi + lo / factor, lo mod factor) else (hi, lo).

Definition date_out_of_range {A} : result A := fail OverflowError "date value out of range".

(** The final year check of [normalize_y_m_d] (the [MINYEAR <= *y]
    test and its [goto error]). *)
Definition year_in_range (ymd : Z * Z * Z) : result (Z * Z * Z) :=
  let '(y, _, _) := ymd in
  if (MINYEAR <=? y) && (y <=? MAXYEAR) then Ok ymd else date_out_of_range.

(** [normalize_y_m_d(&y, &m, &d)], for a month in [1..12]. *)
Definition normalize_y_m_d (y m d : Z) : result (Z * Z * Z) :=
  let dim := days_in_month y m in
  if (d <? 1) || (dim <? d) then
    if d =? 0 then
      let m := m - 1 in
      if 0 <? m then year_in_range (y, m, days_in_month y m)
      else year_in_range (y - 1, 12, 31)
    else if d =? dim + 1 then
      let m := m + 1 in
      if 12 <? m then year_in_range (y + 1, 1, 1) else year_in_range (y, m, 1)
    else
      let ordinal := ymd_to_ord y m 1 + d - 1 in
      if (ordinal <? 1) || (MAXORDINAL <? ordinal) then date_out_of_range
      else Ok (ord_to_ymd ordinal)
  else year_in_range (y, m, d).

(** [normalize_datetime]: carries microseconds into seconds, seconds
    into minutes, minutes into hours, hours into days, then the days into
    months and years. *)
Definition normalize_datetime (y m d hh mm ss us : Z) : result datetime :=
  let '(ss, us) := normalize_pair ss us 1000000 in
  let '(mm, ss) := normalize_pair mm ss 60 in
  let '(hh, mm) := normalize_pair hh mm 60 in
  let '(d, hh) := normalize_pair d hh 24 in
  '(y, m, d) <-? normalize_y_m_d y m d ;;
  Ok (mk_datetime y m d hh mm ss us).

(** [normalize_d_s_us]. *)
Definition normalize_d_s_us (d s us : Z) : Z * Z * Z :=
  let '(s, us) := if (us <? 0) || (1000000 <=? us) then normalize_pair s us 1000000 else (s, us) in
  let '(d, s) := if (s <? 0) || (24 * 3600 <=? s) then normalize_pair d s (24 * 3600) else (d, s) in
  (d, s, us).

(** ** Constructors and their checks *)

(** [check_date_args]. *)
Definition check_date_args (y m d : Z) : result unit :=
  if (y <? MINYEAR) || (MAXYEAR <? y) then fail ValueError ("year " ++ str_of_Z y ++ " is out of range")
  else if (m <? 1) || (12 <? m) then fail ValueError "month must be in 1..12"
  else if (d <? 1) || (days_in_month y m <? d) then fail ValueError "day is out of range for month"
  else Ok tt.

(** [check_time_args] ([fold] is 0). *)
Definition check_time_args (h m s us : Z) : result unit :=
  if (h <? 0) || (23 <? h) then fail ValueError "hour must be in 0..23"
  else if (m <? 0) || (59 <? m) then fail ValueError "minute must be in 0..59"
  else if (s <? 0) || (59 <? s) then fail ValueError "second must be in 0..59"
  else if (us <? 0) || (999999 <? us) then fail ValueError "microsecond must be in 0..999999"
  else Ok tt.

(** [new_datetime_ex]: the checks, then the object. *)
Definition new_datetime (y m d hh mm ss us : Z) : result datetime :=
  _ <-? check_date_args y m d ;;
  _ <-? check_time_args hh mm ss us ;;
  Ok (mk_datetime y m d hh mm ss us).

(** [check_delta_day_range]. *)
Definition check_delta_day_range (days : Z) : result unit :=
  if (- MAX_DELTA_DAYS <=? days) && (days <=? MAX_DELTA_DAYS) then Ok tt
  else fail OverflowError ("days=" ++ str_of_Z days ++ "; must have magnitude <= 999999999").

(** [new_delta_ex(days, seconds, microseconds, normalize)]. *)
Definition new_delta (d s us : Z) (normalize : bool) : result timedelta :=
  let '(d, s, us) := if normalize then normalize_d_s_us d s us else (d, s, us) in
  _ <-? check_delta_day_range d ;;
  Ok (mk_timedelta d s us).

(** [delta_to_microseconds]: Python-int arithmetic. *)
Definition delta_to_microseconds (td : timedelta) : Z :=
  (td_days td * SECONDS_PER_DAY + td_seconds td) * US_PER_SECOND + td_microseconds td.

(** [_PyLong_AsInt]. *)
Definition as_int (n : Z) : result Z :=
  if (INT_MIN <=? n) && (n <=? INT_MAX) then Ok n
  else fail OverflowError "Python int too large to convert to C int".

(** [microseconds_to_delta_ex]: two [divmod]s, then [new_delta_ex]
    without normalisation. *)
Definition microseconds_to_delta (pyus : Z) : result timedelta :=
  let num := pyus / US_PER_SECOND in
  let us := pyus mod US_PER_SECOND in
  let s := num mod SECONDS_PER_DAY in
  d <-? as_int (num / SECONDS_PER_DAY) ;;
  new_delta d s us false.

(** ** Arithmetic *)

(** [add_datetime_timedelta(date, delta, factor)]. *)
Definition add_datetime_timedelta (dt : datetime) (td : timedelta) (factor : Z) : result datetime :=
  r <-? normalize_datetime (year dt) (month dt) (day dt + td_days td * factor)
                           (hour dt) (minute dt) (second dt + td_seconds td * factor)
                           (microsecond dt + td_microseconds td * factor) ;;
  new_datetime (year r) (month r) (day r) (hour r) (minute r) (second r) (microsecond r).

(** [datetime_subtract] on two naive datetimes. *)
Definition datetime_subtract (left right : datetime) : result timedelta :=
  let delta_d := ymd_to_ord (year left) (month left) (day left)
                 - ymd_to_ord (year right) (month right) (day right) in
  let delta_s := (hour left - hour right) * 3600 + (minute left - minute right) * 60
                 + (second left - second right) in
  let delta_us := microsecond left - microsecond right in
  new_delta delta_d delta_s delta_us true.

(** ** The reference: microseconds since 0001-01-01T00:00:00 *)

Definition US_PER_DAY : Z := SECONDS_PER_DAY * US_PER_SECOND.

Definition valid_datetime (dt : datetime) : bool :=
  valid_date (year dt) (month dt) (day dt)
  && (0 <=? hour dt) && (hour dt <? 24) && (0 <=? minute dt) && (minute dt <? 60)
  && (0 <=? second dt) && (second dt <? 60)
  && (0 <=? microsecond dt) && (microsecond dt <? US_PER_SECOND).

Definition valid_timedelta (td : timedelta) : bool :=
  (- MAX_DELTA_DAYS <=? td_days td) && (td_days td <=? MAX_DELTA_DAYS)
  && (0 <=? td_seconds td) && (td_seconds td <? SECONDS_PER_DAY)
  && (0 <=? td_microseconds td) && (td_microseconds td <? US_PER_SECOND).

Definition time_us (hh mm ss us : Z) : Z := ((hh * 60 + mm) * 60 + ss) * US_PER_SECOND + us.

Definition to_us (dt : datetime) : Z :=
  (ymd_to_ord (year dt) (month dt) (day dt) - 1) * US_PER_DAY
  + time_us (hour dt) (minute dt) (second dt) (microsecond dt).

Definition from_us (n : Z) : datetime :=
  let '(y, m, d) := ord_to_ymd (n / US_PER_DAY + 1) in
  let t := n mod US_PER_DAY in
  mk_datetime y m d (t / 3600000000) (t mod 3600000000 / 60000000)
              (t mod 60000000 / US_PER_SECOND) (t mod US_PER_SECOND).

(** The microsecond counts a [datetime] can have. *)
Definition in_range_us (n : Z) : bool := (0 <=? n) && (n <? MAXORDINAL * US_PER_DAY).

(** ** Normalisation lemmas *)

Ltac unfold_units := unfold US_PER_DAY, SECONDS_PER_DAY, US_PER_SECOND in *.

Lemma normalize_pair_spec hi lo f hi' lo' :
  0 < f -> normalize_pair hi lo f = (hi', lo') -> hi' * f + lo' = hi * f + lo /\ 0 <= lo' < f.
Proof.
  intros Hf. unfold normalize_pair.
  destruct ((lo <? 0) || (f <=? lo)) eqn:E; intros H; injection H as <- <-.
  - pose proof (Z.div_mod lo f ltac:(lia)). pose proof (Z.mod_pos_bound lo f Hf). lia.
  - apply orb_false_iff in E as [E1 E2]. rewrite Z.ltb_ge in E1. rewrite Z.leb_gt in E2. lia.
Qed.

Lemma days_in_month_pos y m : 1 <= m <= 12 -> 28 <= days_in_month y m.
Proof.
  intros Hm. unfold days_in_month.
  assert (m = 1 \/ m = 2 \/ m = 3 \/ m = 4 \/ m = 5 \/ m = 6 \/ m = 7 \/ m = 8 \/ m = 9 \/
          m = 10 \/ m = 11 \/ m = 12) as Hcase by lia.
  repeat destruct Hcase as [->|Hcase]; subst; destruct (is_leap y); apply Z.leb_le; reflexivity.
Qed.

(** What [normalize_y_m_d] answers for a real date with ordinal [o]: the
    date when [o] is in range, [OverflowError] otherwise. *)
Definition ord_result (o : Z) : result (Z * Z * Z) :=
  if (1 <=? o) && (o <=? MAXORDINAL) then Ok (ord_to_ymd o) else date_out_of_range.

Lemma year_in_range_ord y m d :
  1 <= m <= 12 -> 1 <= d <= days_in_month y m ->
  year_in_range (y, m, d) = ord_result (ymd_to_ord y m d).
Proof.
  intros Hm Hd. unfold year_in_range, ord_result.
  destruct (Z.le_gt_cases MINYEAR y) as [Hlo|Hlo]; [destruct (Z.le_gt_cases y MAXYEAR) as [Hhi|Hhi]|].
  - assert (Hv : valid_date y m d = true).
    { unfold valid_date. rewrite !andb_true_iff, !Z.leb_le. lia. }
    destruct (ymd_to_ord_correct y m d Hv) as [Hr Hrt]. rewrite Hrt.
    replace ((MINYEAR <=? y) && (y <=? MAXYEAR)) with true by (symmetry; rewrite andb_true_iff, !Z.leb_le; lia).
    replace ((1 <=? ymd_to_ord y m d) && (ymd_to_ord y m d <=? MAXORDINAL)) with true
      by (symmetry; rewrite andb_true_iff, !Z.leb_le; lia).
    reflexivity.
  - assert (MAXORDINAL < ymd_to_ord y m d).
    { destruct (Z.le_gt_cases (ymd_to_ord y m d) MAXORDINAL) as [H|H]; [|exact H].
      pose proof (ymd_to_ord_year_bound y m d ltac:(lia) H). lia. }
    replace ((MINYEAR <=? y) && (y <=? MAXYEAR)) with false by (symmetry; rewrite andb_false_iff, !Z.leb_gt; lia).
    replace ((1 <=? ymd_to_ord y m d) && (ymd_to_ord y m d <=? MAXORDINAL)) with false
      by (symmetry; rewrite andb_false_iff, !Z.leb_gt; lia).
    reflexivity.
  - pose proof (ymd_to_ord_low_year y m d Hlo Hm ltac:(lia)).
    replace ((MINYEAR <=? y) && (y <=? MAXYEAR)) with false by (symmetry; rewrite andb_false_iff, !Z.leb_gt; lia).
    replace ((1 <=? ymd_to_ord y m d) && (ymd_to_ord y m d <=? MAXORDINAL)) with false
      by (symmetry; rewrite andb_false_iff, !Z.leb_gt; lia).
    reflexivity.
Qed.

Lemma ymd_to_ord_day y m d : ymd_to_ord y m d = ymd_to_ord y m 1 + d - 1.
Proof. unfold ymd_to_ord. lia. Qed.

Lemma days_in_month_12 y : days_in_month y 12 = 31.
Proof. reflexivity. Qed.

(** [normalize_y_m_d] on a month in [1..12] of a valid year: every
    branch (one day before the month, one day after it, further away)
    computes the date of ordinal [ymd_to_ord y m 1 + d - 1], with
    [OverflowError] when that ordinal is out of range. *)
Lemma normalize_y_m_d_spec y m d :
  MINYEAR <= y <= MAXYEAR -> 1 <= m <= 12 ->
  normalize_y_m_d y m d = ord_result (ymd_to_ord y m 1 + d - 1).
Proof.
  intros Hy Hm. pose proof (days_in_month_pos y m Hm) as Hdim.
  unfold normalize_y_m_d.
  destruct ((d <? 1) || (days_in_month y m <? d)) eqn:Hout.
  - destruct (Z.eqb_spec d 0) as [->|Hd0]; [|destruct (Z.eqb_spec d (days_in_month y m + 1)) as [Hd|Hd]].
    + destruct (Z.ltb_spec 0 (m - 1)).
      * pose proof (days_in_month_pos y (m - 1) ltac:(lia)).
        rewrite year_in_range_ord by lia. f_equal.
        pose proof (month_step y (m - 1) ltac:(lia)) as Hs. replace (m - 1 + 1) with m in Hs by lia. lia.
      * replace m with 1 by lia. rewrite year_in_range_ord by (rewrite ?days_in_month_12; lia).
        f_equal. pose proof (year_step (y - 1)) as Hs. replace (y - 1 + 1) with y in Hs by lia. lia.
    + destruct (Z.ltb_spec 12 (m + 1)).
      * replace m with 12 in * by lia. rewrite year_in_range_ord by (pose proof (days_in_month_pos (y + 1) 1 ltac:(lia)); lia).
        f_equal. pose proof (year_step y). pose proof (ymd_to_ord_day y 12 31). rewrite days_in_month_12 in Hd. subst d. lia.
      * rewrite year_in_range_ord by (try pose proof (days_in_month_pos y (m + 1) ltac:(lia)); lia).
        f_equal. pose proof (month_step y m ltac:(lia)). pose proof (ymd_to_ord_day y m (days_in_month y m)). lia.
    + unfold ord_result.
      destruct ((ymd_to_ord y m 1 + d - 1 <? 1) || (MAXORDINAL <? ymd_to_ord y m 1 + d - 1)) eqn:E.
      * apply orb_true_iff in E. rewrite Z.ltb_lt in E.
        replace ((1 <=? _) && _) with false; [reflexivity|].
        symmetry. apply andb_false_iff. rewrite !Z.leb_gt. destruct E as [E|E]; [lia|].
        apply Z.ltb_lt in E. lia.
      * apply orb_false_iff in E as [E1 E2]. rewrite Z.ltb_ge in E1, E2.
        replace ((1 <=? _) && _) with true; [reflexivity|].
        symmetry. apply andb_true_iff. rewrite !Z.leb_le. lia.
  - apply orb_false_iff in Hout as [E1 E2]. rewrite Z.ltb_ge in E1, E2.
    rewrite year_in_range_ord by lia. f_equal. apply ymd_to_ord_day.
Qed.

(** ** Constructors on valid fields *)

Lemma check_date_args_ok y m d : valid_date y m d = true -> check_date_args y m d = Ok tt.
Proof.
  unfold valid_date, check_date_args. rewrite !andb_true_iff, !Z.leb_le.
  intros H. repeat rewrite (proj2 (Z.ltb_ge _ _)) by lia. reflexivity.
Qed.

Lemma check_time_args_ok h m s us :
  0 <= h < 24 -> 0 <= m < 60 -> 0 <= s < 60 -> 0 <= us < US_PER_SECOND ->
  check_time_args h m s us = Ok tt.
Proof.
  unfold check_time_args, US_PER_SECOND. intros. repeat rewrite (proj2 (Z.ltb_ge _ _)) by lia.
  reflexivity.
Qed.

(** ** Microsecond counts *)

Lemma div_mod_unique a b q r : 0 <= r < b -> a = q * b + r -> a / b = q /\ a mod b = r.
Proof.
  intros Hr ->. split.
  - symmetry. apply (Z.div_unique_pos _ _ _ r); lia.
  - symmetry. apply (Z.mod_unique_pos _ _ q); lia.
Qed.

Lemma mod_mod_mul a b c p : 0 < b -> 0 < c -> p = b * c -> a mod p mod b = a mod b.
Proof.
  intros Hb Hc ->. rewrite (Z.div_mod a (b * c)) at 2 by lia.
  replace (b * c * (a / (b * c)) + a mod (b * c)) with (a mod (b * c) + (c * (a / (b * c))) * b) by ring.
  symmetry. apply Z.mod_add. lia.
Qed.

Lemma time_us_range h m s u :
  0 <= h < 24 -> 0 <= m < 60 -> 0 <= s < 60 -> 0 <= u < US_PER_SECOND ->
  0 <= time_us h m s u < US_PER_DAY.
Proof. unfold time_us, US_PER_DAY, US_PER_SECOND, SECONDS_PER_DAY. lia. Qed.

(** [from_us] splits a count into its day and its time of day. *)
Lemma from_us_decomp o h m s u :
  0 <= h < 24 -> 0 <= m < 60 -> 0 <= s < 60 -> 0 <= u < US_PER_SECOND ->
  from_us ((o - 1) * US_PER_DAY + time_us h m s u) =
  let '(y, mo, d) := ord_to_ymd o in mk_datetime y mo d h m s u.
Proof.
  intros Hh Hm Hs Hu. pose proof (time_us_range h m s u Hh Hm Hs Hu) as Ht.
  unfold from_us.
  destruct (div_mod_unique ((o - 1) * US_PER_DAY + time_us h m s u) US_PER_DAY (o - 1)
              (time_us h m s u) Ht eq_refl) as [-> ->].
  replace (o - 1 + 1) with o by ring.
  unfold time_us, US_PER_SECOND in *.
  destruct (div_mod_unique (((h * 60 + m) * 60 + s) * 1000000 + u) 3600000000 h
              ((m * 60 + s) * 1000000 + u) ltac:(lia) ltac:(lia)) as [-> ->].
  destruct (div_mod_unique ((m * 60 + s) * 1000000 + u) 60000000 m (s * 1000000 + u)
              ltac:(lia) ltac:(lia)) as [-> _].
  destruct (div_mod_unique (((h * 60 + m) * 60 + s) * 1000000 + u) 60000000 (h * 60 + m)
              (s * 1000000 + u) ltac:(lia) ltac:(lia)) as [_ ->].
  destruct (div_mod_unique (s * 1000000 + u) 1000000 s u ltac:(lia) ltac:(lia)) as [-> _].
  destruct (div_mod_unique (((h * 60 + m) * 60 + s) * 1000000 + u) 1000000 ((h * 60 + m) * 60 + s)
              u ltac:(lia) ltac:(lia)) as [_ ->].
  destruct (ord_to_ymd o) as [[y mo] d]. reflexivity.
Qed.

Lemma valid_datetime_iff dt :
  valid_datetime dt = true <->
  valid_date (year dt) (month dt) (day dt) = true /\ 0 <= hour dt < 24 /\ 0 <= minute dt < 60 /\
  0 <= second dt < 60 /\ 0 <= microsecond dt < US_PER_SECOND.
Proof. unfold valid_datetime. rewrite !andb_true_iff, !Z.leb_le, !Z.ltb_lt. tauto. Qed.

Lemma valid_date_iff y m d :
  valid_date y m d = true <->
  MINYEAR <= y <= MAXYEAR /\ 1 <= m <= 12 /\ 1 <= d <= days_in_month y m.
Proof. unfold valid_date. rewrite !andb_true_iff, !Z.leb_le. tauto. Qed.

(** The carries of [normalize_datetime] keep the total count of
    microseconds and leave every time field in its range. *)
Lemma normalize_time_spec d hh mm ss us d' hh' mm' ss' us' :
  (let '(ss, us) := normalize_pair ss us 1000000 in
   let '(mm, ss) := normalize_pair mm ss 60 in
   let '(hh, mm) := normalize_pair hh mm 60 in
   let '(d, hh) := normalize_pair d hh 24 in (d, hh, mm, ss, us)) = (d', hh', mm', ss', us') ->
  d' * US_PER_DAY + time_us hh' mm' ss' us' = d * US_PER_DAY + time_us hh mm ss us /\
  0 <= hh' < 24 /\ 0 <= mm' < 60 /\ 0 <= ss' < 60 /\ 0 <= us' < US_PER_SECOND.
Proof.
  destruct (normalize_pair ss us 1000000) as [ss1 us1] eqn:P1.
  destruct (normalize_pair mm ss1 60) as [mm1 ss2] eqn:P2.
  destruct (normalize_pair hh mm1 60) as [hh1 mm2] eqn:P3.
  destruct (normalize_pair d hh1 24) as [d1 hh2] eqn:P4.
  intros H. injection H as <- <- <- <- <-.
  apply normalize_pair_spec in P1, P2, P3, P4; try lia.
  unfold time_us, US_PER_DAY, US_PER_SECOND, SECONDS_PER_DAY. lia.
Qed.

(** [datetime + timedelta] is the addition of microsecond counts:
    the field-wise carries of [add_datetime_timedelta] give the datetime
    whose count is the sum, and [OverflowError] ("date value out of
    range") exactly when the sum is outside 0001-01-01 .. 9999-12-31. *)
Lemma add_datetime_timedelta_us dt td factor :
  valid_datetime dt = true ->
  add_datetime_timedelta dt td factor =
  (let n := to_us dt + factor * delta_to_microseconds td in
   if in_range_us n then Ok (from_us n) else date_out_of_range).
Proof.
  intros Hv. apply valid_datetime_iff in Hv as [Hd [Hh [Hm [Hs Hu]]]].
  apply valid_date_iff in Hd as [Hy [Hmo Hday]].
  unfold add_datetime_timedelta, normalize_datetime.
  pose proof (normalize_time_spec (day dt + td_days td * factor) (hour dt) (minute dt)
                (second dt + td_seconds td * factor) (microsecond dt + td_microseconds td * factor)) as HT.
  destruct (normalize_pair (second dt + _) (microsecond dt + _) 1000000) as [ss0 us1].
  destruct (normalize_pair (minute dt) ss0 60) as [mm0 ss1].
  destruct (normalize_pair (hour dt) mm0 60) as [hh0 mm1].
  destruct (normalize_pair (day dt + _) hh0 24) as [d1 hh1].
  destruct (HT _ _ _ _ _ eq_refl) as [Htot [Hh1 [Hm1 [Hs1 Hu1]]]]. clear HT.
  cbn [rbind].
  rewrite normalize_y_m_d_spec by lia. unfold ord_result.
  set (o := ymd_to_ord (year dt) (month dt) 1 + d1 - 1).
  assert (Hn : to_us dt + factor * delta_to_microseconds td = (o - 1) * US_PER_DAY + time_us hh1 mm1 ss1 us1).
  { unfold o, to_us, delta_to_microseconds in *. rewrite (ymd_to_ord_day (year dt)).
    unfold time_us, US_PER_DAY, US_PER_SECOND, SECONDS_PER_DAY in *. lia. }
  rewrite Hn. pose proof (time_us_range hh1 mm1 ss1 us1 Hh1 Hm1 Hs1 Hu1).
  destruct ((1 <=? o) && (o <=? MAXORDINAL)) eqn:Ho.
  - replace (in_range_us _) with true
      by (symmetry; unfold in_range_us; rewrite andb_true_iff in *; rewrite Z.leb_le, Z.ltb_lt, !Z.leb_le in *; nia).
    rewrite from_us_decomp by assumption.
    apply andb_true_iff in Ho as [Ho1 Ho2]. apply Z.leb_le in Ho1, Ho2.
    pose proof (ord_to_ymd_correct o (conj Ho1 Ho2)) as Hr.
    destruct (ord_to_ymd o) as [[y m] d]. destruct Hr as [Hvd _]. cbn [rbind year month day hour minute second microsecond].
    unfold new_datetime. rewrite check_date_args_ok by exact Hvd.
    cbn [rbind]. rewrite check_time_args_ok by assumption. reflexivity.
  - replace (in_range_us _) with false; [reflexivity|].
    symmetry. unfold in_range_us. apply andb_false_iff in Ho. rewrite andb_false_iff, Z.leb_gt, Z.ltb_ge.
    rewrite !Z.leb_gt in Ho. unfold_units. nia.
Qed.

(** ** The reference is a bijection between valid datetimes and counts *)

(** Every count of microseconds in range is the count of a valid
    datetime, the one [from_us] builds. *)
Lemma from_us_correct n :
  in_range_us n = true -> valid_datetime (from_us n) = true /\ to_us (from_us n) = n.
Proof.
  unfold in_range_us. rewrite andb_true_iff, Z.leb_le, Z.ltb_lt. intros Hn.
  pose proof (Z.div_mod n US_PER_DAY ltac:(unfold_units; lia)) as Hdm.
  pose proof (Z.mod_pos_bound n US_PER_DAY ltac:(unfold_units; lia)) as Hmod.
  assert (Ho : 1 <= n / US_PER_DAY + 1 <= MAXORDINAL).
  { split; [assert (0 <= n / US_PER_DAY) by (apply Z.div_pos; unfold_units; lia); lia|].
    assert (n / US_PER_DAY < MAXORDINAL) by (apply Z.div_lt_upper_bound; unfold_units; lia).
    lia. }
  pose proof (ord_to_ymd_correct _ Ho) as Hr.
  unfold from_us. destruct (ord_to_ymd (n / US_PER_DAY + 1)) as [[y m] d]. destruct Hr as [Hvd Hord].
  set (t := n mod US_PER_DAY) in *. unfold_units.
  split.
  - apply valid_datetime_iff. cbn [year month day hour minute second microsecond].
    split; [exact Hvd|].
    pose proof (Z.mod_pos_bound t 3600000000 ltac:(lia)).
    pose proof (Z.mod_pos_bound t 60000000 ltac:(lia)).
    pose proof (Z.mod_pos_bound t 1000000 ltac:(lia)).
    unfold_units. repeat split; try lia; try (apply Z.div_pos; lia);
      apply Z.div_lt_upper_bound; lia.
  - unfold to_us, time_us. cbn [year month day hour minute second microsecond]. rewrite Hord.
    pose proof (Z.div_mod t 3600000000 ltac:(lia)).
    pose proof (Z.div_mod (t mod 3600000000) 60000000 ltac:(lia)).
    pose proof (Z.div_mod (t mod 60000000) 1000000 ltac:(lia)).
    pose proof (mod_mod_mul t 60000000 60 3600000000 ltac:(lia) ltac:(lia) eq_refl).
    pose proof (mod_mod_mul t 1000000 60 60000000 ltac:(lia) ltac:(lia) eq_refl).
    unfold_units. lia.
Qed.

(** Every valid datetime is the datetime of its count, which is in
    range. *)
Lemma to_us_correct dt :
  valid_datetime dt = true -> in_range_us (to_us dt) = true /\ from_us (to_us dt) = dt.
Proof.
  intros Hv. pose proof Hv as Hv'. apply valid_datetime_iff in Hv' as [Hd [Hh [Hm [Hs Hu]]]].
  pose proof (ymd_to_ord_correct _ _ _ Hd) as [Hr Hrt].
  pose proof (time_us_range _ _ _ _ Hh Hm Hs Hu).
  split.
  - unfold in_range_us, to_us. rewrite andb_true_iff, Z.leb_le, Z.ltb_lt.
    unfold_units. nia.
  - unfold to_us. rewrite from_us_decomp, Hrt by assumption. destruct dt; reflexivity.
Qed.

(** ** Constructing timedeltas *)

Lemma new_datetime_valid y m d hh mm ss us dt :
  new_datetime y m d hh mm ss us = Ok dt -> valid_datetime dt = true.
Proof.
  unfold new_datetime, check_date_args, check_time_args.
  destruct ((y <? MINYEAR) || (MAXYEAR <? y)) eqn:E1; [discriminate|].
  destruct ((m <? 1) || (12 <? m)) eqn:E2; [discriminate|].
  destruct ((d <? 1) || (days_in_month y m <? d)) eqn:E3; [discriminate|].
  destruct ((hh <? 0) || (23 <? hh)) eqn:E4; [discriminate|].
  destruct ((mm <? 0) || (59 <? mm)) eqn:E5; [discriminate|].
  destruct ((ss <? 0) || (59 <? ss)) eqn:E6; [discriminate|].
  destruct ((us <? 0) || (999999 <? us)) eqn:E7; [discriminate|].
  cbn [rbind]. intros H. injection H as <-.
  repeat match goal with H : (_ || _) = false |- _ => apply orb_false_iff in H as [? ?] end.
  rewrite ?Z.ltb_ge in *. apply valid_datetime_iff. cbn. rewrite valid_date_iff. unfold_units. lia.
Qed.

Lemma check_delta_day_range_ok d :
  - MAX_DELTA_DAYS <= d <= MAX_DELTA_DAYS -> check_delta_day_range d = Ok tt.
Proof.
  intros H. unfold check_delta_day_range.
  replace ((- MAX_DELTA_DAYS <=? d) && (d <=? MAX_DELTA_DAYS)) with true; [reflexivity|].
  symmetry. rewrite andb_true_iff, !Z.leb_le. lia.
Qed.

(** [microseconds_to_delta_ex]: a count of microseconds gives the
    normalised [timedelta] with that count when its number of days is
    within [MAX_DELTA_DAYS], and [OverflowError] otherwise (with one of two
    messages, depending on whether the days fit a C [int]). *)
Lemma microseconds_to_delta_correct n :
  match microseconds_to_delta n with
  | Ok td => valid_timedelta td = true /\ delta_to_microseconds td = n
  | Err e => exc_kind e = OverflowError
  end /\
  is_ok (microseconds_to_delta n)
  = (- MAX_DELTA_DAYS <=? n / US_PER_DAY) && (n / US_PER_DAY <=? MAX_DELTA_DAYS).
Proof.
  unfold microseconds_to_delta.
  assert (Hd : n / US_PER_SECOND / SECONDS_PER_DAY = n / US_PER_DAY)
    by (unfold US_PER_DAY; rewrite Z.div_div by (unfold_units; lia); f_equal; ring).
  rewrite Hd. unfold as_int.
  destruct ((INT_MIN <=? n / US_PER_DAY) && (n / US_PER_DAY <=? INT_MAX)) eqn:Hint; cbn [rbind].
  - unfold new_delta, check_delta_day_range.
    destruct ((- MAX_DELTA_DAYS <=? n / US_PER_DAY) && (n / US_PER_DAY <=? MAX_DELTA_DAYS)) eqn:Hr;
      cbn [rbind is_ok]; [|split; reflexivity].
    split; [|reflexivity]. split.
    + unfold valid_timedelta. cbn [td_days td_seconds td_microseconds]. rewrite Hr. cbn [andb].
      pose proof (Z.mod_pos_bound (n / US_PER_SECOND) SECONDS_PER_DAY ltac:(unfold_units; lia)).
      pose proof (Z.mod_pos_bound n US_PER_SECOND ltac:(unfold_units; lia)).
      rewrite !andb_true_iff, !Z.leb_le, !Z.ltb_lt. lia.
    + unfold delta_to_microseconds. cbn [td_days td_seconds td_microseconds].
      pose proof (Z.div_mod n US_PER_SECOND ltac:(unfold_units; lia)).
      pose proof (Z.div_mod (n / US_PER_SECOND) SECONDS_PER_DAY ltac:(unfold_units; lia)).
      rewrite <- Hd. lia.
  - split; [reflexivity|]. cbn [is_ok]. symmetry.
    apply andb_false_iff in Hint. apply andb_false_iff. rewrite !Z.leb_gt in *.
    unfold INT_MIN, INT_MAX, MAX_DELTA_DAYS in *. lia.
Qed.

(** [normalize_d_s_us] keeps the count of microseconds and normalises
    seconds and microseconds. *)
Lemma normalize_d_s_us_spec d s us d' s' us' :
  normalize_d_s_us d s us = (d', s', us') ->
  (d' * SECONDS_PER_DAY + s') * US_PER_SECOND + us' = (d * SECONDS_PER_DAY + s) * US_PER_SECOND + us
  /\ 0 <= s' < SECONDS_PER_DAY /\ 0 <= us' < US_PER_SECOND.
Proof.
  unfold normalize_d_s_us.
  destruct (if (us <? 0) || (1000000 <=? us) then normalize_pair s us 1000000 else (s, us))
    as [s1 us1] eqn:P1.
  destruct (if (s1 <? 0) || (24 * 3600 <=? s1) then normalize_pair d s1 (24 * 3600) else (d, s1))
    as [d2 s2] eqn:P2.
  intros H. injection H as <- <- <-.
  assert (H1 : s1 * 1000000 + us1 = s * 1000000 + us /\ 0 <= us1 < 1000000).
  { destruct ((us <? 0) || (1000000 <=? us)) eqn:E.
    - apply normalize_pair_spec in P1; lia.
    - injection P1 as <- <-. apply orb_false_iff in E as [E1 E2].
      rewrite Z.ltb_ge in E1. rewrite Z.leb_gt in E2. lia. }
  assert (H2 : d2 * (24 * 3600) + s2 = d * (24 * 3600) + s1 /\ 0 <= s2 < 24 * 3600).
  { destruct ((s1 <? 0) || (24 * 3600 <=? s1)) eqn:E.
    - apply normalize_pair_spec in P2; lia.
    - injection P2 as <- <-. apply orb_false_iff in E as [E1 E2].
      rewrite Z.ltb_ge in E1. rewrite Z.leb_gt in E2. lia. }
  unfold_units. lia.
Qed.

(** [datetime - datetime] on valid datetimes never fails and gives the
    timedelta whose count of microseconds is the difference of the two
    counts. *)
Lemma datetime_subtract_us l r :
  valid_datetime l = true -> valid_datetime r = true ->
  exists td, datetime_subtract l r = Ok td /\ valid_timedelta td = true /\
             delta_to_microseconds td = to_us l - to_us r.
Proof.
  intros Hl Hr.
  pose proof (to_us_correct l Hl) as [Hl' _]. pose proof (to_us_correct r Hr) as [Hr' _].
  apply valid_datetime_iff in Hl as [Hdl [Hhl [Hml [Hsl Hul]]]].
  apply valid_datetime_iff in Hr as [Hdr [Hhr [Hmr [Hsr Hur]]]].
  pose proof (ymd_to_ord_correct _ _ _ Hdl) as [Hol _].
  pose proof (ymd_to_ord_correct _ _ _ Hdr) as [Hor _].
  unfold datetime_subtract, new_delta.
  match goal with |- context [normalize_d_s_us ?a ?b ?c] =>
    destruct (normalize_d_s_us a b c) as [[d s] us] eqn:N end.
  apply normalize_d_s_us_spec in N as [Htot [Hs Hus]].
  unfold to_us, time_us in *. unfold_units.
  rewrite check_delta_day_range_ok by (unfold MAX_DELTA_DAYS, MAXORDINAL in *; nia).
  cbn [rbind]. eexists. split; [reflexivity|]. split.
  - unfold valid_timedelta. cbn [td_days td_seconds td_microseconds].
    rewrite !andb_true_iff, !Z.leb_le, !Z.ltb_lt. unfold_units. unfold MAX_DELTA_DAYS, MAXORDINAL in *. nia.
  - unfold delta_to_microseconds. cbn [td_days td_seconds td_microseconds]. unfold_units. lia.
Qed.

(** C10. [datetime + timedelta] is the addition of microsecond counts:
    the field-wise carries of [add_datetime_timedelta] give the datetime
    whose count is the sum, and [OverflowError] ("date value out of
    range") exactly when the sum is outside 0001-01-01 .. 9999-12-31. *)
Theorem add_datetime_timedelta_spec dt td factor :
  valid_datetime dt = true ->
  add_datetime_timedelta dt td factor =
  (let n := to_us dt + factor * delta_to_microseconds td in
   if in_range_us n then Ok (from_us n) else date_out_of_range).
Proof. exact (add_datetime_timedelta_us dt td factor). Qed.

(** C28. [datetime - datetime] on valid datetimes never fails and gives the
    timedelta whose count of microseconds is the difference of the two
    counts. *)
Theorem datetime_subtract_spec l r :
  valid_datetime l = true -> valid_datetime r = true ->
  exists td, datetime_subtract l r = Ok td /\ valid_timedelta td = true /\
             delta_to_microseconds td = to_us l - to_us r.
Proof. exact (datetime_subtract_us l r). Qed.


(** The two [OverflowError]s of [microseconds_to_delta]: the day count
    does not fit a C [int] ([_PyLong_AsInt]), or it does but exceeds
    [MAX_DELTA_DAYS]. *)
Lemma microseconds_to_delta_overflow n :
  let d := n / US_PER_DAY in
  ~ (- MAX_DELTA_DAYS <= d <= MAX_DELTA_DAYS) ->
  microseconds_to_delta n =
  Err (mk_exc OverflowError
         (if (INT_MIN <=? d) && (d <=? INT_MAX)
          then "days=" ++ str_of_Z d ++ "; must have magnitude <= 999999999"
          else "Python int too large to convert to C int")).
Proof.
  intros d Hd. unfold microseconds_to_delta.
  assert (E : n / US_PER_SECOND / SECONDS_PER_DAY = d)
    by (unfold d, US_PER_DAY; rewrite Z.div_div by (unfold_units; lia); f_equal; ring).
  rewrite E. unfold as_int. destruct ((INT_MIN <=? d) && (d <=? INT_MAX)); [|reflexivity].
  cbn [rbind]. unfold new_delta, check_delta_day_range.
  replace ((- MAX_DELTA_DAYS <=? d) && (d <=? MAX_DELTA_DAYS)) with false; [reflexivity|].
  symmetry. apply andb_false_iff. rewrite !Z.leb_gt. lia.
Qed.

(** ** The exceptions of the datetime operations *)

Lemma year_in_range_exc ymd : res_only lib_exc (year_in_range ymd).
Proof. destruct ymd as [[y m] d]. unfold year_in_range, date_out_of_range. res_only_tac. Qed.

Lemma normalize_y_m_d_exc y m d : res_only lib_exc (normalize_y_m_d y m d).
Proof.
  unfold normalize_y_m_d, date_out_of_range.
  repeat (destruct (_ || _) || destruct (_ =? _) || destruct (_ <? _)); try apply year_in_range_exc; res_only_tac.
Qed.

Lemma check_date_args_exc y m d : res_only lib_exc (check_date_args y m d).
Proof. unfold check_date_args. res_only_tac. Qed.

Lemma check_time_args_exc hh mm ss us : res_only lib_exc (check_time_args hh mm ss us).
Proof. unfold check_time_args. res_only_tac. Qed.

#[export] Hint Resolve check_date_args_exc check_time_args_exc : pyres.

Lemma new_datetime_exc y m d hh mm ss us : res_only lib_exc (new_datetime y m d hh mm ss us).
Proof. unfold new_datetime, check_date_args, check_time_args. res_only_tac. Qed.

#[export] Hint Resolve year_in_range_exc normalize_y_m_d_exc new_datetime_exc : pyres.

Lemma add_datetime_timedelta_exc dt td f : res_only lib_exc (add_datetime_timedelta dt td f).
Proof. unfold add_datetime_timedelta, normalize_datetime. res_only_tac. Qed.

Lemma check_delta_day_range_exc d : res_only lib_exc (check_delta_day_range d).
Proof. unfold check_delta_day_range. res_only_tac. Qed.

#[export] Hint Resolve check_delta_day_range_exc : pyres.

Lemma new_delta_exc d s us b : res_only lib_exc (new_delta d s us b).
Proof. unfold new_delta. res_only_tac. Qed.

#[export] Hint Resolve new_delta_exc : pyres.

Lemma microseconds_to_delta_exc n : res_only lib_exc (microseconds_to_delta n).
Proof. unfold microseconds_to_delta, as_int. res_only_tac. Qed.

Lemma datetime_subtract_exc l r : res_only lib_exc (datetime_subtract l r).
Proof. unfold datetime_subtract. apply new_delta_exc. Qed.

#[export] Hint Resolve add_datetime_timedelta_exc microseconds_to_delta_exc datetime_subtract_exc : pyres.

(** ** Witnesses *)

Definition leap_eve : datetime := mk_datetime 2024 2 28 23 59 59 999999.
Definition one_us : timedelta := mk_timedelta 0 0 1.

Lemma add_datetime_timedelta_spec_witness :
  valid_datetime leap_eve = true /\
  add_datetime_timedelta leap_eve one_us 1 =
  (let n := to_us leap_eve + 1 * delta_to_microseconds one_us in
   if in_range_us n then Ok (from_us n) else date_out_of_range) /\
  add_datetime_timedelta leap_eve one_us 1 = Ok (mk_datetime 2024 2 29 0 0 0 0).
Proof.
  split; [reflexivity|]. split; [exact (add_datetime_timedelta_spec leap_eve one_us 1 eq_refl)|].
  reflexivity.
Defined.

Lemma datetime_subtract_spec_witness :
  valid_datetime leap_eve = true /\ valid_datetime (mk_datetime 1970 1 1 0 0 0 0) = true /\
  exists td, datetime_subtract leap_eve (mk_datetime 1970 1 1 0 0 0 0) = Ok td /\
             valid_timedelta td = true /\
             delta_to_microseconds td = to_us leap_eve - to_us (mk_datetime 1970 1 1 0 0 0 0).
Proof.
  split; [reflexivity|]. split; [reflexivity|].
  exact (datetime_subtract_spec leap_eve (mk_datetime 1970 1 1 0 0 0 0) eq_refl eq_refl).
Defined.

End DateTime.
