(* ===== verification/PyFloat.v ===== *)
(** Python [float] (IEEE binary64, [SpecFloat] with [prec = 53] and
    [emax = 1024]) and the C library functions CPython's [datetime]
    module applies to it: [modf], [round], the conversions between [int]
    and [float] ([PyLong_AsDouble], [PyLong_FromDouble], a C cast) and
    the correctly rounded true division of two [int]s ([long_true_divide]).

    [SpecFloat]'s operations round to nearest, ties to even, as the
    binary64 arithmetic of the C code does. *)

From Stdlib Require Import ZArith Bool String Lia.
From Stdlib Require Import SpecFloat.
From S2P Require Import Prelude.
Local Open Scope Z_scope.
Local Set Warnings "-register-all".

Module PyFloat.

Definition prec : Z := 53.
Definition emax : Z := 1024.

Abbreviation float := spec_float.

Definition fmul : float -> float -> float := SFmul prec emax.
Definition fadd : float -> float -> float := SFadd prec emax.
Definition fsub : float -> float -> float := SFsub prec emax.

(** [m * 2 ^ e] rounded to binary64; the zero it gives has sign [sz]. *)
Definition normalize (m e : Z) (sz : bool) : float := binary_normalize prec emax m e sz.

(** [PyLong_AsDouble] (and the conversion of an [int] operand of a
    mixed [float]/[int] operation), for integers below [2 ^ 1024]:
    rounding to nearest, ties to even. *)
Definition of_int (n : Z) : float := normalize n 0 false.

Definition zero : float := S754_zero false.
Definition one_half : float := normalize 1 (-1) false.
Definition two : float := of_int 2.

Definition sign_of (s : bool) (m : Z) : Z := if s then - m else m.

(** [modf(x)]: the fractional and the integral part of [x], both with
    the sign of [x]; both are exact. *)
Definition modf (x : float) : float * float :=
  match x with
  | S754_finite s m e =>
      if 0 <=? e then (S754_zero s, x)
      else (normalize (sign_of s (Zpos m mod 2 ^ (- e))) e s,
            normalize (sign_of s (Z.shiftr (Zpos m) (- e))) 0 s)
  | S754_zero s => (S754_zero s, S754_zero s)
  | S754_infinity s => (S754_zero s, x)
  | S754_nan => (S754_nan, S754_nan)
  end.

(** The value of a finite float truncated towards zero. *)
Definition trunc (x : float) : Z :=
  match x with
  | S754_finite s m e => sign_of s (Z.shiftl (Zpos m) e)
  | _ => 0
  end.

(** [PyLong_FromDouble(x)]. *)
Definition long_from_double (x : float) : result Z :=
  match x with
  | S754_infinity _ => fail OverflowError "cannot convert float infinity to integer"
  | S754_nan => fail ValueError "cannot convert float NaN to integer"
  | _ => Ok (trunc x)
  end.

(** C's [round(x)]: to the nearest integer, halves away from zero. *)
Definition c_round (x : float) : float :=
  match x with
  | S754_finite s m e =>
      if 0 <=? e then x
      else
        let k := Z.shiftr (Zpos m) (- e) in
        let k := if 2 ^ (- e - 1) <=? Zpos m mod 2 ^ (- e) then k + 1 else k in
        normalize (sign_of s k) 0 s
  | _ => x
  end.

(** [fabs(x)]. *)
Definition fabs : float -> float := SFabs.

(** [x == y] and [x < y] on floats ([False] when one is a NaN). *)
Definition feqb : float -> float -> bool := SFeqb.
Definition fltb : float -> float -> bool := SFltb.

(** A C [double] used as a condition: true unless it is [0.0] or [-0.0]. *)
Definition nonzero (x : float) : bool :=
  match x with S754_zero _ => false | _ => true end.

(** [a / b] for Python [int]s with [b > 0] ([long_true_divide]): the
    quotient correctly rounded, computed by [SpecFloat]'s division of the
    exact operands. *)
Definition int_true_divide (a b : Z) : float :=
  match a with
  | Z0 => S754_zero false
  | Zpos p => SFdiv prec emax (S754_finite false p 0) (S754_finite false (Z.to_pos b) 0)
  | Zneg p => SFdiv prec emax (S754_finite true p 0) (S754_finite false (Z.to_pos b) 0)
  end.

(** [x < 0] for a [float] [x] and the [int] [0]. *)
Definition is_negative (x : float) : bool := fltb x zero.

(** [PyLong_FromDouble] raises [OverflowError] or [ValueError]. *)
Lemma long_from_double_exc x : res_only lib_exc (long_from_double x).
Proof. unfold long_from_double. res_only_tac. Qed.

#[export] Hint Resolve long_from_double_exc : pyres.

End PyFloat.
