(* ===== verification/Timedelta.v ===== *)
(** [datetime.timedelta(seconds=x)] ([delta_new] and [accum] in
    [Modules/_datetimemodule.c]) for an [int] or a [float] [x], and
    [timedelta.total_seconds()] ([delta_total_seconds]).

    [delta_new] sums the microseconds of its arguments as a Python
    [int]; the fractional microseconds of a [float] argument are collected
    in the [double] [leftover_us], rounded (half to even, with a parity
    correction on ties) and added at the end; [microseconds_to_delta_ex]
    then splits the sum into days, seconds and microseconds. *)

From Stdlib Require Import ZArith Bool String Lia.
From Stdlib Require Import SpecFloat.
From S2P Require Import Prelude PyFloat DateTime.
Local Open Scope Z_scope.
Local Set Warnings "-register-all".

Module Timedelta.
Import PyFloat DateTime.

(** A number as the code passes it to [timedelta]: an [int] ([bool]
    included) or a [float]. *)
Inductive pynum : Type :=
| NInt (n : Z)
| NFloat (f : float).

(** [accum(tag, sofar, num, factor, &leftover)]. *)
Definition accum (sofar : Z) (num : pynum) (factor : Z) (leftover : float) : result (Z * float) :=
  match num with
  | NInt n => Ok (sofar + n * factor, leftover)
  | NFloat dnum =>
      let '(fracpart, intpart) := modf dnum in
      x <-? long_from_double intpart ;;
      let sum := sofar + x * factor in
      if feqb fracpart zero then Ok (sum, leftover)
      else
        let dnum := fmul (of_int factor) fracpart in
        let '(fracpart, intpart) := modf dnum in
        x <-? long_from_double intpart ;;
        Ok (sum + x, fadd leftover fracpart)
  end.

(** The end of [delta_new]: [leftover_us] rounded to a whole number of
    microseconds and added to [x]; on an exact tie the rounding goes to
    the even total. *)
Definition add_leftover (x : Z) (leftover_us : float) : Z :=
  if nonzero leftover_us then
    let whole_us := c_round leftover_us in
    let whole_us :=
      if feqb (fabs (fsub whole_us leftover_us)) one_half then
        let x_is_odd := Z.land x 1 in
        fsub (fmul two (c_round (fmul (fadd leftover_us (of_int x_is_odd)) one_half)))
             (of_int x_is_odd)
      else whole_us in
    x + trunc whole_us
  else x.

(** [timedelta(seconds=second)]. *)
Definition delta_new_seconds (second : pynum) : result timedelta :=
  '(x, leftover_us) <-? accum 0 second US_PER_SECOND zero ;;
  microseconds_to_delta (add_leftover x leftover_us).

(** [td.total_seconds()]: the microseconds divided by [10 ^ 6] with
    [int] true division. *)
Definition total_seconds (td : timedelta) : float :=
  int_true_divide (delta_to_microseconds td) US_PER_SECOND.

(** ** Exceptions *)

Lemma accum_exc sofar num factor leftover : res_only lib_exc (accum sofar num factor leftover).
Proof. unfold accum. res_only_tac. Qed.

#[export] Hint Resolve accum_exc : pyres.

Lemma delta_new_seconds_exc x : res_only lib_exc (delta_new_seconds x).
Proof. unfold delta_new_seconds. res_only_tac. Qed.

#[export] Hint Resolve delta_new_seconds_exc : pyres.

(** ** An [int] number of seconds *)

(** C29. [timedelta(seconds=n)] for an [int] [n] is the normalised
    timedelta of exactly [n] seconds, or [OverflowError] when its days
    exceed [MAX_DELTA_DAYS]. *)
Theorem delta_new_seconds_int n :
  match delta_new_seconds (NInt n) with
  | Ok td => valid_timedelta td = true /\ delta_to_microseconds td = n * US_PER_SECOND
  | Err e => exc_kind e = OverflowError
  end /\
  is_ok (delta_new_seconds (NInt n))
  = (- MAX_DELTA_DAYS <=? n / SECONDS_PER_DAY) && (n / SECONDS_PER_DAY <=? MAX_DELTA_DAYS).
Proof.
  assert (E : delta_new_seconds (NInt n) = microseconds_to_delta (n * US_PER_SECOND)) by reflexivity.
  rewrite E. destruct (microseconds_to_delta_correct (n * US_PER_SECOND)) as [H1 H2].
  split; [exact H1|]. rewrite H2.
  replace (n * US_PER_SECOND / US_PER_DAY) with (n / SECONDS_PER_DAY); [reflexivity|].
  unfold US_PER_DAY.
  symmetry. apply Z.div_mul_cancel_r; unfold US_PER_SECOND, SECONDS_PER_DAY; lia.
Qed.

End Timedelta.
