(* ===== verification/Strftime.v ===== *)
(** [datetime.strftime(format)] on a naive datetime: CPython's
    [wrap_strftime] ([Modules/_datetimemodule.c]) replaces [%f], [%z] and
    [%Z] itself and hands the new format to [time.strftime], which calls
    the C library's [strftime]; the C library modelled is glibc.

    [wrap_strftime] reads the format as a C string: it stops at the first
    NUL character.  glibc prints [%Y] and [%C] without padding, [%m %d %H
    %M %S %y] with two digits, [%j] with three, [%e] padded with a space,
    and copies an unknown conversion ([%Q]) and a final lone [%] as they
    are.  Conversions that depend on the locale or on the week ([%a %b %c
    %p %U ...]), flags and widths ([%-d %5Y %EY]) are outside the model:
    they give [Unmodelled]. *)

From Stdlib Require Import ZArith Bool List String Ascii Lia.
From S2P Require Import Prelude PyStr Calendar DateTime.
Import ListNotations.
Local Open Scope string_scope.

Module Strftime.
Import PyStr Calendar DateTime.

(** ** [wrap_strftime] *)

(** The [%f] replacement: [sprintf("%06d", microsecond)]. *)
Definition freplacement (dt : datetime) : string := zero_pad 6 (microsecond dt).

(** The scan of [wrap_strftime] over the characters of the format, up to
    the first NUL: [%f] becomes the microseconds, [%z] and [%Z] of a naive
    datetime become empty, every other [%x] and every other character is
    copied, and a [%] that ends the format is copied. *)
Fixpoint wrap_scan (dt : datetime) (cs : list ascii) : string :=
  match cs with
  | [] => ""
  | c :: rest =>
      if Ascii.eqb c Ascii.zero then ""
      else if negb (Ascii.eqb c "%") then String c (wrap_scan dt rest)
      else
        match rest with
        | [] => "%"
        | ch :: rest' =>
            if Ascii.eqb ch Ascii.zero then "%"
            else if Ascii.eqb ch "z" || Ascii.eqb ch "Z" then wrap_scan dt rest'
            else if Ascii.eqb ch "f" then freplacement dt ++ wrap_scan dt rest'
            else String "%" (String ch (wrap_scan dt rest'))
        end
  end.

Definition wrap_strftime (dt : datetime) (format : string) : string :=
  wrap_scan dt (list_ascii_of_string format).

(** ** glibc's [strftime] *)

(** [tm_yday + 1]: the day of the year. *)
Definition day_of_year (dt : datetime) : Z :=
  ymd_to_ord (year dt) (month dt) (day dt) - ymd_to_ord (year dt) 1 1 + 1.

(** The conversions of glibc's [strftime], flags, widths and the [E]
    and [O] modifiers included, as far as the model knows them. *)
Definition glibc_conversions : string := "aAbBcCdDeFgGhHIjklmMnpPrRsStTuUVwWxXyYzZ%+_-0^#123456789EO".

(** One conversion [%c]: [None] when the model leaves it out. *)
Definition conversion (dt : datetime) (c : ascii) : option string :=
  if Ascii.eqb c "Y" then Some (str_of_Z (year dt))
  else if Ascii.eqb c "C" then Some (str_of_Z (year dt / 100))
  else if Ascii.eqb c "y" then Some (zero_pad 2 (year dt mod 100))
  else if Ascii.eqb c "m" then Some (zero_pad 2 (month dt))
  else if Ascii.eqb c "d" then Some (zero_pad 2 (day dt))
  else if Ascii.eqb c "e" then Some (space_pad 2 (day dt))
  else if Ascii.eqb c "j" then Some (zero_pad 3 (day_of_year dt))
  else if Ascii.eqb c "H" then Some (zero_pad 2 (hour dt))
  else if Ascii.eqb c "M" then Some (zero_pad 2 (minute dt))
  else if Ascii.eqb c "S" then Some (zero_pad 2 (second dt))
  else if Ascii.eqb c "n" then Some (String (ascii_of_nat 10) "")
  else if Ascii.eqb c "t" then Some (String (ascii_of_nat 9) "")
  else if Ascii.eqb c "%" then Some "%"
  else None.

Fixpoint glibc_scan (dt : datetime) (cs : list ascii) : result string :=
  match cs with
  | [] => Ok ""
  | c :: rest =>
      if negb (Ascii.eqb c "%") then
        r <-? glibc_scan dt rest ;; Ok (String c r)
      else
        match rest with
        | [] => Ok "%"
        | ch :: rest' =>
            if str_mem ch glibc_conversions then
              match conversion dt ch with
              | Some out => r <-? glibc_scan dt rest' ;; Ok (out ++ r)
              | None => fail Unmodelled ("strftime conversion %" ++ String ch "")
              end
            else r <-? glibc_scan dt rest' ;; Ok (String "%" (String ch r))
        end
  end.

(** [time.strftime(format, dt.timetuple())] with glibc. *)
Definition time_strftime (dt : datetime) (format : string) : result string :=
  glibc_scan dt (list_ascii_of_string format).

(** [dt.strftime(format)]. *)
Definition strftime (dt : datetime) (format : string) : result string :=
  time_strftime dt (wrap_strftime dt format).

(** ** Exceptions: only the conversions the model leaves out *)

Lemma glibc_scan_exc dt cs : res_only lib_exc (glibc_scan dt cs).
Proof.
  induction cs as [cs IH] using list_len_ind.
  destruct cs as [|c [|ch rest]]; cbn [glibc_scan];
    res_only_tac_with ltac:(apply IH; simpl; lia).
Qed.

Lemma strftime_exc dt format : res_only lib_exc (strftime dt format).
Proof. apply glibc_scan_exc. Qed.

#[export] Hint Resolve strftime_exc : pyres.

End Strftime.
