(* ===== verification/Strptime.v ===== *)
(** [datetime.strptime(date_string, format)]: [Lib/_strptime.py]
    ([TimeRE.pattern], [TimeRE.compile], [_strptime],
    [_strptime_datetime]) on top of the [re] model.

    [TimeRE.pattern] escapes the regex metacharacters of the format,
    replaces each run of whitespace by [\s+] and each directive [%x] by
    the regular expression of [TimeRE[x]], a named group; a key that
    [TimeRE] lacks raises [ValueError] ("bad directive"), a final [%]
    "stray %".  The pattern is compiled with [IGNORECASE] and matched at
    the start of the date string; the whole string must be consumed.
    The groups are converted with [int()] in the order of the pattern,
    the date is checked by building [datetime.date] objects, and the
    result is [datetime(year, month, day, hour, minute, second, fraction)].

    The pattern is built as its parse tree: the literal characters are the
    [NLit] nodes that their escaped text parses to (the lemma
    [literal_piece_parse] checks this against the parser of [ReSyntax] on
    every character), and the body of each directive is the parse of its
    source text.  [IGNORECASE] is the lowering of the pattern's literals
    and sets and of the subject ([LITERAL_UNI_IGNORE], [IN_UNI_IGNORE]
    compare [lower(ch)]); the groups are then cut from the original
    string.

    Directives modelled: [%Y %y %m %d %H %M %S %f %j %%]; the other keys
    of [TimeRE] ([%a %b %p %I %U %w %z %Z %c ...]) depend on the locale or
    on the week computations and give [Unmodelled]. *)

From Stdlib Require Import ZArith Bool List String Ascii NArith Lia.
From S2P Require Import Prelude PyStr ReSyntax ReMatch Calendar DateTime.
Import ListNotations.
Local Open Scope string_scope.

Module Strptime.
Import PyStr ReSyntax ReMatch Calendar DateTime.

(** ** [TimeRE] *)

(** [TimeRE[c]] for the modelled keys, as the source writes them. *)
Definition time_re (c : ascii) : option string :=
  if Ascii.eqb c "d" then Some "(?P<d>3[0-1]|[1-2]\d|0[1-9]|[1-9]| [1-9])"
  else if Ascii.eqb c "f" then Some "(?P<f>[0-9]{1,6})"
  else if Ascii.eqb c "H" then Some "(?P<H>2[0-3]|[0-1]\d|\d)"
  else if Ascii.eqb c "j" then
    Some "(?P<j>36[0-6]|3[0-5]\d|[1-2]\d\d|0[1-9]\d|00[1-9]|[1-9]\d|0[1-9]|[1-9])"
  else if Ascii.eqb c "m" then Some "(?P<m>1[0-2]|0[1-9]|[1-9])"
  else if Ascii.eqb c "M" then Some "(?P<M>[0-5]\d|\d)"
  else if Ascii.eqb c "S" then Some "(?P<S>6[0-1]|[0-5]\d|\d)"
  else if Ascii.eqb c "y" then Some "(?P<y>\d\d)"
  else if Ascii.eqb c "Y" then Some "(?P<Y>\d\d\d\d)"
  else if Ascii.eqb c "%" then Some "%"
  else None.

(** The other keys of [TimeRE]. *)
Definition time_re_other_keys : string := "IGUwuVWzAaBbpZcxX".

(** ** [TimeRE.pattern] *)

(** [regex_chars]: the characters [pattern] escapes with a backslash. *)
Definition regex_chars : string := "\.^$*+?(){}[]|".

(** The format after the two substitutions of [pattern], as tokens:
    a character, an escaped character, [\s+] for a run of whitespace, a
    [%]. *)
Inductive ftok : Type :=
| FChar (c : ascii)
| FEsc (c : ascii)
| FSpace
| FPct.

Fixpoint drop_space (cs : list ascii) : list ascii :=
  match cs with
  | c :: rest => if is_space c then drop_space rest else cs
  | [] => []
  end.

Fixpoint substitute (fuel : nat) (cs : list ascii) : list ftok :=
  match fuel with
  | O => []
  | S fuel' =>
      match cs with
      | [] => []
      | c :: rest =>
          if is_space c then FSpace :: substitute fuel' (drop_space rest)
          else if Ascii.eqb c "%" then FPct :: substitute fuel' rest
          else if str_mem c regex_chars then FEsc c :: substitute fuel' rest
          else FChar c :: substitute fuel' rest
      end
  end.

(** A piece of the pattern: literal text, [\s+], a directive's group
    (its key and [TimeRE] text), or a directive outside the model. *)
Inductive piece : Type :=
| PLit (t : ftok)
| PDir (c : ascii) (text : string)
| POther (c : ascii).

Definition bad_directive (d : string) (format : string) : string :=
  "'" ++ d ++ "' is a bad directive in format '" ++ format ++ "'".

(** The loop [while '%' in format] of [pattern]; [format] is the
    original format, for the messages. *)
Fixpoint directives (format : string) (ts : list ftok) : result (list piece) :=
  match ts with
  | [] => Ok []
  | FPct :: rest =>
      match rest with
      | [] => fail ValueError ("stray % in format '" ++ format ++ "'")
      | FChar c :: rest' =>
          match time_re c with
          | Some text => ps <-? directives format rest' ;; Ok (PDir c text :: ps)
          | None =>
              if str_mem c time_re_other_keys then
                ps <-? directives format rest' ;; Ok (POther c :: ps)
              else fail ValueError (bad_directive (String c "") format)
          end
      | FPct :: rest' => ps <-? directives format rest' ;; Ok (PDir "%" "%" :: ps)
      | _ :: _ => fail ValueError (bad_directive "%" format)
      end
  | t :: rest => ps <-? directives format rest ;; Ok (PLit t :: ps)
  end.

Definition pattern (format : string) : result (list piece) :=
  let cs := list_ascii_of_string format in
  directives format (substitute (List.length cs) cs).

(** ** [re.compile(pattern, IGNORECASE)] *)

Definition ftok_text (t : ftok) : string :=
  match t with
  | FChar c => String c ""
  | FEsc c => String "\" (String c "")
  | FSpace => "\s+"
  | FPct => "%"
  end.

Definition piece_text (p : piece) : string :=
  match p with
  | PLit t => ftok_text t
  | PDir _ text => text
  | POther c => String "%" (String c "")
  end.

(** The parse trees the literal texts give. *)
Definition ftok_node (t : ftok) : node :=
  match t with
  | FChar c | FEsc c => NLit c
  | FSpace => NRepeat true 1 None (NIn false [SCat CatSpace])
  | FPct => NLit "%"
  end.

(** The body of a directive's group: the text between [(?P<x>] and the
    final [)]. *)
Definition group_body (text : string) : string :=
  substring 6 (String.length text - 7) text.

Definition parse_body (text : string) : result node :=
  match parse_pattern (list_ascii_of_string (group_body text)) with
  | POk n _ _ => Ok n
  | _ => fail Unmodelled "directive pattern"
  end.

(** The groups of the pattern: name and number, in order. *)
Definition groups := list (ascii * nat).

Fixpoint group_of (names : groups) (c : ascii) : option nat :=
  match names with
  | [] => None
  | (d, g) :: rest => if Ascii.eqb c d then Some g else group_of rest c
  end.

(** Compiling the pieces: [pos] is the position in the pattern text,
    [g] the number of groups so far. *)
Fixpoint compile_pieces (ps : list piece) (pos g : nat) (names : groups)
  : result (list node * groups) :=
  match ps with
  | [] => Ok ([], names)
  | PLit t :: rest =>
      '(ns, names) <-? compile_pieces rest (pos + String.length (ftok_text t)) g names ;;
      Ok (ftok_node t :: ns, names)
  | PDir c text :: rest =>
      if Ascii.eqb c "%" then
        '(ns, names) <-? compile_pieces rest (pos + 1) g names ;; Ok (NLit "%" :: ns, names)
      else
        match group_of names c with
        | Some g0 =>
            fail ReError ("redefinition of group name '" ++ String c "" ++ "' as group "
                          ++ str_of_Z (Z.of_nat (S g)) ++ "; was group " ++ str_of_Z (Z.of_nat g0)
                          ++ " at position " ++ str_of_Z (Z.of_nat (pos + 4)))
        | None =>
            body <-? parse_body text ;;
            '(ns, names) <-? compile_pieces rest (pos + String.length text) (S g) (names ++ [(c, S g)])%list ;;
            Ok (NGroup (Some (S g)) body :: ns, names)
        end
  | POther c :: _ => fail Unmodelled ("strptime directive %" ++ String c "")
  end.

(** [IGNORECASE]: the sets with the lowered counterpart of their
    upper-case letters, the literals lowered. *)
Definition lower_item (it : set_item) : list set_item :=
  match it with
  | SLit c => [SLit (ascii_lower c)]
  | SRange lo hi =>
      let a := Nat.max (nat_of_ascii lo) 65 in
      let b := Nat.min (nat_of_ascii hi) 90 in
      if Nat.leb a b then [SRange lo hi; SRange (ascii_of_nat (a + 32)) (ascii_of_nat (b + 32))]
      else [SRange lo hi]
  | SCat k => [SCat k]
  end.

Fixpoint icase (r : node) : node :=
  match r with
  | NLit c => NLit (ascii_lower c)
  | NIn neg items => NIn neg (flat_map lower_item items)
  | NGroup g r => NGroup g (icase r)
  | NSeq r1 r2 => NSeq (icase r1) (icase r2)
  | NAlt r1 r2 => NAlt (icase r1) (icase r2)
  | NRepeat gr mn mx r => NRepeat gr mn mx (icase r)
  | _ => r
  end.

(** [TimeRE.compile(format)]. *)
Definition compile (format : string) : result (node * groups) :=
  ps <-? pattern format ;;
  '(ns, names) <-? compile_pieces ps 0 0 [] ;;
  Ok (icase (seq_of ns), names).

(** ** [_strptime] *)

(** The values [_strptime] collects. *)
Record fields : Type := mk_fields {
  f_year : option Z; f_month : Z; f_day : Z; f_hour : Z; f_minute : Z;
  f_second : Z; f_fraction : Z; f_julian : option Z }.

Definition initial_fields : fields := mk_fields None 1 1 0 0 0 0 None.

(** One step of [for group_key in found_dict.keys()]. *)
Definition set_field (fs : fields) (key : ascii) (v : string) : fields :=
  let n := int_of_digits v in
  let '(mk_fields y mo d h mi s fr j) := fs in
  if Ascii.eqb key "y" then
    mk_fields (Some (if (n <=? 68)%Z then n + 2000 else n + 1900)%Z) mo d h mi s fr j
  else if Ascii.eqb key "Y" then mk_fields (Some n) mo d h mi s fr j
  else if Ascii.eqb key "m" then mk_fields y n d h mi s fr j
  else if Ascii.eqb key "d" then mk_fields y mo n h mi s fr j
  else if Ascii.eqb key "H" then mk_fields y mo d n mi s fr j
  else if Ascii.eqb key "M" then mk_fields y mo d h n s fr j
  else if Ascii.eqb key "S" then mk_fields y mo d h mi n fr j
  else if Ascii.eqb key "f" then
    mk_fields y mo d h mi s (int_of_digits (v ++ string_of_list_ascii (repeat "0"%char (6 - String.length v)))) j
  else if Ascii.eqb key "j" then mk_fields y mo d h mi s fr (Some n)
  else fs.

(** [datetime.date.fromordinal(o)]. *)
Definition date_fromordinal (o : Z) : result (Z * Z * Z) :=
  if (o <? 1)%Z then fail ValueError "ordinal must be >= 1"
  else
    let '(y, m, d) := ord_to_ymd o in
    _ <-? check_date_args y m d ;; Ok (y, m, d).

(** From the collected values to the [datetime]: the default year, the
    date checks of [datetime_date(...)], [%j], and the constructor. *)
Definition build (fs : fields) : result datetime :=
  let '(mk_fields y month day hour minute second fraction julian) := fs in
  let '(year, leap_year_fix) :=
    match y with
    | Some y => (y, false)
    | None => if (month =? 2)%Z && (day =? 29)%Z then (1904%Z, true) else (1900%Z, false)
    end in
  '(year, month, day) <-?
    match julian with
    | None =>
        _ <-? check_date_args year month day ;;
        _ <-? check_date_args year 1 1 ;;
        Ok (year, month, day)
    | Some j =>
        _ <-? check_date_args year 1 1 ;;
        date_fromordinal (j - 1 + ymd_to_ord year 1 1)%Z
    end ;;
  let year := if leap_year_fix then 1900%Z else year in
  new_datetime year month day hour minute second fraction.

(** [_strptime_datetime(datetime, data_string, format)]. *)
Definition strptime (data_string format : string) : result datetime :=
  '(regex, names) <-? compile format ;;
  let s := list_ascii_of_string data_string in
  match match_here (map ascii_lower s) regex false 0 with
  | None =>
      fail ValueError ("time data " ++ py_repr data_string ++ " does not match format " ++ py_repr format)
  | Some (e, c) =>
      if negb (Nat.eqb e (List.length s)) then
        fail ValueError ("unconverted data remains: " ++ string_of_list_ascii (skipn e s))
      else
        let value g := match lookup_cap g c with
                       | Some (a, b) => string_of_list_ascii (slice s a b)
                       | None => ""
                       end in
        build (fold_left (fun fs '(key, g) => set_field fs key (value g)) names initial_fields)
  end.

(** ** The pattern is the parse of its text *)

(** The token of one format character after the substitutions of
    [pattern]. *)
Definition ftok_of_char (c : ascii) : ftok :=
  if is_space c then FSpace
  else if Ascii.eqb c "%" then FPct
  else if str_mem c regex_chars then FEsc c
  else FChar c.

(** The parse tree [compile_pieces] gives each literal piece of the
    pattern (a character, an escaped metacharacter, [\s+], [%]) is the one
    the parser of [ReSyntax] gives its text, for every character. *)
Theorem literal_piece_parse c :
  parse_pattern (list_ascii_of_string (ftok_text (ftok_of_char c)))
  = POk (ftok_node (ftok_of_char c)) [] 0.
Proof. destruct c as [[] [] [] [] [] [] [] []]; vm_compute; reflexivity. Qed.

(** The body of every modelled directive parses. *)
Lemma parse_body_ok c text : time_re c = Some text -> is_ok (parse_body text) = true.
Proof.
  intros H. destruct c as [[] [] [] [] [] [] [] []]; vm_compute in H; try discriminate H;
    injection H as <-; vm_compute; reflexivity.
Qed.

(** ** What [strptime] returns *)

Lemma build_valid fs dt : build fs = Ok dt -> valid_datetime dt = true.
Proof.
  destruct fs as [y mo d h mi s fr j]. unfold build.
  destruct (match y with Some _ => _ | None => _ end) as [year fix_].
  intros H. apply rbind_ok_inv in H as [[[y' m'] d'] [_ H]].
  exact (new_datetime_valid _ _ _ _ _ _ _ _ H).
Qed.

(** [strptime] gives only valid datetimes. *)
Lemma strptime_valid ds fs dt : strptime ds fs = Ok dt -> valid_datetime dt = true.
Proof.
  unfold strptime. intros H. apply rbind_ok_inv in H as [[regex names] [_ H]].
  destruct (match_here _ _ _ _) as [[e c]|]; [|discriminate].
  destruct (negb _); [discriminate|]. exact (build_valid _ _ H).
Qed.

(** ** Exceptions: [ValueError], [re.error] and unmodelled directives *)

Lemma directives_exc format ts : res_only lib_exc (directives format ts).
Proof.
  induction ts as [ts IH] using list_len_ind.
  destruct ts as [|t rest]; cbn [directives]; res_only_tac_with ltac:(apply IH; simpl; lia).
Qed.

Lemma parse_body_exc text : res_only lib_exc (parse_body text).
Proof. unfold parse_body. res_only_tac. Qed.

#[export] Hint Resolve parse_body_exc : pyres.

Lemma compile_pieces_exc ps pos g names : res_only lib_exc (compile_pieces ps pos g names).
Proof.
  revert pos g names. induction ps as [|p ps IH]; intros pos g names; cbn [compile_pieces];
    [|destruct p]; res_only_tac_with ltac:(apply IH).
Qed.

Lemma compile_exc format : res_only lib_exc (compile format).
Proof. unfold compile, pattern. res_only_tac_with ltac:(first [apply directives_exc | apply compile_pieces_exc]). Qed.

Lemma date_fromordinal_exc o : res_only lib_exc (date_fromordinal o).
Proof. unfold date_fromordinal. res_only_tac. Qed.

#[export] Hint Resolve compile_exc date_fromordinal_exc : pyres.

Lemma build_exc fs : res_only lib_exc (build fs).
Proof. destruct fs. unfold build. res_only_tac. Qed.

#[export] Hint Resolve build_exc : pyres.

Lemma strptime_exc ds fs : res_only lib_exc (strptime ds fs).
Proof. unfold strptime. res_only_tac. Qed.

#[export] Hint Resolve strptime_exc : pyres.

End Strptime.
