(* ===== verification/DatetimeModify.v ===== *)
(** [datetime_modify] ([src/custom_functions/datetime_modify.py]): parse
    a timestamp, shift it by an amount of seconds, minutes, hours or days,
    format it again, and report the shift and the epoch time.

    The function is modelled step by step, in the effect monad of the
    prelude: the defaults of its parameters, [datetime.now()] (a
    parameter [now] of the model) formatted when no input is given,
    [datetime.strptime], the validation of the unit and of the amount,
    the conversion to seconds, [timedelta(seconds=...)], [datetime +
    timedelta], [strftime], the epoch time through [datetime -
    datetime] and [total_seconds()], and the [json.dumps] assertion.  Each
    [phantom.debug] call appends one structured message, which carries
    the values the f-string formats. *)

From Stdlib Require Import ZArith Bool List String Ascii Lia.
From Stdlib Require Import SpecFloat.
From S2P Require Import Prelude PyValue PyStr PyFloat Calendar DateTime Timedelta Strftime Strptime.
Import ListNotations.
Local Open Scope string_scope.
Local Set Warnings "-register-all".

Module DatetimeModify.
Import PyStr PyFloat DateTime Timedelta Strftime Strptime.

(** ** The debug log *)

Inductive dm_log : Type :=
| LParsed (parsed_input : datetime)
| LSubtracting (amount_neg : pyval) (unit : string) (seconds_neg : pyval)
| LAdding (amount : pyval) (unit : string) (seconds : pyval)
| LAddingDelta (parsed_input : datetime) (delta : timedelta)
| LUnformatted (result_time : datetime)
| LFormatted (string_output : string).

Abbreviation M := (PyM dm_log).

(** ** Helpers *)

(** The phantom default format. *)
Definition DEFAULT_FORMAT : string := "%Y-%m-%dT%H:%M:%S.%fZ".

(** The type name in the messages of [PyArg_Parse*]. *)
Definition pyarg_type_name (v : pyval) : string :=
  match v with PNone => "None" | _ => type_name v end.

(** A [str] argument ([U] in a [PyArg_Parse*] format). *)
Definition arg_str (fname : string) (index : string) (v : pyval) : result string :=
  match v with
  | PStr s => Ok s
  | _ => fail TypeError (fname ++ "() argument " ++ index ++ " must be str, not " ++ pyarg_type_name v)
  end.

(** [datetime.strftime(format)] on a Python value. *)
Definition py_strftime (dt : datetime) (format : pyval) : result string :=
  fmt <-? arg_str "strftime" "1" format ;; strftime dt fmt.

(** [datetime.strptime(date_string, format)] on Python values. *)
Definition py_strptime (date_string format : pyval) : result datetime :=
  ds <-? arg_str "strptime" "1" date_string ;;
  fs <-? arg_str "strptime" "2" format ;;
  strptime ds fs.

(** The [conversions] dict and its [get]. *)
Definition conversions : list (string * Z) :=
  [("seconds", 1); ("minutes", 60); ("hours", 60 * 60); ("days", 60 * 60 * 24)]%Z.

Definition conversions_get (unit : string) : option Z :=
  option_map snd (find (fun kv => String.eqb (fst kv) unit) conversions).

(** [modification_unit not in ['seconds', 'minutes', 'hours', 'days']]. *)
Definition valid_units : list string := ["seconds"; "minutes"; "hours"; "days"].

Definition unit_in_list (v : pyval) : bool :=
  match v with
  | PStr u => existsb (String.eqb u) valid_units
  | _ => false
  end.

(** [amount * n] for an [int] or [float] amount and an [int] [n]; a
    [bool] counts as [0] or [1]. *)
Definition num_mul (amount : pyval) (n : Z) : pyval :=
  match amount with
  | PInt a => PInt (a * n)
  | PBool b => PInt (Z.b2z b * n)
  | PFloat f => PFloat (fmul f (of_int n))
  | v => v
  end.

(** [x < 0]. *)
Definition num_negative (v : pyval) : bool :=
  match v with
  | PInt a => (a <? 0)%Z
  | PFloat f => is_negative f
  | _ => false
  end.

(** The argument of [timedelta(seconds=...)]. *)
Definition to_pynum (v : pyval) : pynum :=
  match v with
  | PFloat f => NFloat f
  | PInt a => NInt a
  | PBool b => NInt (Z.b2z b)
  | _ => NInt 0
  end.

(** The defaults: [if not input_format_string: ... = "%Y-%m-%dT%H:%M:%S.%fZ"]
    (and the same for [output_format_string]), [if modification_unit is
    None: modification_unit = 'minutes'], [if not amount_to_modify:
    amount_to_modify = 0]. *)
Definition default_format (v : pyval) : pyval := if truthy v then v else PStr DEFAULT_FORMAT.

Definition default_unit (v : pyval) : pyval := match v with PNone => PStr "minutes" | u => u end.

Definition default_amount (v : pyval) : pyval := if truthy v then v else PInt 0.

(** [datetime.datetime.utcfromtimestamp(0)]. *)
Definition utc_epoch : datetime := mk_datetime 1970 1 1 0 0 0 0.

(** ** [datetime_modify] *)

Definition datetime_modify (now : datetime)
    (input_datetime input_format_string modification_unit amount_to_modify output_format_string : pyval)
    : M pyval :=
  let input_format_string := default_format input_format_string in
  input_datetime <-
    (if truthy input_datetime then ret input_datetime
     else s <- of_result (py_strftime now input_format_string) ;; ret (PStr s)) ;;
  let output_format_string := default_format output_format_string in
  parsed_input <- of_result (py_strptime input_datetime input_format_string) ;;
  debug (LParsed parsed_input) ;;
  let modification_unit := default_unit modification_unit in
  if negb (unit_in_list modification_unit) then
    raise ValueError "invalid modification_unit. must be either seconds, minutes, hours, or days."
  else
  let unit_name := match modification_unit with PStr u => u | _ => "" end in
  let amount_to_modify := default_amount amount_to_modify in
  if negb (is_int amount_to_modify) && negb (is_float amount_to_modify) then
    raise ValueError "invalid amount_to_modify. must be an int or float"
  else
  match conversions_get unit_name with
  | None => raise KeyError "failed to convert modification_unit to seconds"
  | Some conversion_multiplier =>
    if (conversion_multiplier =? 0)%Z then raise KeyError "failed to convert modification_unit to seconds"
    else
    let seconds_to_modify := num_mul amount_to_modify conversion_multiplier in
    (if num_negative seconds_to_modify then
       debug (LSubtracting (num_mul amount_to_modify (-1)) unit_name (num_mul seconds_to_modify (-1)))
     else debug (LAdding amount_to_modify unit_name seconds_to_modify)) ;;
    let outputs := [(PStr "seconds_modified", seconds_to_modify)] in
    delta <- of_result (delta_new_seconds (to_pynum seconds_to_modify)) ;;
    debug (LAddingDelta parsed_input delta) ;;
    result_time <- of_result (add_datetime_timedelta parsed_input delta 1) ;;
    debug (LUnformatted result_time) ;;
    string_output <- of_result (py_strftime result_time output_format_string) ;;
    debug (LFormatted string_output) ;;
    let outputs := (outputs ++ [(PStr "datetime_string", PStr string_output)])%list in
    diff <- of_result (datetime_subtract result_time utc_epoch) ;;
    let epoch_time := total_seconds diff in
    let outputs := (outputs ++ [(PStr "epoch_time", PFloat epoch_time)])%list in
    assert_json (PDict outputs) ;;
    ret (PDict outputs)
  end.

(** ** The exceptions [datetime_modify] may raise *)

Definition is_pystr (v : pyval) : bool := match v with PStr _ => true | _ => false end.

(** An argument of the wrong type: a true value that is not a [str] (a
    false one is replaced by a default). *)
Definition bad_arg (v : pyval) : bool := truthy v && negb (is_pystr v).

(** An exception of the library code, or a [TypeError] when one of
    [args] has the wrong type. *)
Definition dm_exc (args : list pyval) (e : py_exc) : Prop :=
  lib_exc e \/ (exc_kind e = TypeError /\ existsb bad_arg args = true).

(** The output of [datetime_modify]: the dict
    [{'seconds_modified': <int or float>, 'datetime_string': <str>,
    'epoch_time': <float>}], with its keys in this order. *)
Definition dm_output (v : pyval) : Prop :=
  exists sec s f,
    v = PDict [(PStr "seconds_modified", sec); (PStr "datetime_string", PStr s);
               (PStr "epoch_time", PFloat f)] /\
    match sec with PInt _ | PFloat _ => True | _ => False end.

(** The fields [seconds_modified] and [datetime_string] of a result. *)
Definition result_fields (r : result pyval) : option (pyval * pyval) :=
  match r with
  | Ok (PDict [(_, s); (_, d); _]) => Some (s, d)
  | _ => None
  end.

(** ** Lemmas *)

Lemma truthy_str s : s <> "" -> truthy (PStr s) = true.
Proof. destruct s; [congruence | reflexivity]. Qed.

Lemma default_format_str s : s <> "" -> default_format (PStr s) = PStr s.
Proof. intros H. unfold default_format. now rewrite truthy_str. Qed.

Lemma conversions_get_spec u m :
  conversions_get u = Some m -> unit_in_list (PStr u) = true /\ (m =? 0)%Z = false.
Proof.
  unfold conversions_get. destruct (find _ conversions) as [[k v]|] eqn:Hf; [|discriminate].
  cbn. intros H. injection H as <-.
  apply find_some in Hf as [Hin Heq]. cbn in Heq. apply String.eqb_eq in Heq. subst k.
  repeat destruct Hin as [Hin|Hin]; try (injection Hin as <- <-; split; reflexivity); destruct Hin.
Qed.

(** The four units of the list are the four keys of [conversions]. *)
Lemma unit_in_list_conversions v :
  unit_in_list v = true ->
  exists u m, v = PStr u /\ conversions_get u = Some m /\ (m =? 0)%Z = false.
Proof.
  intros H. destruct v; try discriminate H. rename s into u. exists u.
  unfold unit_in_list in H. cbn [valid_units existsb] in H.
  destruct (u =? "seconds") eqn:E1; [apply String.eqb_eq in E1; subst u; now exists 1%Z|].
  destruct (u =? "minutes") eqn:E2; [apply String.eqb_eq in E2; subst u; now exists 60%Z|].
  destruct (u =? "hours") eqn:E3; [apply String.eqb_eq in E3; subst u; now exists 3600%Z|].
  destruct (u =? "days") eqn:E4; [apply String.eqb_eq in E4; subst u; now exists 86400%Z|].
  discriminate.
Qed.

(** The multipliers of [conversions]. *)
Lemma conversions_get_values u m :
  conversions_get u = Some m -> (m = 1 \/ m = 60 \/ m = 3600 \/ m = 86400)%Z.
Proof.
  unfold conversions_get. destruct (find _ conversions) as [[k v]|] eqn:Hf; [|discriminate].
  cbn. intros H. injection H as <-. apply find_some in Hf as [Hin _].
  repeat destruct Hin as [Hin|Hin]; try (injection Hin as _ <-; lia); destruct Hin.
Qed.

Lemma num_mul_serializable a m : is_int a || is_float a = true -> json_serializable (num_mul a m) = true.
Proof. destruct a; try discriminate; reflexivity. Qed.

Lemma is_numeric_not a : is_int a || is_float a = true -> negb (is_int a) && negb (is_float a) = false.
Proof. destruct (is_int a), (is_float a); easy. Qed.

Lemma is_numeric_of_not a : negb (is_int a) && negb (is_float a) = false -> is_int a || is_float a = true.
Proof. destruct (is_int a), (is_float a); easy. Qed.

Lemma arg_str_exc fname idx v :
  res_only (fun e => exc_kind e = TypeError /\ is_pystr v = false) (arg_str fname idx v).
Proof. destruct v; cbn; first [apply ok_res_only | apply fail_res_only; split; reflexivity]. Qed.

Lemma default_format_bad v : is_pystr (default_format v) = false -> bad_arg v = true.
Proof. unfold default_format, bad_arg. destruct (truthy v); cbn; [intros ->; reflexivity | discriminate]. Qed.

Lemma lib_dm_exc {A} args (r : result A) : res_only lib_exc r -> res_only (dm_exc args) r.
Proof. apply res_only_weaken. intros e H. left. exact H. Qed.

(** [strftime] and [strptime] on Python values: a [TypeError] names an
    argument that is not a [str]. *)
Lemma py_strftime_exc dt format :
  res_only (fun e => lib_exc e \/ (exc_kind e = TypeError /\ is_pystr format = false)) (py_strftime dt format).
Proof.
  unfold py_strftime. apply rbind_res_only.
  - eapply res_only_weaken; [|apply arg_str_exc]. intros e; cbn; tauto.
  - intros fs. eapply res_only_weaken; [|apply strftime_exc]. intros e; cbn; tauto.
Qed.

Lemma py_strptime_exc ds fs :
  res_only (fun e => lib_exc e \/ (exc_kind e = TypeError /\ (is_pystr ds = false \/ is_pystr fs = false)))
           (py_strptime ds fs).
Proof.
  unfold py_strptime. apply rbind_res_only; [|intros s; apply rbind_res_only; [|intros f]].
  - eapply res_only_weaken; [|apply arg_str_exc]. intros e; cbn; tauto.
  - eapply res_only_weaken; [|apply arg_str_exc]. intros e; cbn; tauto.
  - eapply res_only_weaken; [|apply strptime_exc]. intros e; cbn; tauto.
Qed.

(** ** The input only matters through [strptime] *)

(** Two input strings that [strptime] parses alike give the same run. *)
Lemma datetime_modify_same_parse now ds1 ds2 fs u a fo :
  ds1 <> "" -> ds2 <> "" ->
  py_strptime (PStr ds1) (default_format fs) = py_strptime (PStr ds2) (default_format fs) ->
  run (datetime_modify now (PStr ds1) fs u a fo) = run (datetime_modify now (PStr ds2) fs u a fo).
Proof.
  intros H1 H2 H. unfold datetime_modify, run. rewrite (truthy_str ds1 H1), (truthy_str ds2 H2).
  cbn [bind ret]. rewrite H. reflexivity.
Qed.

(** An input [strptime] rejects: the call raises its error, before
    anything is logged. *)
Lemma datetime_modify_input_error now ds fs u a fo e :
  ds <> "" -> py_strptime (PStr ds) (default_format fs) = Err e ->
  run (datetime_modify now (PStr ds) fs u a fo) = (Err e, []).
Proof.
  intros H1 H. unfold datetime_modify, run. rewrite (truthy_str ds H1).
  cbn [bind ret of_result]. rewrite H. reflexivity.
Qed.

(** ** The function against the reference semantics *)

(** The whole run on a parsable input, a valid unit and a numeric
    amount: the result and the debug log, message by message. *)
Lemma datetime_modify_trace now ds fs u a fo p m :
  ds <> "" -> fs <> "" -> fo <> "" ->
  strptime ds fs = Ok p -> conversions_get u = Some m ->
  is_int (default_amount a) || is_float (default_amount a) = true ->
  run (datetime_modify now (PStr ds) (PStr fs) (PStr u) a (PStr fo)) =
  let amount := default_amount a in
  let seconds := num_mul amount m in
  let shift := if num_negative seconds
               then LSubtracting (num_mul amount (-1)) u (num_mul seconds (-1))
               else LAdding amount u seconds in
  match delta_new_seconds (to_pynum seconds) with
  | Err e => (Err e, [LParsed p; shift])
  | Ok td =>
      let n := (to_us p + delta_to_microseconds td)%Z in
      if in_range_us n then
        match strftime (from_us n) fo with
        | Ok s => (Ok (PDict [(PStr "seconds_modified", seconds); (PStr "datetime_string", PStr s);
                              (PStr "epoch_time", PFloat (int_true_divide (n - to_us utc_epoch) US_PER_SECOND))]),
                   [LParsed p; shift; LAddingDelta p td; LUnformatted (from_us n); LFormatted s])
        | Err e => (Err e, [LParsed p; shift; LAddingDelta p td; LUnformatted (from_us n)])
        end
      else (date_out_of_range, [LParsed p; shift; LAddingDelta p td])
  end.
Proof.
  intros Hds Hfs Hfo Hp Hm Hnum.
  destruct (conversions_get_spec u m Hm) as [Hu Hm0].
  unfold datetime_modify, run. rewrite !default_format_str by assumption.
  rewrite (truthy_str ds Hds).
  cbn [bind ret of_result debug py_strptime arg_str rbind default_unit]. rewrite Hp.
  cbn [bind ret of_result debug]. rewrite Hu, Hm, Hm0, (is_numeric_not _ Hnum).
  pose proof (num_mul_serializable _ m Hnum) as Hser.
  pose proof (strptime_valid _ _ _ Hp) as Hv.
  cbn [negb app].
  destruct (num_negative (num_mul (default_amount a) m)); cbn [bind debug of_result app];
  (destruct (delta_new_seconds (to_pynum (num_mul (default_amount a) m))) as [td|e]; [|reflexivity]);
  cbn [bind debug of_result app];
  rewrite (add_datetime_timedelta_us p td 1 Hv), Z.mul_1_l; cbv zeta;
  (destruct (in_range_us (to_us p + delta_to_microseconds td)) eqn:Hr; [|reflexivity]);
  cbn [bind debug of_result py_strftime arg_str rbind app];
  (destruct (strftime (from_us (to_us p + delta_to_microseconds td)) fo) as [s|e]; [|reflexivity]);
  cbn [bind debug of_result app];
  destruct (from_us_correct _ Hr) as [Hv' Hus];
  destruct (datetime_subtract_us _ utc_epoch Hv' eq_refl) as [td' [Hsub [_ Htd']]];
  rewrite Hsub; cbn [bind debug of_result app];
  unfold assert_json; cbn [app json_serializable]; rewrite Hser; cbn [andb ret];
  unfold total_seconds; rewrite Htd', Hus; reflexivity.
Qed.

(** The result alone. *)
Lemma datetime_modify_run now ds fs u a fo p m :
  ds <> "" -> fs <> "" -> fo <> "" ->
  strptime ds fs = Ok p -> conversions_get u = Some m ->
  is_int (default_amount a) || is_float (default_amount a) = true ->
  fst (run (datetime_modify now (PStr ds) (PStr fs) (PStr u) a (PStr fo))) =
  let seconds := num_mul (default_amount a) m in
  match delta_new_seconds (to_pynum seconds) with
  | Err e => Err e
  | Ok td =>
      let n := (to_us p + delta_to_microseconds td)%Z in
      if in_range_us n then
        match strftime (from_us n) fo with
        | Ok s => Ok (PDict [(PStr "seconds_modified", seconds); (PStr "datetime_string", PStr s);
                             (PStr "epoch_time", PFloat (int_true_divide (n - to_us utc_epoch) US_PER_SECOND))])
        | Err e => Err e
        end
      else date_out_of_range
  end.
Proof.
  intros. rewrite (datetime_modify_trace now ds fs u a fo p m) by assumption. cbv zeta.
  destruct (delta_new_seconds _) as [td|e]; [|reflexivity].
  destruct (in_range_us _); [|reflexivity]. destruct (strftime _ _); reflexivity.
Qed.

(** C1. [datetime_modify] on a parsable input, a valid unit and a numeric
    amount: the result is the datetime whose count of microseconds is the
    parsed one plus the timedelta's, formatted with the output format,
    with [seconds_modified = amount * multiplier] and the epoch time the
    difference of counts divided by [10 ^ 6] (correctly rounded);
    [OverflowError] when the sum leaves the range of [datetime]; and the
    error of [timedelta(seconds=...)] or of [strftime] when they fail. *)
Theorem datetime_modify_spec now ds fs u a fo p m :
  ds <> "" -> fs <> "" -> fo <> "" ->
  strptime ds fs = Ok p -> conversions_get u = Some m ->
  is_int (default_amount a) || is_float (default_amount a) = true ->
  fst (run (datetime_modify now (PStr ds) (PStr fs) (PStr u) a (PStr fo))) =
  let seconds := num_mul (default_amount a) m in
  match delta_new_seconds (to_pynum seconds) with
  | Err e => Err e
  | Ok td =>
      let n := (to_us p + delta_to_microseconds td)%Z in
      if in_range_us n then
        match strftime (from_us n) fo with
        | Ok s => Ok (PDict [(PStr "seconds_modified", seconds); (PStr "datetime_string", PStr s);
                             (PStr "epoch_time", PFloat (int_true_divide (n - to_us utc_epoch) US_PER_SECOND))])
        | Err e => Err e
        end
      else date_out_of_range
  end.
Proof. exact (datetime_modify_run now ds fs u a fo p m). Qed.

(** ** Consequences and error paths *)

(** C27. An amount of zero, or any false value ([None], [False], [0.0],
    [""]), is a shift by nothing: [seconds_modified] is the [int] [0] and
    the output is the parsed datetime formatted with the output format. *)
Theorem datetime_modify_zero_noop now ds fs u a fo p m :
  ds <> "" -> fs <> "" -> fo <> "" ->
  strptime ds fs = Ok p -> conversions_get u = Some m -> truthy a = false ->
  fst (run (datetime_modify now (PStr ds) (PStr fs) (PStr u) a (PStr fo))) =
  match strftime p fo with
  | Ok s => Ok (PDict [(PStr "seconds_modified", PInt 0); (PStr "datetime_string", PStr s);
                       (PStr "epoch_time", PFloat (int_true_divide (to_us p - to_us utc_epoch) US_PER_SECOND))])
  | Err e => Err e
  end.
Proof.
  intros Hds Hfs Hfo Hp Hm Ha.
  assert (Hz : default_amount a = PInt 0) by (unfold default_amount; now rewrite Ha).
  rewrite (datetime_modify_run now ds fs u a fo p m Hds Hfs Hfo Hp Hm) by (now rewrite Hz).
  rewrite Hz. cbv zeta. cbn [num_mul to_pynum]. rewrite Z.mul_0_l.
  replace (delta_new_seconds (NInt 0)) with (Ok (mk_timedelta 0 0 0)) by reflexivity.
  cbn [delta_to_microseconds td_days td_seconds td_microseconds]. rewrite Z.add_0_r.
  destruct (to_us_correct p (strptime_valid _ _ _ Hp)) as [-> ->]. reflexivity.
Qed.

(** C25. A unit other than [seconds], [minutes], [hours] or [days] ([None]
    standing for [minutes]) raises [ValueError], after the input has been
    parsed and logged and before anything else happens. *)
Theorem datetime_modify_invalid_unit now ds fs u a fo p :
  ds <> "" -> fs <> "" -> strptime ds fs = Ok p -> unit_in_list (default_unit u) = false ->
  run (datetime_modify now (PStr ds) (PStr fs) u a fo)
  = (Err (mk_exc ValueError "invalid modification_unit. must be either seconds, minutes, hours, or days."),
     [LParsed p]).
Proof.
  intros Hds Hfs Hp Hu. unfold datetime_modify, run. rewrite default_format_str, truthy_str by assumption.
  cbn [bind ret of_result debug py_strptime arg_str rbind]. rewrite Hp.
  cbn [bind ret of_result debug]. rewrite Hu. reflexivity.
Qed.

(** C26. An amount that is neither an [int] (a [bool] included) nor a
    [float], after a false value has been replaced by [0], raises
    [ValueError] once the input is parsed and the unit accepted. *)
Theorem datetime_modify_invalid_amount now ds fs u a fo p :
  ds <> "" -> fs <> "" -> strptime ds fs = Ok p -> unit_in_list (default_unit u) = true ->
  is_int (default_amount a) || is_float (default_amount a) = false ->
  run (datetime_modify now (PStr ds) (PStr fs) u a fo)
  = (Err (mk_exc ValueError "invalid amount_to_modify. must be an int or float"), [LParsed p]).
Proof.
  intros Hds Hfs Hp Hu Ha. unfold datetime_modify, run. rewrite default_format_str, truthy_str by assumption.
  cbn [bind ret of_result debug py_strptime arg_str rbind]. rewrite Hp.
  cbn [bind ret of_result debug]. rewrite Hu. cbn [negb].
  replace (negb (is_int (default_amount a)) && negb (is_float (default_amount a))) with true
    by (destruct (is_int (default_amount a)), (is_float (default_amount a)); easy).
  reflexivity.
Qed.



(** C2. [datetime_modify] raises only what the library code raises
    ([ValueError], [OverflowError], [re.error]) and a [TypeError] when one
    of [input_datetime], [input_format_string], [output_format_string] is
    a true value that is not a [str]: the [KeyError] of the unit
    conversion is unreachable and the JSON assertion on the outputs never
    fails. *)
Theorem datetime_modify_exceptions now i fi u a fo :
  raises_only (dm_exc [i; fi; fo]) (datetime_modify now i fi u a fo).
Proof.
  unfold datetime_modify.
  apply bind_raises_only_post with (Q := fun v => is_pystr v = false -> bad_arg i = true).
  - destruct (truthy i); [apply ret_raises_only|].
    apply bind_raises_only; [apply of_result_raises_only | intros; apply ret_raises_only].
    eapply res_only_weaken; [|apply py_strftime_exc].
    intros e [H|[Ht Hs]]; [left; exact H | right; split; [exact Ht|]].
    cbn. rewrite (default_format_bad _ Hs). apply orb_true_r.
  - destruct (truthy i) eqn:Hi.
    + apply ret_returns. intros H. unfold bad_arg. now rewrite Hi, H.
    + apply bind_returns with (Q1 := fun _ => True); [intros ? ? ? _; exact I|].
      intros s _. apply ret_returns. discriminate.
  - intros v Hv. apply bind_raises_only; [apply of_result_raises_only | intros p].
    { eapply res_only_weaken; [|apply py_strptime_exc].
      intros e [H|[Ht [Hs|Hs]]]; [left; exact H | ..]; right; split; [exact Ht | | exact Ht |].
      - cbn. now rewrite (Hv Hs).
      - cbn. rewrite (default_format_bad _ Hs). now rewrite orb_true_r. }
    apply bind_raises_only; [apply debug_raises_only | intros _].
    destruct (negb (unit_in_list (default_unit u))) eqn:Hu;
      [apply raise_raises_only; left; exc_goal|].
    apply negb_false_iff in Hu.
    destruct (unit_in_list_conversions _ Hu) as (un & m & Heq & Hm & Hm0). rewrite Heq.
    cbv beta iota zeta.
    destruct (negb (is_int (default_amount a)) && negb (is_float (default_amount a))) eqn:Ha;
      [apply raise_raises_only; left; exc_goal|].
    rewrite Hm, Hm0.
    apply bind_raises_only; [destruct (num_negative _); apply debug_raises_only | intros _].
    apply bind_raises_only; [apply of_result_raises_only, lib_dm_exc, delta_new_seconds_exc | intros td].
    apply bind_raises_only; [apply debug_raises_only | intros _].
    apply bind_raises_only; [apply of_result_raises_only, lib_dm_exc, add_datetime_timedelta_exc | intros r].
    apply bind_raises_only; [apply debug_raises_only | intros _].
    apply bind_raises_only; [apply of_result_raises_only | intros str].
    { eapply res_only_weaken; [|apply py_strftime_exc].
      intros e [H|[Ht Hs]]; [left; exact H | right; split; [exact Ht|]].
      cbn. rewrite (default_format_bad _ Hs). now rewrite !orb_true_r. }
    apply bind_raises_only; [apply debug_raises_only | intros _].
    apply bind_raises_only; [apply of_result_raises_only, lib_dm_exc, datetime_subtract_exc | intros d].
    apply bind_raises_only; [| intros _; apply ret_raises_only].
    unfold assert_json. cbn [app json_serializable].
    rewrite (num_mul_serializable _ m (is_numeric_of_not _ Ha)). apply ret_raises_only.
Qed.

(** C7. The debug log of a successful call: exactly five messages, in
    the order of the source: the parsed datetime, the shift ("subtracting"
    with the negated amount and seconds when the seconds are negative,
    "adding" otherwise), the datetime and the timedelta being added, the
    unformatted result and the formatted string, which is the returned
    [datetime_string]. *)
Theorem datetime_modify_log_order now ds fs u a fo p m v :
  ds <> "" -> fs <> "" -> fo <> "" ->
  strptime ds fs = Ok p -> conversions_get u = Some m ->
  is_int (default_amount a) || is_float (default_amount a) = true ->
  fst (run (datetime_modify now (PStr ds) (PStr fs) (PStr u) a (PStr fo))) = Ok v ->
  let amount := default_amount a in
  let seconds := num_mul amount m in
  exists td s,
    snd (run (datetime_modify now (PStr ds) (PStr fs) (PStr u) a (PStr fo))) =
    [LParsed p;
     if num_negative seconds then LSubtracting (num_mul amount (-1)) u (num_mul seconds (-1))
     else LAdding amount u seconds;
     LAddingDelta p td; LUnformatted (from_us (to_us p + delta_to_microseconds td)); LFormatted s] /\
    result_fields (Ok v) = Some (seconds, PStr s).
Proof.
  intros Hds Hfs Hfo Hp Hm Hnum Hok.
  rewrite (datetime_modify_trace now ds fs u a fo p m) in * by assumption. cbv zeta in *.
  destruct (delta_new_seconds _) as [td|e]; [|discriminate Hok].
  destruct (in_range_us _); [|discriminate Hok].
  destruct (strftime _ _) as [s|e]; [|discriminate Hok].
  injection Hok as <-. exists td, s. split; reflexivity.
Qed.

(** C6. The type of the output: every value [datetime_modify] returns
    is the dict [{'seconds_modified': ..., 'datetime_string': ...,
    'epoch_time': ...}] with an [int] or a [float] number of seconds (a
    [bool] amount gives an [int]), a [str] and a [float]. *)
Theorem datetime_modify_output_type now i fi u a fo :
  returns dm_output (datetime_modify now i fi u a fo).
Proof.
  unfold datetime_modify. returns_tac.
  match goal with H : negb (is_int ?x) && negb (is_float ?x) = false |- _ =>
    apply is_numeric_of_not in H; destruct x; try discriminate H end;
  do 3 eexists; (split; [reflexivity | exact I]).
Qed.

(** C5. The bounds of an [int] amount: when [amount * multiplier // 86400]
    days exceed [999999999] in magnitude, [datetime_modify] raises
    [OverflowError] from [timedelta], after logging the parse and the
    shift; the message is the one of [_PyLong_AsInt] when the day count
    does not fit a 32-bit C [int], and the range message of [timedelta]
    otherwise. *)
Theorem datetime_modify_int_overflow now ds fs u n fo p m :
  ds <> "" -> fs <> "" -> fo <> "" ->
  strptime ds fs = Ok p -> conversions_get u = Some m -> n <> 0%Z ->
  let d := (n * m / SECONDS_PER_DAY)%Z in
  ~ (- MAX_DELTA_DAYS <= d <= MAX_DELTA_DAYS)%Z ->
  fst (run (datetime_modify now (PStr ds) (PStr fs) (PStr u) (PInt n) (PStr fo))) =
  Err (mk_exc OverflowError
         (if (INT_MIN <=? d) && (d <=? INT_MAX)
          then "days=" ++ str_of_Z d ++ "; must have magnitude <= 999999999"
          else "Python int too large to convert to C int"))%Z.
Proof.
  intros Hds Hfs Hfo Hp Hm Hn d Hd.
  assert (Ha : default_amount (PInt n) = PInt n)
    by (unfold default_amount; cbn; now rewrite (proj2 (Z.eqb_neq n 0) Hn)).
  rewrite (datetime_modify_run now ds fs u (PInt n) fo p m) by (try assumption; now rewrite Ha).
  cbv zeta. rewrite Ha. cbn [num_mul to_pynum].
  replace (delta_new_seconds (NInt (n * m))) with (microseconds_to_delta (n * m * US_PER_SECOND))
    by reflexivity.
  assert (E : (n * m * US_PER_SECOND / US_PER_DAY = d)%Z)
    by (unfold d, US_PER_DAY; apply Z.div_mul_cancel_r; unfold US_PER_SECOND, SECONDS_PER_DAY; lia).
  pose proof (microseconds_to_delta_overflow (n * m * US_PER_SECOND)) as H. cbv zeta in H.
  rewrite E in H. rewrite (H Hd). reflexivity.
Qed.

(** C20. A [bool] amount passes the validation ([isinstance(True, int)]
    holds, although the spec says booleans are rejected) and counts as
    the [int] [1] or [0]: the result of the call is the one of the same
    call with that [int]. *)
Theorem datetime_modify_bool_amount now ds fs u b fo p m :
  ds <> "" -> fs <> "" -> fo <> "" ->
  strptime ds fs = Ok p -> conversions_get u = Some m ->
  fst (run (datetime_modify now (PStr ds) (PStr fs) (PStr u) (PBool b) (PStr fo))) =
  fst (run (datetime_modify now (PStr ds) (PStr fs) (PStr u) (PInt (Z.b2z b)) (PStr fo))).
Proof.
  intros Hds Hfs Hfo Hp Hm.
  rewrite (datetime_modify_run now ds fs u (PBool b) fo p m) by (try assumption; destruct b; reflexivity).
  rewrite (datetime_modify_run now ds fs u (PInt (Z.b2z b)) fo p m) by (try assumption; destruct b; reflexivity).
  destruct b; reflexivity.
Qed.

(** C31. A NaN or infinite [float] amount passes the validation (it is a
    [float]) and fails in [timedelta(seconds=...)], for every unit: NaN
    with [ValueError], an infinity with [OverflowError] (the spec
    expects a validation error). *)
Theorem datetime_modify_nonfinite_amount now ds fs u fo p m :
  ds <> "" -> fs <> "" -> fo <> "" ->
  strptime ds fs = Ok p -> conversions_get u = Some m ->
  fst (run (datetime_modify now (PStr ds) (PStr fs) (PStr u) (PFloat S754_nan) (PStr fo)))
    = Err (mk_exc ValueError "cannot convert float NaN to integer") /\
  forall sg, fst (run (datetime_modify now (PStr ds) (PStr fs) (PStr u) (PFloat (S754_infinity sg)) (PStr fo)))
    = Err (mk_exc OverflowError "cannot convert float infinity to integer").
Proof.
  intros Hds Hfs Hfo Hp Hm. pose proof (conversions_get_values u m Hm) as Hv.
  split; [|intros sg].
  - rewrite (datetime_modify_run now ds fs u (PFloat S754_nan) fo p m) by (try assumption; reflexivity).
    destruct Hv as [->|[->|[->| ->]]]; vm_compute; reflexivity.
  - rewrite (datetime_modify_run now ds fs u (PFloat (S754_infinity sg)) fo p m)
      by (try assumption; reflexivity).
    destruct Hv as [->|[->|[->| ->]]]; destruct sg; vm_compute; reflexivity.
Qed.

(** ** Behaviours on concrete inputs *)

Definition now0 : datetime := mk_datetime 2024 5 6 7 8 9 123456.


(** Without an input datetime, the current time is formatted with the
    input format and parsed back: with a format without a date, the date
    becomes 1900-01-01 and the seconds are lost. *)
Example datetime_modify_now_time_only :
  result_fields (fst (run (datetime_modify now0 PNone (PStr "%H:%M") PNone PNone PNone)))
  = Some (PInt 0, PStr "1900-01-01T07:08:00.000000Z").
Proof. vm_compute. reflexivity. Qed.

(** A format that repeats a directive makes [strptime] raise
    [re.error], not [ValueError]. *)
Example datetime_modify_repeated_directive :
  fst (run (datetime_modify now0 (PStr "2024 2024") (PStr "%Y %Y") PNone PNone PNone))
  = Err (mk_exc ReError "redefinition of group name 'Y' as group 2; was group 1 at position 22").
Proof. vm_compute. reflexivity. Qed.

(** ** Witnesses *)

Definition in0 : string := "2024-01-31T10:00:00.000000Z".
Definition p0 : datetime := mk_datetime 2024 1 31 10 0 0 0.

Definition run0_value : pyval :=
  match fst (run (datetime_modify now0 (PStr in0) (PStr DEFAULT_FORMAT) (PStr "minutes") (PInt (-90))
                    (PStr DEFAULT_FORMAT))) with Ok v => v | Err _ => PNone end.

Lemma datetime_modify_log_order_witness :
  exists td s,
    snd (run (datetime_modify now0 (PStr in0) (PStr DEFAULT_FORMAT) (PStr "minutes") (PInt (-90))
                (PStr DEFAULT_FORMAT))) =
    [LParsed p0; LSubtracting (PInt 90) "minutes" (PInt 5400); LAddingDelta p0 td;
     LUnformatted (from_us (to_us p0 + delta_to_microseconds td)); LFormatted s] /\
    result_fields (Ok run0_value) = Some (PInt (-5400), PStr s).
Proof.
  exact (datetime_modify_log_order now0 in0 DEFAULT_FORMAT "minutes" (PInt (-90)) DEFAULT_FORMAT p0 60
           run0_value ltac:(discriminate) ltac:(discriminate) ltac:(discriminate)
           ltac:(vm_compute; reflexivity) eq_refl eq_refl ltac:(vm_compute; reflexivity)).
Defined.

Lemma datetime_modify_int_overflow_witness :
  fst (run (datetime_modify now0 (PStr in0) (PStr DEFAULT_FORMAT) (PStr "days") (PInt 3000000000)
              (PStr DEFAULT_FORMAT)))
  = Err (mk_exc OverflowError "Python int too large to convert to C int") /\
  fst (run (datetime_modify now0 (PStr in0) (PStr DEFAULT_FORMAT) (PStr "days") (PInt 1000000000)
              (PStr DEFAULT_FORMAT)))
  = Err (mk_exc OverflowError "days=1000000000; must have magnitude <= 999999999").
Proof.
  split.
  - exact (datetime_modify_int_overflow now0 in0 DEFAULT_FORMAT "days" 3000000000 DEFAULT_FORMAT p0 86400
             ltac:(discriminate) ltac:(discriminate) ltac:(discriminate) ltac:(vm_compute; reflexivity)
             eq_refl ltac:(discriminate) ltac:(intros [_ H]; vm_compute in H; exact (H eq_refl))).
  - exact (datetime_modify_int_overflow now0 in0 DEFAULT_FORMAT "days" 1000000000 DEFAULT_FORMAT p0 86400
             ltac:(discriminate) ltac:(discriminate) ltac:(discriminate) ltac:(vm_compute; reflexivity)
             eq_refl ltac:(discriminate) ltac:(intros [_ H]; vm_compute in H; exact (H eq_refl))).
Defined.

Lemma datetime_modify_spec_witness :
  in0 <> "" /\ DEFAULT_FORMAT <> "" /\ strptime in0 DEFAULT_FORMAT = Ok p0 /\
  conversions_get "minutes" = Some 60%Z /\
  result_fields (fst (run (datetime_modify now0 (PStr in0) (PStr DEFAULT_FORMAT) (PStr "minutes")
                             (PInt 90) (PStr DEFAULT_FORMAT))))
  = Some (PInt 5400, PStr "2024-01-31T11:30:00.000000Z").
Proof.
  assert (H1 : in0 <> "") by discriminate. assert (H2 : DEFAULT_FORMAT <> "") by discriminate.
  assert (H3 : strptime in0 DEFAULT_FORMAT = Ok p0) by (vm_compute; reflexivity).
  assert (H4 : conversions_get "minutes" = Some 60%Z) by reflexivity.
  refine (conj H1 (conj H2 (conj H3 (conj H4 _)))).
  rewrite (datetime_modify_spec now0 in0 DEFAULT_FORMAT "minutes" (PInt 90) DEFAULT_FORMAT p0 60
             H1 H2 H2 H3 H4 eq_refl).
  vm_compute. reflexivity.
Defined.

Lemma datetime_modify_zero_noop_witness :
  in0 <> "" /\ DEFAULT_FORMAT <> "" /\ strptime in0 DEFAULT_FORMAT = Ok p0 /\
  conversions_get "hours" = Some 3600%Z /\ truthy (PFloat (S754_zero true)) = false /\
  result_fields (fst (run (datetime_modify now0 (PStr in0) (PStr DEFAULT_FORMAT) (PStr "hours")
                             (PFloat (S754_zero true)) (PStr DEFAULT_FORMAT))))
  = Some (PInt 0, PStr in0).
Proof.
  assert (H1 : in0 <> "") by discriminate. assert (H2 : DEFAULT_FORMAT <> "") by discriminate.
  assert (H3 : strptime in0 DEFAULT_FORMAT = Ok p0) by (vm_compute; reflexivity).
  assert (H4 : conversions_get "hours" = Some 3600%Z) by reflexivity.
  assert (H5 : truthy (PFloat (S754_zero true)) = false) by reflexivity.
  refine (conj H1 (conj H2 (conj H3 (conj H4 (conj H5 _))))).
  rewrite (datetime_modify_zero_noop now0 in0 DEFAULT_FORMAT "hours" (PFloat (S754_zero true))
             DEFAULT_FORMAT p0 3600 H1 H2 H2 H3 H4 H5).
  vm_compute. reflexivity.
Defined.

Lemma datetime_modify_invalid_unit_witness :
  in0 <> "" /\ DEFAULT_FORMAT <> "" /\ strptime in0 DEFAULT_FORMAT = Ok p0 /\
  unit_in_list (default_unit (PStr "fortnights")) = false /\
  run (datetime_modify now0 (PStr in0) (PStr DEFAULT_FORMAT) (PStr "fortnights") (PInt 1) PNone)
  = (Err (mk_exc ValueError "invalid modification_unit. must be either seconds, minutes, hours, or days."),
     [LParsed p0]).
Proof.
  assert (H1 : in0 <> "") by discriminate. assert (H2 : DEFAULT_FORMAT <> "") by discriminate.
  assert (H3 : strptime in0 DEFAULT_FORMAT = Ok p0) by (vm_compute; reflexivity).
  assert (H4 : unit_in_list (default_unit (PStr "fortnights")) = false) by reflexivity.
  refine (conj H1 (conj H2 (conj H3 (conj H4 _)))).
  exact (datetime_modify_invalid_unit now0 in0 DEFAULT_FORMAT (PStr "fortnights") (PInt 1) PNone p0
           H1 H2 H3 H4).
Defined.

Lemma datetime_modify_invalid_amount_witness :
  in0 <> "" /\ DEFAULT_FORMAT <> "" /\ strptime in0 DEFAULT_FORMAT = Ok p0 /\
  unit_in_list (default_unit PNone) = true /\
  is_int (default_amount (PStr "5")) || is_float (default_amount (PStr "5")) = false /\
  run (datetime_modify now0 (PStr in0) (PStr DEFAULT_FORMAT) PNone (PStr "5") PNone)
  = (Err (mk_exc ValueError "invalid amount_to_modify. must be an int or float"), [LParsed p0]).
Proof.
  assert (H1 : in0 <> "") by discriminate. assert (H2 : DEFAULT_FORMAT <> "") by discriminate.
  assert (H3 : strptime in0 DEFAULT_FORMAT = Ok p0) by (vm_compute; reflexivity).
  assert (H4 : unit_in_list (default_unit PNone) = true) by reflexivity.
  assert (H5 : is_int (default_amount (PStr "5")) || is_float (default_amount (PStr "5")) = false)
    by reflexivity.
  refine (conj H1 (conj H2 (conj H3 (conj H4 (conj H5 _))))).
  exact (datetime_modify_invalid_amount now0 in0 DEFAULT_FORMAT PNone (PStr "5") PNone p0 H1 H2 H3 H4 H5).
Defined.

Lemma datetime_modify_bool_amount_witness :
  result_fields (fst (run (datetime_modify now0 (PStr in0) (PStr DEFAULT_FORMAT) (PStr "minutes")
                             (PBool true) (PStr DEFAULT_FORMAT))))
  = Some (PInt 60, PStr "2024-01-31T10:01:00.000000Z").
Proof.
  rewrite (datetime_modify_bool_amount now0 in0 DEFAULT_FORMAT "minutes" true DEFAULT_FORMAT p0 60
             ltac:(discriminate) ltac:(discriminate) ltac:(discriminate)
             ltac:(vm_compute; reflexivity) eq_refl).
  vm_compute. reflexivity.
Defined.

Lemma datetime_modify_nonfinite_amount_witness :
  fst (run (datetime_modify now0 (PStr in0) (PStr DEFAULT_FORMAT) (PStr "hours") (PFloat S754_nan)
              (PStr DEFAULT_FORMAT)))
    = Err (mk_exc ValueError "cannot convert float NaN to integer") /\
  forall sg, fst (run (datetime_modify now0 (PStr in0) (PStr DEFAULT_FORMAT) (PStr "hours")
                         (PFloat (S754_infinity sg)) (PStr DEFAULT_FORMAT)))
    = Err (mk_exc OverflowError "cannot convert float infinity to integer").
Proof.
  exact (datetime_modify_nonfinite_amount now0 in0 DEFAULT_FORMAT "hours" DEFAULT_FORMAT p0 3600
           ltac:(discriminate) ltac:(discriminate) ltac:(discriminate)
           ltac:(vm_compute; reflexivity) eq_refl).
Defined.

End DatetimeModify.
