(* ===== verification/FormatRoundtrip.v ===== *)
(** The default format of [datetime_modify.py], ["%Y-%m-%dT%H:%M:%S.%fZ"],
    printed by [datetime.strftime] and read back by [datetime.strptime]:
    the composition of [Strftime], of the [re] engine of [ReMatch] on the
    pattern [Strptime] compiles, and of [_strptime]'s conversions.

    The printed text is the list [subject dt]: four digits of the year,
    two of each other field, six of the microseconds.  [default_regex] is
    the parse tree [TimeRE.compile] gives the format (with [IGNORECASE],
    so the literals [T] and [Z] are lowered); each directive's group is
    matched by the rules of determinate matching in [ReMatch]
    ([matches_seq], [matches_alt_r], ...), the two-digit groups by a case
    analysis on the field's value.  The round trip needs a year of four
    digits: [str(year)] has fewer below 1000 and [%Y] does not match
    ([datetime_modify_year_below_1000]). *)

From Stdlib Require Import ZArith Bool List String Ascii NArith Lia.
From S2P Require Import Prelude PyValue PyStr ReSyntax ReMatch Calendar DateTime Timedelta Strftime Strptime DatetimeModify.
Import ListNotations.
Local Open Scope Z_scope.

Module FormatRoundtrip.
Import PyStr ReSyntax ReMatch Calendar DateTime Timedelta Strftime Strptime DatetimeModify.

(** ** The pattern of the default format *)

(** The parse tree of [TimeRE[c]]'s group body, lowered for
    [IGNORECASE]. *)
Definition directive_node (c : ascii) : node :=
  match time_re c with
  | Some text => match parse_body text with Ok n => icase n | Err _ => NEmpty end
  | None => NEmpty
  end.

Definition default_regex : node :=
  NSeq (NGroup (Some 1%nat) (directive_node "Y")) (NSeq (NLit "-")
  (NSeq (NGroup (Some 2%nat) (directive_node "m")) (NSeq (NLit "-")
  (NSeq (NGroup (Some 3%nat) (directive_node "d")) (NSeq (NLit "t")
  (NSeq (NGroup (Some 4%nat) (directive_node "H")) (NSeq (NLit ":")
  (NSeq (NGroup (Some 5%nat) (directive_node "M")) (NSeq (NLit ":")
  (NSeq (NGroup (Some 6%nat) (directive_node "S")) (NSeq (NLit ".")
  (NSeq (NGroup (Some 7%nat) (directive_node "f")) (NLit "z")))))))))))))%char.

Definition default_names : groups :=
  [("Y", 1); ("m", 2); ("d", 3); ("H", 4); ("M", 5); ("S", 6); ("f", 7)]%nat%char.

(** The text [strftime] prints for the default format, as characters. *)
Definition dchars (w : nat) (n : Z) : list ascii := map digit_char (fixed_digits w n).

Definition subject (dt : datetime) : list ascii :=
  (dchars 4 (year dt) ++ ["-"] ++ dchars 2 (month dt) ++ ["-"] ++ dchars 2 (day dt) ++ ["T"]
   ++ dchars 2 (hour dt) ++ [":"] ++ dchars 2 (minute dt) ++ [":"] ++ dchars 2 (second dt)
   ++ ["."] ++ dchars 6 (microsecond dt) ++ ["Z"])%list%char.

(** The text after the year. *)
Definition subject_tail (dt : datetime) : list ascii :=
  (["-"] ++ dchars 2 (month dt) ++ ["-"] ++ dchars 2 (day dt) ++ ["T"]
   ++ dchars 2 (hour dt) ++ [":"] ++ dchars 2 (minute dt) ++ [":"] ++ dchars 2 (second dt)
   ++ ["."] ++ dchars 6 (microsecond dt) ++ ["Z"])%list%char.

(** The captures of the match: group, start and end, the latest first. *)
Definition default_caps : caps :=
  [(7, (20, 26)); (6, (17, 19)); (5, (14, 16)); (4, (11, 13)); (3, (8, 10)); (2, (5, 7)); (1, (0, 4))]%nat.

(** ** The pattern *)

Lemma compile_default : compile DEFAULT_FORMAT = Ok (default_regex, default_names).
Proof. vm_compute. reflexivity. Qed.

Lemma directive_node_Y :
  directive_node "Y" = NSeq (NIn false [SCat CatDigit]) (NSeq (NIn false [SCat CatDigit])
                         (NSeq (NIn false [SCat CatDigit]) (NIn false [SCat CatDigit]))).
Proof. vm_compute. reflexivity. Qed.

Lemma directive_node_m :
  directive_node "m" = NAlt (NSeq (NLit "1") (NIn false [SRange "0" "2"]))
                         (NAlt (NSeq (NLit "0") (NIn false [SRange "1" "9"])) (NIn false [SRange "1" "9"])).
Proof. vm_compute. reflexivity. Qed.


Lemma directive_node_d :
  directive_node "d" = NAlt (NSeq (NLit "3") (NIn false [SRange "0" "1"]))
    (NAlt (NSeq (NIn false [SRange "1" "2"]) (NIn false [SCat CatDigit]))
    (NAlt (NSeq (NLit "0") (NIn false [SRange "1" "9"]))
    (NAlt (NIn false [SRange "1" "9"]) (NSeq (NLit " ") (NIn false [SRange "1" "9"]))))).
Proof. vm_compute. reflexivity. Qed.

Lemma directive_node_H :
  directive_node "H" = NAlt (NSeq (NLit "2") (NIn false [SRange "0" "3"]))
    (NAlt (NSeq (NIn false [SRange "0" "1"]) (NIn false [SCat CatDigit])) (NIn false [SCat CatDigit])).
Proof. vm_compute. reflexivity. Qed.

Lemma directive_node_M :
  directive_node "M" = NAlt (NSeq (NIn false [SRange "0" "5"]) (NIn false [SCat CatDigit]))
                         (NIn false [SCat CatDigit]).
Proof. vm_compute. reflexivity. Qed.

Lemma directive_node_S :
  directive_node "S" = NAlt (NSeq (NLit "6") (NIn false [SRange "0" "1"]))
    (NAlt (NSeq (NIn false [SRange "0" "5"]) (NIn false [SCat CatDigit])) (NIn false [SCat CatDigit])).
Proof. vm_compute. reflexivity. Qed.

Lemma directive_node_f : directive_node "f" = NRepeat true 1%N (Some 6%N) (NIn false [SRange "0" "9"]).
Proof. vm_compute. reflexivity. Qed.

(** ** Digits against the sets of the pattern *)

Lemma digit_sets d : 0 <= d < 10 ->
  in_set false [SCat CatDigit] (digit_char d) = true /\
  in_set false [SRange "0" "9"] (digit_char d) = true /\
  ascii_lower (digit_char d) = digit_char d.
Proof.
  intros Hd. pose proof (digit_char_cases d Hd) as H.
  repeat destruct H as [H|H]; try rewrite <- H; [..|destruct H]; repeat split; reflexivity.
Qed.

Lemma digit_in_cat x : in_set false [SCat CatDigit] (digit_char (x mod 10)) = true.
Proof. apply digit_sets, Z.mod_pos_bound. lia. Qed.

Lemma digit_in_range x : in_set false [SRange "0" "9"] (digit_char (x mod 10)) = true.
Proof. apply digit_sets, Z.mod_pos_bound. lia. Qed.

(** The value of a two-digit field ranges over a few cases. *)
Lemma Z_cases lo n v : lo <= v < lo + Z.of_nat n -> In v (map (fun k => lo + Z.of_nat k) (seq 0 n)).
Proof.
  intros H. apply in_map_iff. exists (Z.to_nat (v - lo)). split; [lia|]. apply in_seq. lia.
Qed.

(** Proves [matches] and [fails] goals on concrete characters from the
    [char_at] hypotheses of the context. *)
Ltac det_fail :=
  first [ eapply fails_lit; [eassumption | reflexivity]
        | eapply fails_in; [eassumption | reflexivity]
        | apply fails_seq; det_fail
        | apply fails_alt; det_fail ].

Ltac det_match :=
  first [ eapply matches_lit; eassumption
        | eapply matches_in; [eassumption | first [reflexivity | apply digit_in_cat]]
        | eapply matches_seq; [det_match | det_match]
        | apply matches_alt_l; det_match
        | apply matches_alt_r; [det_fail | det_match] ].

(** Two digits [v / 10 mod 10], [v mod 10] at [i] of the subject [s]. *)
Definition two_digits (s : list ascii) (i : nat) (v : Z) : Prop :=
  char_at s i = Some (digit_char (v / 10 mod 10)) /\ char_at s (S i) = Some (digit_char (v mod 10)).

Ltac two_digit_cases lo n v :=
  intros Hv [H1 H2];
  pose proof (Z_cases lo n v ltac:(lia)) as Hc; cbn in Hc;
  repeat destruct Hc as [<-|Hc]; try destruct Hc;
  cbv -[char_at] in H1, H2; det_match.

Lemma month_matches s i c v :
  1 <= v <= 12 -> two_digits s i v -> matches s (directive_node "m") i c (S (S i)) c.
Proof. rewrite directive_node_m. two_digit_cases 1 12%nat v. Qed.

Lemma day_matches s i c v :
  1 <= v <= 31 -> two_digits s i v -> matches s (directive_node "d") i c (S (S i)) c.
Proof. rewrite directive_node_d. two_digit_cases 1 31%nat v. Qed.

Lemma hour_matches s i c v :
  0 <= v < 24 -> two_digits s i v -> matches s (directive_node "H") i c (S (S i)) c.
Proof. rewrite directive_node_H. two_digit_cases 0 24%nat v. Qed.

Lemma minute_matches s i c v :
  0 <= v < 60 -> two_digits s i v -> matches s (directive_node "M") i c (S (S i)) c.
Proof. rewrite directive_node_M. two_digit_cases 0 60%nat v. Qed.

Lemma second_matches s i c v :
  0 <= v < 60 -> two_digits s i v -> matches s (directive_node "S") i c (S (S i)) c.
Proof. rewrite directive_node_S. two_digit_cases 0 60%nat v. Qed.


Lemma year_matches s i c x1 x2 x3 x4 :
  char_at s i = Some (digit_char (x1 mod 10)) -> char_at s (S i) = Some (digit_char (x2 mod 10)) ->
  char_at s (S (S i)) = Some (digit_char (x3 mod 10)) ->
  char_at s (S (S (S i))) = Some (digit_char (x4 mod 10)) ->
  matches s (directive_node "Y") i c (S (S (S (S i)))) c.
Proof. intros. rewrite directive_node_Y. det_match. Qed.

(** ** The printed text against the pattern *)

(** [IGNORECASE] lowers the subject: the digits stay, [T] and [Z] become
    [t] and [z]. *)
Definition lsubject (dt : datetime) : list ascii :=
  (dchars 4 (year dt) ++ ["-"] ++ dchars 2 (month dt) ++ ["-"] ++ dchars 2 (day dt) ++ ["t"]
   ++ dchars 2 (hour dt) ++ [":"] ++ dchars 2 (minute dt) ++ [":"] ++ dchars 2 (second dt)
   ++ ["."] ++ dchars 6 (microsecond dt) ++ ["z"])%list%char.

Lemma lower_dchars w n : map ascii_lower (dchars w n) = dchars w n.
Proof.
  unfold dchars. rewrite map_map. apply map_ext_in. intros d Hd.
  apply digit_sets. exact (fixed_digits_bound w n d Hd).
Qed.

Lemma lower_subject dt : map ascii_lower (subject dt) = lsubject dt.
Proof. unfold subject, lsubject. rewrite !map_app, !lower_dchars. reflexivity. Qed.

Lemma default_regex_matches dt :
  valid_datetime dt = true ->
  matches (lsubject dt) default_regex 0 [] 27 default_caps.
Proof.
  intros Hv. apply valid_datetime_iff in Hv as (Hd & Hh & Hmi & Hs & Hus).
  apply valid_date_iff in Hd as (_ & Hm & Hday).
  assert (Hdim : days_in_month (year dt) (month dt) <= 31) by apply days_in_month_le.
  unfold default_regex.
  eapply matches_seq; [apply matches_group; eapply year_matches; reflexivity|].
  eapply matches_seq; [apply matches_lit; reflexivity|].
  eapply matches_seq; [apply matches_group; apply (month_matches _ _ _ (month dt)); [lia | split; reflexivity]|].
  eapply matches_seq; [apply matches_lit; reflexivity|].
  eapply matches_seq; [apply matches_group; apply (day_matches _ _ _ (day dt)); [lia | split; reflexivity]|].
  eapply matches_seq; [apply matches_lit; reflexivity|].
  eapply matches_seq; [apply matches_group; apply (hour_matches _ _ _ (hour dt)); [lia | split; reflexivity]|].
  eapply matches_seq; [apply matches_lit; reflexivity|].
  eapply matches_seq; [apply matches_group; apply (minute_matches _ _ _ (minute dt)); [lia | split; reflexivity]|].
  eapply matches_seq; [apply matches_lit; reflexivity|].
  eapply matches_seq; [apply matches_group; apply (second_matches _ _ _ (second dt)); [lia | split; reflexivity]|].
  eapply matches_seq; [apply matches_lit; reflexivity|].
  eapply matches_seq.
  - apply matches_group. rewrite directive_node_f. apply matches_rep_set; [lia | cbn; lia |].
    intros t Ht. destruct t as [|[|[|[|[|[|t]]]]]]; try lia; eexists; (split; [reflexivity | apply digit_in_range]).
  - apply matches_lit. reflexivity.
Qed.


(** ** [strftime] prints the text [subject dt] *)

Lemma list_ascii_of_string_app a b :
  list_ascii_of_string (a ++ b) = (list_ascii_of_string a ++ list_ascii_of_string b)%list.
Proof. induction a as [|c a IH]; cbn; [reflexivity | now rewrite IH]. Qed.

Lemma digit_not_pct d : 0 <= d < 10 -> Ascii.eqb (digit_char d) "%" = false.
Proof.
  intros Hd. pose proof (digit_char_cases d Hd) as H.
  repeat destruct H as [H|H]; try rewrite <- H; [..|destruct H]; reflexivity.
Qed.

(** Without a [%], glibc copies the format. *)
Lemma glibc_scan_plain dt l :
  forallb (fun c => negb (Ascii.eqb c "%")) l = true -> glibc_scan dt l = Ok (string_of_list_ascii l).
Proof.
  induction l as [|c l IH]; cbn [forallb glibc_scan]; [reflexivity|].
  rewrite andb_true_iff. intros [-> Hl]. now rewrite IH.
Qed.

Lemma wrap_default dt :
  wrap_strftime dt DEFAULT_FORMAT = ("%Y-%m-%dT%H:%M:%S." ++ freplacement dt ++ "Z")%string.
Proof. reflexivity. Qed.

Lemma glibc_default dt l :
  glibc_scan dt (list_ascii_of_string "%Y-%m-%dT%H:%M:%S." ++ l)%list =
  (r <-? glibc_scan dt l ;;
   Ok (str_of_Z (year dt) ++ "-" ++ zero_pad 2 (month dt) ++ "-" ++ zero_pad 2 (day dt) ++ "T" ++
       zero_pad 2 (hour dt) ++ ":" ++ zero_pad 2 (minute dt) ++ ":" ++ zero_pad 2 (second dt)
       ++ "." ++ r)%string).
Proof.
  cbn [list_ascii_of_string app glibc_scan Ascii.eqb Bool.eqb negb andb str_mem existsb
       glibc_conversions conversion].
  destruct (glibc_scan dt l) as [r|e]; reflexivity.
Qed.

(** What [strftime] prints with the default format for every valid
    datetime: the year unpadded ([%Y] of glibc), then the other fields. *)
Lemma strftime_default_text dt :
  valid_datetime dt = true ->
  strftime dt DEFAULT_FORMAT = Ok (str_of_Z (year dt) ++ string_of_list_ascii (subject_tail dt))%string.
Proof.
  intros Hv. apply valid_datetime_iff in Hv as (Hd & Hh & Hmi & Hs & Hus).
  apply valid_date_iff in Hd as (Hyr & Hm & Hday).
  assert (Hdim : days_in_month (year dt) (month dt) <= 31) by apply days_in_month_le.
  unfold MINYEAR, MAXYEAR, US_PER_SECOND in *.
  unfold strftime, time_strftime. rewrite wrap_default, list_ascii_of_string_app, glibc_default.
  unfold freplacement. rewrite (zero_pad_fixed 6) by (cbn; lia).
  unfold string_of_digits. rewrite list_ascii_of_string_app, list_ascii_of_string_of_list_ascii.
  rewrite glibc_scan_plain.
  2: { rewrite forallb_app. apply andb_true_intro. split; [|reflexivity].
       apply forallb_forall. intros c Hc. apply in_map_iff in Hc as [d [<- Hd]].
       rewrite digit_not_pct; [reflexivity | exact (fixed_digits_bound _ _ _ Hd)]. }
  cbn [rbind]. f_equal. rewrite !(zero_pad_fixed 2) by (cbn; lia).
  unfold subject_tail, dchars, string_of_digits. rewrite !string_of_list_ascii_app. reflexivity.
Qed.

Lemma strftime_default dt :
  valid_datetime dt = true -> 1000 <= year dt ->
  strftime dt DEFAULT_FORMAT = Ok (string_of_list_ascii (subject dt)).
Proof.
  intros Hv Hy. rewrite (strftime_default_text dt Hv).
  apply valid_datetime_iff in Hv as (Hd & _). apply valid_date_iff in Hd as (Hyr & _).
  unfold MAXYEAR in Hyr. rewrite (str_of_Z_fixed 4) by (cbn; lia).
  change (subject dt) with (dchars 4 (year dt) ++ subject_tail dt)%list.
  unfold string_of_digits. rewrite string_of_list_ascii_app. reflexivity.
Qed.


(** ** [strptime] reads the text back *)

Lemma int_of_dchars w n : 0 <= n < 10 ^ Z.of_nat w -> int_of_digits (string_of_list_ascii (dchars w n)) = n.
Proof. intros Hn. exact (eq_trans (int_of_digits_fixed w n) (Z.mod_small _ _ Hn)). Qed.

(** The [%f] conversion pads six digits with no zero. *)
Lemma fraction_pad n :
  (string_of_list_ascii (dchars 6 n)
   ++ string_of_list_ascii (repeat "0"%char (6 - String.length (string_of_list_ascii (dchars 6 n)))))%string
  = string_of_list_ascii (dchars 6 n).
Proof.
  unfold dchars. rewrite length_string_of_list_ascii, length_map, length_fixed_digits. cbn [Nat.sub repeat].
  rewrite <- string_of_list_ascii_app, app_nil_r. reflexivity.
Qed.

(** [_strptime]'s [datetime(...)] on the fields of a valid datetime. *)
Lemma build_valid_fields dt :
  valid_datetime dt = true ->
  build (mk_fields (Some (year dt)) (month dt) (day dt) (hour dt) (minute dt) (second dt)
                   (microsecond dt) None) = Ok dt.
Proof.
  intros Hv. pose proof Hv as Hv'. apply valid_datetime_iff in Hv' as (Hd & Hh & Hmi & Hs & Hus).
  pose proof Hd as Hd'. apply valid_date_iff in Hd' as (Hyr & _).
  assert (H1 : valid_date (year dt) 1 1 = true).
  { apply valid_date_iff. pose proof (days_in_month_pos (year dt) 1). lia. }
  unfold build. cbn [rbind]. rewrite (check_date_args_ok _ _ _ Hd), (check_date_args_ok _ _ _ H1).
  cbn [rbind]. unfold new_datetime.
  rewrite (check_date_args_ok _ _ _ Hd), check_time_args_ok by assumption.
  destruct dt. reflexivity.
Qed.

(** The fields of a datetime at their places in a text. *)
Definition field_slices (t : list ascii) (dt : datetime) : Prop :=
  slice t 0 4 = dchars 4 (year dt) /\ slice t 5 7 = dchars 2 (month dt) /\
  slice t 8 10 = dchars 2 (day dt) /\ slice t 11 13 = dchars 2 (hour dt) /\
  slice t 14 16 = dchars 2 (minute dt) /\ slice t 17 19 = dchars 2 (second dt) /\
  slice t 20 26 = dchars 6 (microsecond dt).

(** [strptime] with the default format on any text whose lowering is
    the lowered text of [dt] and whose fields are those of [dt]. *)
Lemma strptime_default_fields dt t :
  valid_datetime dt = true -> 1000 <= year dt ->
  map ascii_lower t = lsubject dt -> List.length t = 27%nat -> field_slices t dt ->
  strptime (string_of_list_ascii t) DEFAULT_FORMAT = Ok dt.
Proof.
  intros Hv Hy Hl Hlen (E1 & E2 & E3 & E4 & E5 & E6 & E7).
  pose proof Hv as Hv'. apply valid_datetime_iff in Hv' as (Hd & Hh & Hmi & Hs & Hus).
  apply valid_date_iff in Hd as (Hyr & Hm & Hday).
  assert (Hdim : days_in_month (year dt) (month dt) <= 31) by apply days_in_month_le.
  unfold MINYEAR, MAXYEAR, US_PER_SECOND in *.
  unfold strptime. rewrite compile_default. cbn [rbind].
  rewrite list_ascii_of_string_of_list_ascii, Hl.
  rewrite (match_here_matches _ _ _ _ _ (default_regex_matches dt Hv)).
  rewrite Hlen. cbn [Nat.eqb negb].
  cbn [fold_left default_names lookup_cap default_caps Nat.eqb].
  rewrite E1, E2, E3, E4, E5, E6, E7.
  cbn [set_field initial_fields Ascii.eqb Bool.eqb].
  rewrite fraction_pad, !int_of_dchars by (cbn; lia).
  exact (build_valid_fields dt Hv).
Qed.

Lemma strptime_default dt :
  valid_datetime dt = true -> 1000 <= year dt ->
  strptime (string_of_list_ascii (subject dt)) DEFAULT_FORMAT = Ok dt.
Proof.
  intros Hv Hy. apply strptime_default_fields; [exact Hv|exact Hy|apply lower_subject|reflexivity|].
  repeat split.
Qed.


(** ** Shifting with the default formats *)

(** A shift whose end stays in range never meets the day limit of
    [timedelta]. *)
Lemma shift_days_bound dt x :
  valid_datetime dt = true -> in_range_us (to_us dt + x) = true ->
  (- MAX_DELTA_DAYS <=? x / US_PER_DAY) && (x / US_PER_DAY <=? MAX_DELTA_DAYS) = true.
Proof.
  intros Hv Hr. destruct (to_us_correct dt Hv) as [Hr0 _].
  unfold in_range_us, MAXORDINAL in *. rewrite andb_true_iff, Z.leb_le, Z.ltb_lt in Hr, Hr0.
  apply andb_true_intro. rewrite !Z.leb_le. unfold MAX_DELTA_DAYS. unfold_units. split.
  - apply Z.div_le_lower_bound; lia.
  - apply Z.div_le_upper_bound; lia.
Qed.

(** One call of [datetime_modify] with the default formats on the text
    of a valid datetime from the year 1000, an [int] amount [n <> 0] of a
    unit worth [m] seconds: [seconds_modified] is [n * m] and the
    [datetime_string] is the text of the shifted datetime. *)
Lemma datetime_modify_default_shift now dt u m n :
  valid_datetime dt = true -> 1000 <= year dt -> conversions_get u = Some m -> n <> 0 ->
  in_range_us (to_us dt + n * m * US_PER_SECOND) = true ->
  1000 <= year (from_us (to_us dt + n * m * US_PER_SECOND)) ->
  result_fields (fst (run (datetime_modify now (PStr (string_of_list_ascii (subject dt)))
                             (PStr DEFAULT_FORMAT) (PStr u) (PInt n) (PStr DEFAULT_FORMAT))))
  = Some (PInt (n * m), PStr (string_of_list_ascii (subject (from_us (to_us dt + n * m * US_PER_SECOND))))).
Proof.
  intros Hv Hy Hm Hn Hr Hy'.
  assert (Ha : default_amount (PInt n) = PInt n)
    by (unfold default_amount; cbn; now rewrite (proj2 (Z.eqb_neq n 0) Hn)).
  rewrite (datetime_modify_run now _ _ u (PInt n) _ dt m)
    by first [discriminate | exact (strptime_default dt Hv Hy) | exact Hm | now rewrite Ha].
  cbv zeta. rewrite Ha. cbn [num_mul to_pynum].
  replace (delta_new_seconds (NInt (n * m))) with (microseconds_to_delta (n * m * US_PER_SECOND)) by reflexivity.
  destruct (microseconds_to_delta_correct (n * m * US_PER_SECOND)) as [H1 H2].
  destruct (microseconds_to_delta (n * m * US_PER_SECOND)) as [td|e].
  - destruct H1 as [_ ->]. rewrite Hr.
    destruct (from_us_correct _ Hr) as [Hv' _]. rewrite (strftime_default _ Hv' Hy'). reflexivity.
  - rewrite (shift_days_bound dt _ Hv Hr) in H2. discriminate H2.
Qed.

(** C3. [strptime] reads back what [strftime] prints with the default
    format ["%Y-%m-%dT%H:%M:%S.%fZ"], for every valid datetime from the
    year 1000 on. *)
Theorem strftime_strptime_default dt :
  valid_datetime dt = true -> 1000 <= year dt ->
  (text <-? strftime dt DEFAULT_FORMAT ;; strptime text DEFAULT_FORMAT) = Ok dt.
Proof. intros Hv Hy. rewrite (strftime_default dt Hv Hy). exact (strptime_default dt Hv Hy). Qed.

(** C4. The spec's round trip: with the default formats, shifting the
    text of a datetime by [n] units and shifting the result by [-n]
    units gives the original text back, when both datetimes are in range
    and have four-digit years (below the year 1000 the round trip fails,
    [datetime_modify_year_below_1000]). *)
Theorem datetime_modify_shift_back now dt s0 u m n :
  valid_datetime dt = true -> 1000 <= year dt -> strftime dt DEFAULT_FORMAT = Ok s0 ->
  conversions_get u = Some m -> n <> 0 ->
  in_range_us (to_us dt + n * m * US_PER_SECOND) = true ->
  1000 <= year (from_us (to_us dt + n * m * US_PER_SECOND)) ->
  exists s1,
    result_fields (fst (run (datetime_modify now (PStr s0) (PStr DEFAULT_FORMAT) (PStr u) (PInt n)
                               (PStr DEFAULT_FORMAT)))) = Some (PInt (n * m), PStr s1) /\
    result_fields (fst (run (datetime_modify now (PStr s1) (PStr DEFAULT_FORMAT) (PStr u) (PInt (- n))
                               (PStr DEFAULT_FORMAT)))) = Some (PInt (- n * m), PStr s0).
Proof.
  intros Hv Hy Hs0 Hm Hn Hr Hy'.
  rewrite (strftime_default dt Hv Hy) in Hs0. injection Hs0 as <-.
  set (dt' := from_us (to_us dt + n * m * US_PER_SECOND)).
  destruct (from_us_correct _ Hr) as [Hv' Hus'].
  exists (string_of_list_ascii (subject dt')). split; [exact (datetime_modify_default_shift now dt u m n Hv Hy Hm Hn Hr Hy')|].
  assert (Hback : to_us dt' + - n * m * US_PER_SECOND = to_us dt) by (unfold dt'; rewrite Hus'; lia).
  destruct (to_us_correct dt Hv) as [Hr0 Hdt].
  rewrite (datetime_modify_default_shift now dt' u m (- n) Hv' Hy' Hm ltac:(lia)); rewrite Hback, ?Hdt; auto.
Qed.

(** ** Years before 1000 and lower-case input *)

(** A year from 1 to 999 has one to three digits. *)
Lemma short_year_digits y :
  1 <= y < 1000 -> exists k, (1 <= k <= 3)%nat /\ str_of_Z y = string_of_digits (fixed_digits k y).
Proof.
  intros Hy. destruct (Z.lt_ge_cases y 10); [exists 1%nat|destruct (Z.lt_ge_cases y 100);
    [exists 2%nat|exists 3%nat]]; (split; [lia|apply str_of_Z_fixed; cbn; lia]).
Qed.

(** The four digits of [%Y] do not match one to three digits followed
    by a dash. *)
Lemma year_node_fails k y rest c R (K : nat -> caps -> option R) :
  (1 <= k <= 3)%nat -> mtch (dchars k y ++ "-" :: rest)%char (directive_node "Y") 0 c K = None.
Proof.
  intros Hk. rewrite directive_node_Y.
  destruct k as [|[|[|[|k]]]]; try lia; cbn [mtch]; unfold one_char, char_at, dchars;
    cbn [fixed_digits map app nth_error]; rewrite ?digit_in_cat; reflexivity.
Qed.

(** [strptime] with the default format rejects the text of a datetime
    before the year 1000. *)
Lemma strptime_below_1000 dt :
  valid_datetime dt = true -> year dt < 1000 ->
  let text := (str_of_Z (year dt) ++ string_of_list_ascii (subject_tail dt))%string in
  strptime text DEFAULT_FORMAT =
  fail ValueError ("time data " ++ py_repr text ++ " does not match format " ++ py_repr DEFAULT_FORMAT).
Proof.
  intros Hv Hy text. apply valid_datetime_iff in Hv as (Hd & _). apply valid_date_iff in Hd as (Hyr & _).
  unfold MINYEAR in Hyr. destruct (short_year_digits (year dt) ltac:(lia)) as [k [Hk Hs]].
  unfold strptime. rewrite compile_default. cbn [rbind].
  unfold text at 1. rewrite list_ascii_of_string_app, list_ascii_of_string_of_list_ascii, Hs.
  unfold string_of_digits. rewrite list_ascii_of_string_of_list_ascii. fold (dchars k (year dt)).
  rewrite map_app, lower_dchars. unfold match_here, default_regex. cbn [mtch subject_tail app map].
  rewrite (year_node_fails k (year dt)) by exact Hk. reflexivity.
Qed.

(** C19. The round trip fails before the year 1000: the text [strftime]
    prints with the default format for a datetime before the year 1000
    (an unpadded year, [999-12-31T...]) makes [datetime_modify] with the
    default input format raise [ValueError], whatever the unit, amount
    and output format.  The spec's shift-back round trip (C4) needs its
    bound on the year. *)
Theorem datetime_modify_year_below_1000 now dt s u a fo :
  valid_datetime dt = true -> year dt < 1000 -> strftime dt DEFAULT_FORMAT = Ok s ->
  run (datetime_modify now (PStr s) PNone u a fo) =
  (Err (mk_exc ValueError ("time data " ++ py_repr s ++ " does not match format " ++ py_repr DEFAULT_FORMAT)), []).
Proof.
  intros Hv Hy Hs. rewrite (strftime_default_text dt Hv) in Hs. injection Hs as <-.
  apply datetime_modify_input_error; [destruct (str_of_Z (year dt)); discriminate|].
  exact (strptime_below_1000 dt Hv Hy).
Qed.

(** The lowered text of a datetime: its own lowering, its fields in place. *)
Lemma lower_lsubject dt : map ascii_lower (lsubject dt) = lsubject dt.
Proof. unfold lsubject. rewrite !map_app, !lower_dchars. reflexivity. Qed.

(** C30. [strptime] compiles its pattern with [IGNORECASE]: the default
    input format also accepts its literal [T] and [Z] as [t] and [z],
    and [datetime_modify] on the lower-case text of a datetime from the
    year 1000 runs exactly as on the text itself (result and log), for
    every unit, amount and output format. *)
Theorem datetime_modify_lowercase_input now dt u a fo :
  valid_datetime dt = true -> 1000 <= year dt ->
  run (datetime_modify now (PStr (string_of_list_ascii (lsubject dt))) PNone u a fo) =
  run (datetime_modify now (PStr (string_of_list_ascii (subject dt))) PNone u a fo).
Proof.
  intros Hv Hy. apply datetime_modify_same_parse; [unfold lsubject; destruct (dchars 4 _); discriminate
                                                  |unfold subject; destruct (dchars 4 _); discriminate|].
  cbn [default_format truthy py_strptime arg_str rbind].
  rewrite (strptime_default dt Hv Hy).
  apply strptime_default_fields; [exact Hv|exact Hy|apply lower_lsubject|reflexivity|repeat split].
Qed.

(** ** Witnesses *)

Definition leap_day_end : datetime := mk_datetime 2024 2 29 23 59 59 999999.

Lemma strftime_strptime_default_witness :
  valid_datetime leap_day_end = true /\ 1000 <= year leap_day_end /\
  (text <-? strftime leap_day_end DEFAULT_FORMAT ;; strptime text DEFAULT_FORMAT) = Ok leap_day_end.
Proof.
  split; [reflexivity|]. split; [cbn; lia|].
  exact (strftime_strptime_default leap_day_end eq_refl ltac:(cbn; lia)).
Defined.


Definition leap_day_text : string := "2024-02-29T23:59:59.999999Z".

Lemma datetime_modify_shift_back_witness :
  exists s1,
    result_fields (fst (run (datetime_modify leap_day_end (PStr leap_day_text) (PStr DEFAULT_FORMAT)
                               (PStr "days") (PInt 1) (PStr DEFAULT_FORMAT))))
    = Some (PInt (1 * 86400), PStr s1) /\
    result_fields (fst (run (datetime_modify leap_day_end (PStr s1) (PStr DEFAULT_FORMAT)
                               (PStr "days") (PInt (- 1)) (PStr DEFAULT_FORMAT))))
    = Some (PInt (- 1 * 86400), PStr leap_day_text).
Proof.
  apply (datetime_modify_shift_back leap_day_end leap_day_end leap_day_text "days" 86400 1);
    [reflexivity | cbn; lia | vm_compute; reflexivity | reflexivity | lia
    | vm_compute; reflexivity | apply Z.leb_le; vm_compute; reflexivity].
Defined.

Definition year_999 : datetime := mk_datetime 999 12 31 0 0 0 0.

Lemma datetime_modify_year_below_1000_witness :
  run (datetime_modify leap_day_end (PStr "999-12-31T00:00:00.000000Z") PNone (PStr "days") (PInt 1) PNone) =
  (Err (mk_exc ValueError ("time data " ++ py_repr "999-12-31T00:00:00.000000Z" ++ " does not match format "
                           ++ py_repr DEFAULT_FORMAT)), []).
Proof.
  exact (datetime_modify_year_below_1000 leap_day_end year_999 _ (PStr "days") (PInt 1) PNone
           eq_refl ltac:(cbn; lia) ltac:(vm_compute; reflexivity)).
Defined.

Lemma datetime_modify_lowercase_input_witness :
  run (datetime_modify leap_day_end (PStr (string_of_list_ascii (lsubject leap_day_end))) PNone
         (PStr "seconds") (PInt 1) PNone) =
  run (datetime_modify leap_day_end (PStr (string_of_list_ascii (subject leap_day_end))) PNone
         (PStr "seconds") (PInt 1) PNone).
Proof. exact (datetime_modify_lowercase_input leap_day_end leap_day_end _ _ _ eq_refl ltac:(cbn; lia)). Defined.

End FormatRoundtrip.
